(** * Deployment orchestrator of AutoCloud (server/azure-deploy.ts, server/azure.ts)

    A shallow embedding of the two deployment paths of the server:
    - [Deploy]: the process-spawning orchestrator of azure-deploy.ts, with
      its in-memory registry [activeDeployments] of job records, the
      update function [addDeploymentUpdate], [executeCommand] and the
      background job [deployTerraform] started by [deployToAzure];
    - [Sdk]: the SDK / execSync path of azure.ts, with
      [authenticateWithAzure], [runTerraformPlan] and [applyTerraformPlan];
    - [Routes]: the Azure routes of server/terraform.ts that call them.

    The outside world (child processes, the file system, the clock, the
    Azure SDK, [JSON.parse]) is an explicit environment record: each
    operation of the source that asks the world something reads it from
    that record, and everything the source computes itself is written
    out. *)

From Stdlib Require Import String Ascii ZArith.
From stdpp Require Import base gmap strings list pretty.

Local Open Scope Z_scope.
Set Warnings "-register-all".

(** ** JavaScript values and helpers shared by both files *)
Module Js.

(** A JSON value as [JSON.parse] returns it. Numbers keep the text
    [String(n)] gives for them; an object keeps its entries in the order
    [Object.entries] enumerates them. *)
Inductive Json :=
| JNull
| JBool (b : bool)
| JNum (text : string)
| JStr (s : string)
| JArr (xs : list Json)
| JObj (kvs : list (string * Json)).

(** JavaScript truthiness of a JSON value. *)
Definition truthy (v : Json) : bool :=
  match v with
  | JNull => false
  | JBool b => b
  | JNum t => negb (String.eqb t "0" || String.eqb t "-0" || String.eqb t "NaN")
  | JStr s => negb (String.eqb s "")
  | JArr _ | JObj _ => true
  end.

(** Truthiness of a value that may be [undefined] ([None]). *)
Definition truthy_opt (v : option Json) : bool :=
  match v with Some j => truthy j | None => false end.

(** Property read [o[k]] on an object (the last duplicate wins, as in
    [JSON.parse]). *)
Fixpoint obj_get (kvs : list (string * Json)) (k : string) : option Json :=
  match kvs with
  | [] => None
  | (k', v) :: rest =>
      match obj_get rest k with
      | Some w => Some w
      | None => if String.eqb k k' then Some v else None
      end
  end.

Definition nl : string := String (ascii_of_nat 10) EmptyString.
Definition dq : string := String (ascii_of_nat 34) EmptyString.

(** [s.includes(sub)] *)
Definition includes (s sub : string) : bool :=
  match String.index 0 sub s with Some _ => true | None => false end.

(** [args.join(' ')] *)
Fixpoint join (sep : string) (xs : list string) : string :=
  match xs with
  | [] => ""
  | [x] => x
  | x :: rest => x +:+ sep +:+ join sep rest
  end.

(** [s.split('/')] *)
Fixpoint split_slash (s : string) : list string :=
  match s with
  | EmptyString => [""]
  | String c rest =>
      let parts := split_slash rest in
      if Ascii.eqb c "/"%char then "" :: parts
      else match parts with
           | p :: ps => String c p :: ps
           | [] => [String c EmptyString]
           end
  end.

(** The segment loop of Node's [normalizeString] for POSIX paths: empty
    and "." segments are skipped; ".." drops the last kept segment unless
    that is ".." itself, and with nothing to drop it is kept in a relative
    path ([allowAboveRoot]) and discarded in an absolute one. [acc] holds
    the kept segments, the last one first. *)
Fixpoint normalize_segs (allowAboveRoot : bool) (acc : list string) (segs : list string)
    : list string :=
  match segs with
  | [] => acc
  | s :: rest =>
      if String.eqb s "" || String.eqb s "." then normalize_segs allowAboveRoot acc rest
      else if String.eqb s ".." then
        match acc with
        | t :: acc' =>
            if String.eqb t ".." then
              normalize_segs allowAboveRoot (if allowAboveRoot then ".." :: acc else acc) rest
            else normalize_segs allowAboveRoot acc' rest
        | [] => normalize_segs allowAboveRoot (if allowAboveRoot then [".."] else []) rest
        end
      else normalize_segs allowAboveRoot (s :: acc) rest
  end.

(** [path.charCodeAt(0) === 47] *)
Definition starts_with_slash (s : string) : bool :=
  match s with String c _ => Ascii.eqb c "/"%char | EmptyString => false end.

(** [path.charCodeAt(path.length - 1) === 47] *)
Fixpoint ends_with_slash (s : string) : bool :=
  match s with
  | EmptyString => false
  | String c EmptyString => Ascii.eqb c "/"%char
  | String _ rest => ends_with_slash rest
  end.

(** [path.posix.normalize(p)] *)
Definition path_normalize (p : string) : string :=
  if String.eqb p "" then "." else
  let isAbsolute := starts_with_slash p in
  let trailingSeparator := ends_with_slash p in
  let res := join "/" (rev (normalize_segs (negb isAbsolute) [] (split_slash p))) in
  if String.eqb res "" then
    (if isAbsolute then "/" else if trailingSeparator then "./" else ".")
  else
    let res' := if trailingSeparator then res +:+ "/" else res in
    if isAbsolute then "/" +:+ res' else res'.

(** [path.join(a, b)] ([path.posix.join]): the non-empty arguments joined
    with "/", then normalised; "." when both are empty. *)
Definition path_join (a b : string) : string :=
  if String.eqb a "" then (if String.eqb b "" then "." else path_normalize b)
  else if String.eqb b "" then path_normalize a
  else path_normalize (a +:+ "/" +:+ b).

(** [s.replace(a, b)] with a string pattern: only the first occurrence. *)
Definition replace_first (a b s : string) : string :=
  match String.index 0 a s with
  | Some i => String.substring 0 i s +:+ b
              +:+ String.substring (i + String.length a) (String.length s) s
  | None => s
  end.

(** Zero-padded decimal rendering with at least [w] digits. *)
Fixpoint zeros (k : nat) : string :=
  match k with O => "" | S k' => "0" +:+ zeros k' end.

Definition pad (w : nat) (s : string) : string := zeros (w - String.length s) +:+ s.

Definition pad_n (w : nat) (n : N) : string := pad w (pretty n).

(** [new Date(ms).toISOString()] for instants at or after 1970 (civil
    calendar from a day count, proleptic Gregorian). *)
Definition toISOString (t : N) : string :=
  let days := (t / 86400000)%N in
  let rem := (t mod 86400000)%N in
  let z := (days + 719468)%N in
  let era := (z / 146097)%N in
  let doe := (z - era * 146097)%N in
  let yoe := ((doe - doe / 1460 + doe / 36524 - doe / 146096) / 365)%N in
  let doy := (doe - (365 * yoe + yoe / 4 - yoe / 100))%N in
  let mp := ((5 * doy + 2) / 153)%N in
  let d := (doy - (153 * mp + 2) / 5 + 1)%N in
  let m := (if N.ltb mp 10 then mp + 3 else mp - 9)%N in
  let y := (yoe + era * 400 + (if N.leb m 2 then 1 else 0))%N in
  pad_n 4 y +:+ "-" +:+ pad_n 2 m +:+ "-" +:+ pad_n 2 d +:+ "T"
  +:+ pad_n 2 (rem / 3600000) +:+ ":" +:+ pad_n 2 ((rem / 60000) mod 60)
  +:+ ":" +:+ pad_n 2 ((rem / 1000) mod 60) +:+ "." +:+ pad_n 3 (rem mod 1000)
  +:+ "Z".

End Js.
Import Js.

(** ** server/azure-deploy.ts *)
Module Deploy.

(** The status union of [DeploymentUpdate] and [DeploymentStatus]. *)
Inductive DStatus :=
| Initializing | Authenticating | Preparing | Planning | Applying | Completed | Failed.

Definition DStatus_eq_dec (x y : DStatus) : {x = y} + {x <> y}.
Proof. decide equality. Defined.

Definition status_str (s : DStatus) : string :=
  match s with
  | Initializing => "initializing"
  | Authenticating => "authenticating"
  | Preparing => "preparing"
  | Planning => "planning"
  | Applying => "applying"
  | Completed => "completed"
  | Failed => "failed"
  end.

(** [interface DeploymentUpdate] ([details] is [undefined] as [None]). *)
Record DeploymentUpdate := mkUpdate {
  u_status : DStatus;
  u_message : string;
  u_details : option string;
  u_timestamp : string
}.

(** [interface DeploymentStatus] *)
Record DeploymentStatus := mkStatus {
  analysisId : string;
  repoName : string;
  status : DStatus;
  startTime : string;
  endTime : option string;
  updates : list DeploymentUpdate;
  logs : string
}.

(** [addDeploymentUpdate] at the instant whose ISO text is [ts], on the
    map [activeDeployments]. The record is mutated in place in the source;
    the map holds the only reference to it, so replacing the entry is the
    same effect. *)
Definition addDeploymentUpdate_at (ts : string) (deploymentId : string)
    (st : DStatus) (message : string) (details : option string)
    (reg : gmap string DeploymentStatus) : gmap string DeploymentStatus :=
  match reg !! deploymentId with
  | None => reg
  | Some d =>
      let update := mkUpdate st message details ts in
      let logs1 := logs d +:+ nl +:+ "[" +:+ ts +:+ "] " +:+ status_str st
                   +:+ ": " +:+ message in
      let logs2 := match details with
                   | Some s => if String.eqb s "" then logs1 else logs1 +:+ nl +:+ s
                   | None => logs1
                   end in
      let endT := match st with
                  | Completed | Failed => Some ts
                  | _ => endTime d
                  end in
      <[deploymentId := mkStatus (analysisId d) (repoName d) st (startTime d)
                          endT (updates d ++ [update]) logs2]> reg
  end.

(** [analysis.terraformCode.files] *)
Record TfFile := mkFile { file_name : string; file_content : string }.

(** The fields of [AnalysisResult] the orchestrator reads. *)
Record Analysis := mkAnalysis {
  a_id : string;
  a_repoName : string;
  terraformCode : option (list TfFile)
}.

Definition code_files (a : Analysis) : list TfFile :=
  match terraformCode a with Some fs => fs | None => [] end.

(** [`deploy-${analysis.id}-${Date.now()}`] *)
Definition newDeploymentId (a : Analysis) (now : N) : string :=
  "deploy-" +:+ a_id a +:+ "-" +:+ pretty now.

(** The synchronous part of [deployToAzure] before the background task
    starts: the guard, the id and the fresh record stored in the map.
    [None] is the thrown "No Terraform code available for deployment".
    The clock is read twice: [now] by [Date.now()] for the id and [start]
    by [new Date()] for [startTime]. *)
Definition register_job (a : Analysis) (now start : N)
    (reg : gmap string DeploymentStatus)
    : option (string * gmap string DeploymentStatus) :=
  match terraformCode a with
  | None | Some [] => None
  | Some _ =>
      let deploymentId := newDeploymentId a now in
      let deploymentStatus :=
        mkStatus (a_id a) (a_repoName a) Initializing (toISOString start) None [] "" in
      Some (deploymentId, <[deploymentId := deploymentStatus]> reg)
  end.

(** The first statement of [deployTerraform], which runs synchronously
    inside the call [deployTerraform(...)] of [deployToAzure], before its
    first [await]. *)
Definition initial_update (ts : string) (deploymentId : string) (a : Analysis)
    (reg : gmap string DeploymentStatus) : gmap string DeploymentStatus :=
  addDeploymentUpdate_at ts deploymentId Initializing
    ("Initializing deployment for " +:+ a_repoName a) None reg.

(** Operations other callers and background tasks perform on the map:
    an update of any job, or a new [deployToAzure] call up to its
    return (which includes the first update of its job). A call starting
    at [now] reads the clock [lag1] ms later for [startTime] and [lag2] ms
    after that for its first update. *)
Inductive RegOp :=
| OpUpdate (ts : string) (deploymentId : string) (st : DStatus) (message : string)
    (details : option string)
| OpDeploy (now lag1 lag2 : N) (a : Analysis).

Definition reg_step (op : RegOp) (reg : gmap string DeploymentStatus)
    : gmap string DeploymentStatus :=
  match op with
  | OpUpdate ts i st m d => addDeploymentUpdate_at ts i st m d reg
  | OpDeploy now lag1 lag2 a =>
      match register_job a now (now + lag1) reg with
      | None => reg
      | Some (i, reg') => initial_update (toISOString (now + lag1 + lag2)) i a reg'
      end
  end.

Definition run_ops (ops : list RegOp) (reg : gmap string DeploymentStatus)
    : gmap string DeploymentStatus :=
  fold_left (fun r op => reg_step op r) ops reg.

(** The state the background tasks share: the map, the clock, and the
    ['close'] events still to come of processes whose spawn failed (job,
    update message and output of each). Node emits ['error'] for such a
    process in the next tick, and its ['close'] (exit code -2) only once
    its pipes have closed, in a later turn of the event loop. *)
Record World := mkWorld {
  activeDeployments : gmap string DeploymentStatus;
  clock : N;
  pendingCloses : list (string * string * string)
}.

(** An async computation of the job: state passing with a rejection
    carrying the [message] of the thrown [Error]. *)
Definition M (A : Type) : Type := World -> World * (string + A).

#[global] Instance M_ret : MRet M := fun A a w => (w, inr a).
#[global] Instance M_bind : MBind M := fun A B k m w =>
  match m w with
  | (w', inl e) => (w', inl e)
  | (w', inr a) => k a w'
  end.

Definition throw {A} (message : string) : M A := fun w => (w, inl message).

(** [try { m } catch (error) { h(error.message) }] *)
Definition catch {A} (m : M A) (h : string -> M A) : M A := fun w =>
  match m w with
  | (w', inl e) => h e w'
  | (w', inr a) => (w', inr a)
  end.

Definition addDeploymentUpdate (deploymentId : string) (st : DStatus)
    (message : string) (details : option string) : M unit := fun w =>
  (mkWorld (addDeploymentUpdate_at (toISOString (clock w)) deploymentId st message
              details (activeDeployments w)) (clock w) (pendingCloses w), inr tt).

(** How a spawned process ends: its ['close'] event with the exit code
    ([null] as [None]) or its ['error'] event (e.g. "spawn az ENOENT"). *)
Inductive ProcEnd :=
| Close (code : option Z)
| SpawnError (message : string).

(** What the operating system does with one spawned process: the chunks
    of stdout/stderr in arrival order, how it ends, and the time it
    takes. *)
Record Proc := mkProc { chunks : list string; ending : ProcEnd; duration : N }.

(** The world outside the process: spawned commands (by command,
    arguments and cwd), [JSON.parse], and the file system calls of
    [deployTerraform] ([existsSync], [mkdirSync], [writeFileSync]; [Some]
    is the message of the thrown error). *)
Record Env := mkEnv {
  spawn_result : string -> list string -> string -> Proc;
  json_parse : string -> string + Json;
  existsSync : string -> bool;
  mkdir_error : string -> option string;
  write_error : string -> string -> option string
}.

Definition code_str (code : option Z) : string :=
  match code with Some c => pretty c | None => "null" end.

Definition advance (d : N) : M unit := fun w =>
  (mkWorld (activeDeployments w) (clock w + d)%N (pendingCloses w), inr tt).

(** The ['close'] handler of a process whose spawn failed, when it runs:
    [code] is -2, not 0, so it records [Command failed: ...] with the
    output gathered (its [reject] comes after the one of ['error'] and
    has no effect). *)
Definition late_close_at (ts : string) (reg : gmap string DeploymentStatus)
    (c : string * string * string) : gmap string DeploymentStatus :=
  addDeploymentUpdate_at ts c.1.1 Failed c.1.2 (Some c.2) reg.

(** The pending ['close'] events fire, in the order of their processes. *)
Definition run_pending_closes : M unit := fun w =>
  (mkWorld (fold_left (late_close_at (toISOString (clock w))) (pendingCloses w)
              (activeDeployments w)) (clock w) [], inr tt).

Definition defer_close (deploymentId message output : string) : M unit := fun w =>
  (mkWorld (activeDeployments w) (clock w)
     (pendingCloses w ++ [(deploymentId, message, output)]), inr tt).

(** The ['data'] handlers of stdout and stderr, one call per chunk. *)
Fixpoint on_data (onOutput : option (string -> M unit)) (cs : list string)
    (output : string) : M string :=
  match cs with
  | [] => mret output
  | c :: rest =>
      let output' := output +:+ c in
      (match onOutput with Some f => f c | None => mret tt end) ;;
      on_data onOutput rest output'
  end.

(** [executeCommand]: the process runs to its end event; its chunks are
    delivered first, then [close] (exit code) or [error]. A process that
    runs lets the pending ['close'] events of earlier failed spawns fire
    first; a failed spawn reports its ['error'] in the next tick, and its
    own ['close'] becomes pending. *)
Definition executeCommand (env : Env) (command : string) (args : list string)
    (cwd : string) (deploymentId : string) (onOutput : option (string -> M unit))
    : M (Z * string) :=
  let p := spawn_result env command args cwd in
  (match ending p with SpawnError _ => mret tt | Close _ => run_pending_closes end) ;;
  output ← on_data onOutput (chunks p) "";
  advance (duration p) ;;
  match ending p with
  | Close (Some 0) => mret (0, output)
  | Close code =>
      addDeploymentUpdate deploymentId Failed
        ("Command failed: " +:+ command +:+ " " +:+ join " " args) (Some output) ;;
      throw ("Command failed with exit code " +:+ code_str code +:+ ": " +:+ output)
  | SpawnError msg =>
      addDeploymentUpdate deploymentId Failed ("Command error: " +:+ msg) (Some output) ;;
      defer_close deploymentId ("Command failed: " +:+ command +:+ " " +:+ join " " args) output ;;
      throw msg
  end.

Definition checkAzCliInstalled (env : Env) (deploymentId : string) : M bool :=
  catch (r ← executeCommand env "az" ["--version"] "." deploymentId None;
         mret (includes r.2 "azure-cli"))
        (fun _ => mret false).

Definition checkTerraformInstalled (env : Env) (deploymentId : string) : M bool :=
  catch (r ← executeCommand env "terraform" ["--version"] "." deploymentId None;
         mret (includes r.2 "Terraform"))
        (fun _ => mret false).

(** [!!JSON.parse(output).id]; reading [id] of [null] throws. *)
Definition checkAzureAuthentication (env : Env) (deploymentId : string) : M bool :=
  catch (r ← executeCommand env "az" ["account"; "show"] "." deploymentId None;
         match json_parse env r.2 with
         | inl err => throw err
         | inr JNull => throw "Cannot read properties of null (reading 'id')"
         | inr (JObj kvs) => mret (truthy_opt (obj_get kvs "id"))
         | inr _ => mret false
         end)
        (fun _ => mret false).

Definition loginToAzure (env : Env) (deploymentId : string) : M unit :=
  isAuthenticated ← checkAzureAuthentication env deploymentId;
  if (isAuthenticated : bool) then
    addDeploymentUpdate deploymentId Authenticating "Already authenticated with Azure" None
  else
    addDeploymentUpdate deploymentId Authenticating
      "Starting Azure authentication process..." None ;;
    executeCommand env "az" ["login"; "--use-device-code"] "." deploymentId
      (Some (fun data => addDeploymentUpdate deploymentId Authenticating
                           "Azure authentication in progress" (Some data))) ;;
    addDeploymentUpdate deploymentId Authenticating
      "Successfully authenticated with Azure" None.

(** [path.join('./tmp', `${analysis.repoName.replace('/', '_')}_terraform_deploy`)] *)
Definition deployDir (repoName : string) : string :=
  path_join "./tmp" (replace_first "/" "_" repoName +:+ "_terraform_deploy").

(** [if (!fs.existsSync(deployDir)) fs.mkdirSync(deployDir, { recursive: true })] *)
Definition ensureDir (env : Env) (dir : string) : M unit :=
  if existsSync env dir then mret tt
  else match mkdir_error env dir with
       | Some e => throw e
       | None => mret tt
       end.

(** The loop of [fs.writeFileSync(path.join(deployDir, file.name), file.content)]. *)
Fixpoint writeFiles (env : Env) (dir : string) (files : list TfFile) : M unit :=
  match files with
  | [] => mret tt
  | f :: rest =>
      match write_error env (path_join dir (file_name f)) (file_content f) with
      | Some e => throw e
      | None => writeFiles env dir rest
      end
  end.

(** The body of the [try] of [deployTerraform] after its first statement. *)
Definition deployTerraform_rest (env : Env) (deploymentId : string) (a : Analysis)
    : M unit :=
  hasAzCli ← checkAzCliInstalled env deploymentId;
  if negb (hasAzCli : bool) then throw "Azure CLI is not installed" else
  hasTerraform ← checkTerraformInstalled env deploymentId;
  if negb (hasTerraform : bool) then throw "Terraform is not installed" else
  loginToAzure env deploymentId ;;
  let dir := deployDir (a_repoName a) in
  addDeploymentUpdate deploymentId Preparing
    ("Preparing deployment directory: " +:+ dir) None ;;
  ensureDir env dir ;;
  writeFiles env dir (code_files a) ;;
  addDeploymentUpdate deploymentId Preparing "Initializing Terraform" None ;;
  executeCommand env "terraform" ["init"] dir deploymentId
    (Some (fun data => addDeploymentUpdate deploymentId Preparing
                         "Terraform initialization in progress" (Some data))) ;;
  addDeploymentUpdate deploymentId Planning "Planning Terraform deployment" None ;;
  executeCommand env "terraform" ["plan"; "-out=tfplan"] dir deploymentId
    (Some (fun data => addDeploymentUpdate deploymentId Planning
                         "Terraform plan in progress" (Some data))) ;;
  addDeploymentUpdate deploymentId Applying "Applying Terraform deployment" None ;;
  executeCommand env "terraform" ["apply"; "-auto-approve"; "tfplan"] dir deploymentId
    (Some (fun data => addDeploymentUpdate deploymentId Applying
                         "Terraform apply in progress" (Some data))) ;;
  addDeploymentUpdate deploymentId Completed
    ("Deployment completed successfully for " +:+ a_repoName a) None.

(** [deployTerraform]: its [catch] records the failure and rethrows. *)
Definition deployTerraform (env : Env) (deploymentId : string) (a : Analysis)
    : M unit :=
  catch
    (addDeploymentUpdate deploymentId Initializing
       ("Initializing deployment for " +:+ a_repoName a) None ;;
     deployTerraform_rest env deploymentId a)
    (fun errorMessage =>
       addDeploymentUpdate deploymentId Failed ("Deployment failed: " +:+ errorMessage) None ;;
       throw errorMessage).

(** The synchronous part of [deployToAzure] in the monad, up to the
    [new Date()] of [startTime], read [lag1] ms after [Date.now()]. *)
Definition startDeployment (lag1 : N) (a : Analysis) : M string := fun w =>
  match register_job a (clock w) (clock w + lag1) (activeDeployments w) with
  | None => (w, inl "No Terraform code available for deployment")
  | Some (i, reg') => (mkWorld reg' (clock w + lag1) (pendingCloses w), inr i)
  end.

(** [deployToAzure] as the caller sees it when the call returns: the
    record is in the map and the synchronous prefix of [deployTerraform]
    (its first update, [lag2] ms after [startTime]) has run. *)
Definition deployToAzure (lag1 lag2 : N) (a : Analysis) : M string :=
  deploymentId ← startDeployment lag1 a;
  advance lag2 ;;
  addDeploymentUpdate deploymentId Initializing
    ("Initializing deployment for " +:+ a_repoName a) None ;;
  mret deploymentId.

(** A whole job: [deployToAzure] and its background task run to the end,
    with the [.catch] of [deployToAzure] that records the failure once
    more; the ['close'] events still pending fire after that promise
    chain has settled. *)
Definition deployment_job (env : Env) (lag1 lag2 : N) (a : Analysis) : M string :=
  deploymentId ← startDeployment lag1 a;
  advance lag2 ;;
  catch (deployTerraform env deploymentId a)
        (fun errorMessage =>
           addDeploymentUpdate deploymentId Failed
             ("Deployment failed: " +:+ errorMessage) None) ;;
  run_pending_closes ;;
  mret deploymentId.

End Deploy.

(** ** server/azure.ts *)
Module Sdk.

(** What [execSync] does: its stdout, or the thrown error's [message] and
    [stderr]. *)
Inductive ExecResult :=
| ExecOk (stdout : string)
| ExecErr (message stderr : string).

(** The analysis record [storage.getAnalysis] returns (the fields read). *)
Record StoredAnalysis := mkStored {
  repoUrl : string;
  terraformCode : option (list Deploy.TfFile)
}.

(** The outside world of azure.ts: [process.env], the Azure SDK calls
    ([Some] is the rejection message), storage, [tmp.dirSync], file
    writes, [which terraform], [execSync] (by cwd and command line),
    [JSON.parse], and the [new Date().toISOString()] written into
    terraform.tfvars. *)
Record Env := mkEnv {
  process_env : string -> option string;
  credential_error : option string;
  getToken_error : option string;
  resources_list_error : option string;
  getAnalysis : string -> option StoredAnalysis;
  tmp_dirSync : string + string;
  write_error : string -> option string;
  which_terraform : bool;
  execSync : string -> string -> ExecResult;
  json_parse : string -> string + Json;
  date_iso : string
}.

(** One [execSync] of a terraform command: its cwd, command line and
    whether it succeeded. *)
Record ExecCall := mkCall { call_cwd : string; call_command : string; call_ok : bool }.

(** The state: the files on disk, the terraform commands run so far, and
    the [logs] array of the running function. *)
Record St := mkSt {
  fs : gmap string string;
  trace : list ExecCall;
  logs : list string
}.

Definition M (A : Type) : Type := St -> St * (string + A).

#[global] Instance M_ret : MRet M := fun A a st => (st, inr a).
#[global] Instance M_bind : MBind M := fun A B k m st =>
  match m st with
  | (st', inl e) => (st', inl e)
  | (st', inr a) => k a st'
  end.

Definition throw {A} (message : string) : M A := fun st => (st, inl message).

Definition catch {A} (m : M A) (h : string -> M A) : M A := fun st =>
  match m st with
  | (st', inl e) => h e st'
  | (st', inr a) => (st', inr a)
  end.

(** [logs.push(s)] *)
Definition log (s : string) : M unit := fun st =>
  (mkSt (fs st) (trace st) (logs st ++ [s]), inr tt).

Definition log_all (ss : list string) : M unit := fun st =>
  (mkSt (fs st) (trace st) (logs st ++ ss), inr tt).

Definition get_logs : M (list string) := fun st => (st, inr (logs st)).

(** A function with its own [const logs: string[] = []]. *)
Definition with_local_logs {A} (body : M A) : M A := fun st =>
  let '(st', r) := body (mkSt (fs st) (trace st) []) in
  (mkSt (fs st') (trace st') (logs st), r).

(** [error.message || "Unknown error"] *)
Definition or_unknown (e : string) : string :=
  if String.eqb e "" then "Unknown error" else e.

(** [s || d] on strings *)
Definition js_or (s d : string) : string := if String.eqb s "" then d else s.


(** [s.toLowerCase()] on ASCII letters *)
Fixpoint to_lower (s : string) : string :=
  match s with
  | EmptyString => EmptyString
  | String c rest =>
      let n := nat_of_ascii c in
      let c' := if andb (Nat.leb 65 n) (Nat.leb n 90) then ascii_of_nat (n + 32) else c in
      String c' (to_lower rest)
  end.

(** [s.replace(/pat/g, rep)] for a literal pattern *)
Fixpoint replace_all_fuel (fuel : nat) (pat rep s : string) : string :=
  match fuel with
  | O => s
  | S fuel' =>
      match s with
      | EmptyString => EmptyString
      | String c rest =>
          if String.prefix pat s then
            rep +:+ replace_all_fuel fuel' pat rep
                      (String.substring (String.length pat) (String.length s) s)
          else String c (replace_all_fuel fuel' pat rep rest)
      end
  end.

Definition replace_all (pat rep s : string) : string :=
  replace_all_fuel (S (String.length s)) pat rep s.

(** The two regular expressions of the source, as a sequence of literal
    text and [(\d+)] groups; [search] returns the groups of the leftmost
    match. *)
Inductive Tok := Lit (s : string) | Digits.

Fixpoint digits_prefix (s : string) : string * string :=
  match s with
  | String c rest =>
      let n := nat_of_ascii c in
      if andb (Nat.leb 48 n) (Nat.leb n 57) then
        let '(d, r) := digits_prefix rest in (String c d, r)
      else (EmptyString, s)
  | EmptyString => (EmptyString, EmptyString)
  end.

Fixpoint match_here (toks : list Tok) (s : string) : option (list string) :=
  match toks with
  | [] => Some []
  | Lit l :: ts =>
      if String.prefix l s
      then match_here ts (String.substring (String.length l) (String.length s) s)
      else None
  | Digits :: ts =>
      let '(d, r) := digits_prefix s in
      if String.eqb d "" then None
      else match match_here ts r with Some caps => Some (d :: caps) | None => None end
  end.

Fixpoint search (toks : list Tok) (s : string) : option (list string) :=
  match match_here toks s with
  | Some caps => Some caps
  | None => match s with EmptyString => None | String _ rest => search toks rest end
  end.

(** [/Plan: (\d+) to add, (\d+) to change, (\d+) to destroy/] *)
Definition plan_regex : list Tok :=
  [Lit "Plan: "; Digits; Lit " to add, "; Digits; Lit " to change, "; Digits;
   Lit " to destroy"].

(** [/Apply complete! Resources: (\d+) added, (\d+) changed, (\d+) destroyed/] *)
Definition apply_regex : list Tok :=
  [Lit "Apply complete! Resources: "; Digits; Lit " added, "; Digits; Lit " changed, ";
   Digits; Lit " destroyed"].

(** [String(v)] of a JSON value. *)
Fixpoint js_string (v : Json) : string :=
  match v with
  | JNull => "null"
  | JBool b => if b then "true" else "false"
  | JNum t => t
  | JStr s => s
  | JArr xs =>
      (fix go (xs : list Json) : string :=
         match xs with
         | [] => ""
         | [x] => match x with JNull => "" | _ => js_string x end
         | x :: rest => match x with JNull => "" | _ => js_string x end +:+ "," +:+ go rest
         end) xs
  | JObj _ => "[object Object]"
  end.

(** [`${v}`] of a value that may be [undefined]. *)
Definition js_string_opt (v : option Json) : string :=
  match v with Some j => js_string j | None => "undefined" end.

Section Azure.
Variable env : Env.

(** [`${process.env[name]}`] *)
Definition env_str (name : string) : string :=
  match process_env env name with Some v => v | None => "undefined" end.

(** [!process.env[name]] is false *)
Definition env_set (name : string) : bool :=
  match process_env env name with Some v => negb (String.eqb v "") | None => false end.

(** [fs.promises.writeFile(p, content)], awaited *)
Definition writeFile (p content : string) : M unit := fun st =>
  match write_error env p with
  | Some e => (st, inl e)
  | None => (mkSt (<[p := content]> (fs st)) (trace st) (logs st), inr tt)
  end.

(** [fs.promises.readFile(p, 'utf8')], awaited *)
Definition readFile (p : string) : M string := fun st =>
  match fs st !! p with
  | Some c => (st, inr c)
  | None => (st, inl ("ENOENT: no such file or directory, open '" +:+ p +:+ "'"))
  end.

(** [fs.existsSync(p)] *)
Definition existsSync (p : string) : M bool := fun st =>
  (st, inr (bool_decide (is_Some (fs st !! p)))).

(** [execSync(command, { cwd })]: the call is recorded in [trace]. *)
Definition exec (cwd command : string) : M ExecResult := fun st =>
  let r := execSync env cwd command in
  let ok := match r with ExecOk _ => true | ExecErr _ _ => false end in
  (mkSt (fs st) (trace st ++ [mkCall cwd command ok]) (logs st), inr r).

Definition not_installed : string :=
  "Terraform CLI is not installed or not available in PATH. "
  +:+ "Please install Terraform to use this feature. "
  +:+ "Visit https://developer.hashicorp.com/terraform/downloads for installation instructions.".

(** The common shape of the four methods of [TerraformWrapper]: the
    [checkTerraformInstalled] guard, the method's own preparation [pre],
    the [execSync] of [command] in [cwd] whose stdout goes through
    [finish], the inner catch adding [exec_prefix] and the outer catch
    adding [outer_prefix] (the errors thrown inside are plain [Error]s,
    without [stderr]). *)
Definition tf_run (exec_prefix outer_prefix : string) (pre : M unit)
    (cwd command : string) (finish : string -> string) : M string :=
  catch
    (if which_terraform env then
       (pre ;;
        r ← exec cwd command;
        match r with
        | ExecOk output => mret (finish output)
        | ExecErr message stderr => throw (exec_prefix +:+ message +:+ nl +:+ stderr)
        end)
     else throw not_installed)
    (fun e => throw (outer_prefix +:+ e)).

Definition azurermProvider : string :=
"
provider "
  +:+ dq
  +:+ "azurerm"
  +:+ dq
  +:+ " {
  features {}
  subscription_id = "
  +:+ dq
  +:+ (env_str "AZURE_SUBSCRIPTION_ID")
  +:+ dq
  +:+ "
  tenant_id       = "
  +:+ dq
  +:+ (env_str "AZURE_TENANT_ID")
  +:+ dq
  +:+ "
  client_id       = "
  +:+ dq
  +:+ (env_str "AZURE_CLIENT_ID")
  +:+ dq
  +:+ "
  client_secret   = "
  +:+ dq
  +:+ (env_str "AZURE_CLIENT_SECRET")
  +:+ dq
  +:+ "
}
".

(** The provider-file step of [init]. *)
Definition init_provider (cwd : string) : M unit :=
  let providersPath := path_join cwd "providers.tf" in
  let providerPath := path_join cwd "provider.tf" in
  hasProviders ← existsSync providersPath;
  skipProviderCreation ←
    (if (hasProviders : bool) then
       (providersContent ← readFile providersPath;
        mret (includes providersContent ("provider " +:+ dq +:+ "azurerm" +:+ dq)))
     else mret false);
  hasProvider ← existsSync providerPath;
  if andb (negb skipProviderCreation) (negb hasProvider)
  then writeFile providerPath azurermProvider
  else mret tt.

(** [terraform.init()] *)
Definition tf_init (cwd : string) : M string :=
  tf_run "Terraform init execution error: " "Terraform init error: "
    (init_provider cwd) cwd "terraform init"
    (fun output => "Initialized terraform in " +:+ cwd +:+ nl +:+ output).

(** [terraform.plan({ out: "tfplan" })] *)
Definition tf_plan (cwd : string) : M string :=
  tf_run "Terraform plan execution error: " "Terraform plan error: "
    (mret tt) cwd ("terraform plan" +:+ " -out=" +:+ "tfplan")
    (fun output => js_or output "Terraform plan completed successfully").

(** [terraform.apply({ autoApprove: true })] *)
Definition tf_apply (cwd : string) : M string :=
  tf_run "Terraform apply execution error: " "Terraform apply error: "
    (mret tt) cwd ("terraform apply" +:+ " -auto-approve")
    (fun output => js_or output "Terraform apply completed successfully").

(** [terraform.output({ json: true })] *)
Definition tf_output (cwd : string) : M string :=
  tf_run "Terraform output execution error: " "Terraform output error: "
    (mret tt) cwd ("terraform output" +:+ " -json")
    (fun output => js_or output "{}").

(** The value [authenticateWithAzure] resolves to ([credentials] is
    present exactly when [isLoggedIn]). *)
Record AuthResult := mkAuth {
  au_success : bool;
  au_message : string;
  au_logs : list string;
  au_isLoggedIn : bool;
  au_subscriptionId : option string
}.

Definition missing_credentials_lines : list string :=
  ["Missing required Azure credentials. Environment variables not set correctly.";
   "Please ensure AZURE_TENANT_ID, AZURE_CLIENT_ID, AZURE_CLIENT_SECRET, and AZURE_SUBSCRIPTION_ID are provided."].

(** [authenticateWithAzure()]: [new DefaultAzureCredential()] fails with
    [credential_error], [getToken] with [getToken_error] and
    [resources.list] with [resources_list_error]. *)
Definition authenticateWithAzure : M AuthResult :=
  with_local_logs (catch
    (log "Starting Azure authentication process..." ;;
     log "Initializing Azure SDK authentication..." ;;
     let subscriptionId := env_str "AZURE_SUBSCRIPTION_ID" in
     if negb (env_set "AZURE_TENANT_ID" && env_set "AZURE_CLIENT_ID"
              && env_set "AZURE_CLIENT_SECRET" && env_set "AZURE_SUBSCRIPTION_ID") then
       (log_all missing_credentials_lines ;;
        ls ← get_logs;
        mret (mkAuth false "Azure authentication failed: Missing required credentials" ls false None))
     else
      ((match credential_error env with Some e => throw e | None => mret tt end) ;;
       log "Checking Azure authentication by accessing subscription information..." ;;
       match getToken_error env with
       | Some tokenError =>
           log ("Authentication failed: " +:+ tokenError) ;;
           ls ← get_logs;
           mret (mkAuth false "Azure authentication failed: Invalid credentials" ls false None)
       | None =>
           log "Successfully authenticated with Azure SDK" ;;
           log ("Using subscription: " +:+ subscriptionId) ;;
           (match resources_list_error env with
            | None => log "Successfully accessed Azure resources"
            | Some resourceError => log ("Warning: Could not access Azure resources: " +:+ resourceError)
            end) ;;
           ls ← get_logs;
           mret (mkAuth true "Successfully authenticated with Azure" ls true (Some subscriptionId))
       end))
    (fun e =>
       log ("Azure SDK initialization error: " +:+ or_unknown e) ;;
       ls ← get_logs;
       mret (mkAuth false ("Azure authentication failed: " +:+ or_unknown e) ls false None))).

(** The value [runTerraformPlan] resolves to. *)
Record PlanResult := mkPlan {
  pr_success : bool;
  pr_message : string;
  pr_logs : list string;
  planOutput : option string;
  pr_terraformDir : option string
}.

(** [repoUrl.split('/').slice(-2)[0]] and [repoUrl.split('/').slice(-1)[0]] *)
Definition repo_owner (repoUrl : string) : string :=
  match rev (split_slash repoUrl) with
  | _ :: o :: _ => o
  | [o] => o
  | [] => "undefined"
  end.

Definition repo_name (repoUrl : string) : string :=
  match rev (split_slash repoUrl) with r :: _ => r | [] => "undefined" end.

(** The loop of [runTerraformPlan] that starts one [writeFile] per file
    (outputs.tf rewritten), each preceded by its log line; the list of
    the writes' rejections, in file order. *)
Fixpoint start_writes (terraformDir : string) (files : list Deploy.TfFile)
    : M (list (option string)) :=
  match files with
  | [] => mret []
  | file :: rest =>
      let filePath := path_join terraformDir (Deploy.file_name file) in
      log ("Creating file: " +:+ Deploy.file_name file) ;;
      let content :=
        if String.eqb (Deploy.file_name file) "outputs.tf"
        then replace_all "azuread_application.main.application_id"
               "azuread_application.main.client_id" (Deploy.file_content file)
        else Deploy.file_content file in
      r ← (fun st => match writeFile filePath content st with
                     | (st', inl e) => (st', inr (Some e))
                     | (st', inr _) => (st', inr None)
                     end);
      rs ← start_writes terraformDir rest;
      mret (r :: rs)
  end.

(** [await Promise.all(fileOps)]: rejects with a rejection of one of the
    writes; the model takes the first in file order. *)
Fixpoint promise_all (rs : list (option string)) : M unit :=
  match rs with
  | [] => mret tt
  | Some e :: _ => throw e
  | None :: rest => promise_all rest
  end.

(** The part of [runTerraformPlan] from the file writes to the updated
    terraform.tfvars. *)
Definition write_configuration (terraformDir : string) (files : list Deploy.TfFile)
    (owner repo : string) : M unit :=
  rs ← start_writes terraformDir files;
  promise_all rs ;;
  log "All Terraform files written to disk" ;;
  log "Adding service principal configuration..." ;;
  let providersPath := path_join terraformDir "providers.tf" in
  let providersContent :=
"
terraform {
  required_providers {
    azurerm = {
      source  = "
  +:+ dq
  +:+ "hashicorp/azurerm"
  +:+ dq
  +:+ "
      version = "
  +:+ dq
  +:+ ">= 3.0, < 4.0"
  +:+ dq
  +:+ "
    }
    azuread = {
      source  = "
  +:+ dq
  +:+ "hashicorp/azuread"
  +:+ dq
  +:+ "
      version = "
  +:+ dq
  +:+ ">= 2.0"
  +:+ dq
  +:+ "
    }
    random = {
      source  = "
  +:+ dq
  +:+ "hashicorp/random"
  +:+ dq
  +:+ "
      version = "
  +:+ dq
  +:+ "~> 3.0"
  +:+ dq
  +:+ "
    }
  }
  required_version = "
  +:+ dq
  +:+ ">= 1.0.0"
  +:+ dq
  +:+ "
}

provider "
  +:+ dq
  +:+ "azurerm"
  +:+ dq
  +:+ " {
  features {}
  subscription_id = var.subscription_id
  client_id       = var.client_id
  client_secret   = var.client_secret
  tenant_id       = var.tenant_id
}

provider "
  +:+ dq
  +:+ "azuread"
  +:+ dq
  +:+ " {
  client_id       = var.client_id
  client_secret   = var.client_secret
  tenant_id       = var.tenant_id
}
" in
  writeFile providersPath providersContent ;;
  log "Updated providers.tf with service principal configuration" ;;
  let variablesPath := path_join terraformDir "variables.tf" in
  existingVariables ← readFile variablesPath;
  let newVariables :=
"
# Service Principal Variables
variable "
  +:+ dq
  +:+ "subscription_id"
  +:+ dq
  +:+ " {
  description = "
  +:+ dq
  +:+ "Azure Subscription ID"
  +:+ dq
  +:+ "
  type        = string
  sensitive   = true
}

variable "
  +:+ dq
  +:+ "client_id"
  +:+ dq
  +:+ " {
  description = "
  +:+ dq
  +:+ "Client ID for service principal"
  +:+ dq
  +:+ "
  type        = string
  sensitive   = true
}

variable "
  +:+ dq
  +:+ "client_secret"
  +:+ dq
  +:+ " {
  description = "
  +:+ dq
  +:+ "Client secret for service principal"
  +:+ dq
  +:+ "
  type        = string
  sensitive   = true
}

variable "
  +:+ dq
  +:+ "tenant_id"
  +:+ dq
  +:+ " {
  description = "
  +:+ dq
  +:+ "Tenant ID for Azure subscription"
  +:+ dq
  +:+ "
  type        = string
}

"
  +:+ (existingVariables)
  +:+ "
" in
  writeFile variablesPath newVariables ;;
  log "Updated variables.tf with service principal variables" ;;
  let tfvarsPath := path_join terraformDir "terraform.tfvars" in
  existingTfvars ← catch (readFile tfvarsPath) (fun _ => mret "");
  let newTfvars :=
(existingTfvars)
  +:+ "

# Azure Service Principal Credentials
subscription_id = "
  +:+ dq
  +:+ (env_str "AZURE_SUBSCRIPTION_ID")
  +:+ dq
  +:+ "
client_id       = "
  +:+ dq
  +:+ (env_str "AZURE_CLIENT_ID")
  +:+ dq
  +:+ "
client_secret   = "
  +:+ dq
  +:+ (env_str "AZURE_CLIENT_SECRET")
  +:+ dq
  +:+ "
tenant_id       = "
  +:+ dq
  +:+ (env_str "AZURE_TENANT_ID")
  +:+ dq
  +:+ "

# Default values for variables
prefix      = "
  +:+ dq
  +:+ "azure-"
  +:+ (String.substring 0 10 (to_lower repo))
  +:+ dq
  +:+ "
location    = "
  +:+ dq
  +:+ "eastus"
  +:+ dq
  +:+ "
environment = "
  +:+ dq
  +:+ "dev"
  +:+ dq
  +:+ "
project     = "
  +:+ dq
  +:+ "azure-app"
  +:+ dq
  +:+ "
sql_admin_username = "
  +:+ dq
  +:+ "sqladmin"
  +:+ dq
  +:+ "
sql_admin_password = "
  +:+ dq
  +:+ "P@ssw0rd123!"
  +:+ dq
  +:+ " # In production, use Azure Key Vault for secrets

# Resource tags
tags = {
  environment = "
  +:+ dq
  +:+ "dev"
  +:+ dq
  +:+ "
  project     = "
  +:+ dq
  +:+ "azure-app"
  +:+ dq
  +:+ "
  managed_by  = "
  +:+ dq
  +:+ "terraform"
  +:+ dq
  +:+ "
  owner       = "
  +:+ dq
  +:+ (owner)
  +:+ dq
  +:+ "
  repository  = "
  +:+ dq
  +:+ (repo)
  +:+ dq
  +:+ "
  created_at  = "
  +:+ dq
  +:+ (date_iso env)
  +:+ dq
  +:+ "
}
" in
  writeFile tfvarsPath newTfvars ;;
  log "Updated terraform.tfvars with service principal values and defaults".

(** [runTerraformPlan(analysisId)] *)
Definition runTerraformPlan (analysisId : string) : M PlanResult :=
  with_local_logs (catch
    (analysis ← (match getAnalysis env analysisId with
                 | None => throw "Analysis not found"
                 | Some a => mret a
                 end);
     files ← (match terraformCode analysis with
              | None => throw "No Terraform code found for this analysis"
              | Some files => mret files
              end);
     let owner := repo_owner (repoUrl analysis) in
     let repo := repo_name (repoUrl analysis) in
     terraformDir ← (match tmp_dirSync env with inl e => throw e | inr name => mret name end);
     log ("Created temporary Terraform directory: " +:+ terraformDir) ;;
     write_configuration terraformDir files owner repo ;;
     log "Running Terraform init..." ;;
     catch
       (initResult ← tf_init terraformDir;
        log "Terraform init completed successfully" ;;
        log initResult)
       (fun initError => log ("Terraform init error: " +:+ initError) ;; throw initError) ;;
     log "Running Terraform plan..." ;;
     catch
       (planResult ← tf_plan terraformDir;
        log "Terraform plan completed successfully" ;;
        log planResult ;;
        (match search plan_regex planResult with
         | Some [a; b; c] =>
             log ("Resources to deploy: " +:+ a +:+ " add, " +:+ b +:+ " change, "
                  +:+ c +:+ " destroy")
         | _ => mret tt
         end) ;;
        ls ← get_logs;
        mret (mkPlan true "Terraform plan completed successfully" ls
                (Some planResult) (Some terraformDir)))
       (fun planError => log ("Terraform plan error: " +:+ planError) ;; throw planError))
    (fun e =>
       log ("Error: " +:+ or_unknown e) ;;
       ls ← get_logs;
       mret (mkPlan false ("Failed to run Terraform plan: " +:+ or_unknown e) ls None None))).

(** The value [applyTerraformPlan] resolves to; [outputs] maps each key
    to its [value.value] ([None] for [undefined]). *)
Record ApplyResult := mkApply {
  ar_success : bool;
  ar_message : string;
  ar_logs : list string;
  ar_outputs : option (list (string * option Json))
}.

(** [Object.entries(v)] *)
Definition object_entries (v : Json) : M (list (string * Json)) :=
  match v with
  | JNull => throw "Cannot convert undefined or null to object"
  | JObj kvs => mret kvs
  | JArr xs => mret (imap (fun i x => (pretty (N.of_nat i), x)) xs)
  | JStr s => mret (imap (fun i c => (pretty (N.of_nat i), JStr (String c EmptyString)))
                         (list_ascii_of_string s))
  | JBool _ | JNum _ => mret []
  end.

(** [value.value] *)
Definition value_of (v : Json) : M (option Json) :=
  match v with
  | JNull => throw "Cannot read properties of null (reading 'value')"
  | JObj kvs => mret (obj_get kvs "value")
  | _ => mret None
  end.

(** The loop filling [formattedOutputs] (an assignment to an existing key
    replaces its value in place). *)
Fixpoint format_outputs (acc : list (string * option Json)) (entries : list (string * Json))
    : M (list (string * option Json)) :=
  match entries with
  | [] => mret acc
  | (key, value) :: rest =>
      v ← value_of value;
      let acc' := if existsb (fun kv => String.eqb kv.1 key) acc
                  then map (fun kv => if String.eqb kv.1 key then (key, v) else kv) acc
                  else acc ++ [(key, v)] in
      log ("Output " +:+ key +:+ ": " +:+ js_string_opt v) ;;
      format_outputs acc' rest
  end.

Definition lookup_output (outs : list (string * option Json)) (k : string) : option Json :=
  match find (fun kv => String.eqb kv.1 k) outs with Some (_, v) => v | None => None end.

(** The party-popper emoji U+1F389 in UTF-8. *)
Definition party : string :=
  String (ascii_of_nat 240) (String (ascii_of_nat 159) (String (ascii_of_nat 142)
    (String (ascii_of_nat 137) EmptyString))).

(** The inner [try] of [applyTerraformPlan] that parses the outputs. *)
Definition parse_outputs (outputs : string) : M ApplyResult :=
  catch
    (parsedOutputs ← (match json_parse env outputs with inl e => throw e | inr j => mret j end);
     entries ← object_entries parsedOutputs;
     formattedOutputs ← format_outputs [] entries;
     let app := lookup_output formattedOutputs "app_service_url" in
     let web := lookup_output formattedOutputs "webapp_url" in
     (if truthy_opt app || truthy_opt web then
        let appUrl := if truthy_opt app then app else web in
        log (party +:+ " Your application is available at: " +:+ js_string_opt appUrl)
      else mret tt) ;;
     ls ← get_logs;
     mret (mkApply true "Terraform apply completed successfully" ls (Some formattedOutputs)))
    (fun outputError =>
       log ("Warning: Unable to parse Terraform outputs: " +:+ outputError) ;;
       ls ← get_logs;
       mret (mkApply true
               "Terraform apply completed successfully, but outputs could not be parsed"
               ls None)).

(** [applyTerraformPlan(analysisId)] *)
Definition applyTerraformPlan (analysisId : string) : M ApplyResult :=
  with_local_logs (catch
    (planResult ← runTerraformPlan analysisId;
     if negb (pr_success planResult) then
       (ls ← get_logs;
        mret (mkApply false "Failed to create Terraform plan" (ls ++ pr_logs planResult) None))
     else
      (log_all (pr_logs planResult) ;;
       match pr_terraformDir planResult with
       | Some terraformDir =>
           if String.eqb terraformDir "" then
             (ls ← get_logs;
              mret (mkApply false "Could not find Terraform directory" ls None))
           else
            (log ("Using Terraform directory: " +:+ terraformDir) ;;
             log "Running Terraform apply..." ;;
             catch
               (applyResult ← tf_apply terraformDir;
                log "Terraform apply completed successfully" ;;
                log applyResult ;;
                (match search apply_regex applyResult with
                 | Some [a; b; c] =>
                     log ("Resources deployed: " +:+ a +:+ " added, " +:+ b +:+ " changed, "
                          +:+ c +:+ " destroyed")
                 | _ => mret tt
                 end) ;;
                log "Getting Terraform outputs..." ;;
                outputs ← tf_output terraformDir;
                parse_outputs outputs)
               (fun applyError => log ("Terraform apply error: " +:+ applyError) ;; throw applyError))
       | None =>
           ls ← get_logs;
           mret (mkApply false "Could not find Terraform directory" ls None)
       end))
    (fun e =>
       log ("Error: " +:+ or_unknown e) ;;
       ls ← get_logs;
       mret (mkApply false ("Failed to apply Terraform plan: " +:+ or_unknown e) ls None))).

End Azure.
End Sdk.


(** ** Concrete runs of azure-deploy.ts *)
Module DeployScenarios.
Import Deploy.

Definition t0 : N := 1700000000000%N.

Definition proc_ok (out : string) : Proc := mkProc [out] (Close (Some 0%Z)) 1000.

Definition enoent (c : string) : Proc :=
  mkProc [] (SpawnError ("spawn " +:+ c +:+ " ENOENT")) 0.

(** The machine: [az] (version, account, login) and [terraform] (version,
    init, plan, apply) answer as given; [az account show] exits 1 when
    [logged_in] is false. *)
Definition machine (has_az has_tf logged_in : bool) (c : string) (args : list string)
    (cwd : string) : Proc :=
  if String.eqb c "az" then
    if negb has_az then enoent c else
    match args with
    | ["--version"] => proc_ok "azure-cli                         2.60.0"
    | ["account"; "show"] =>
        if logged_in then proc_ok "{...}"
        else mkProc ["Please run 'az login' to setup account."] (Close (Some 1%Z)) 1500
    | _ => proc_ok "[ { ... } ]"
    end
  else if String.eqb c "terraform" then
    if negb has_tf then enoent c else
    match args with
    | ["--version"] => proc_ok "Terraform v1.7.5"
    | _ => proc_ok "ok"
    end
  else enoent c.

Definition account_json (s : string) : string + Json :=
  inr (JObj [("id", JStr "00000000-0000-0000-0000-000000000000")]).

Definition env_with (has_az has_tf logged_in : bool)
    (write : string -> string -> option string) : Env :=
  mkEnv (machine has_az has_tf logged_in) account_json (fun _ => false) (fun _ => None) write.

Definition disk_full (path content : string) : option string :=
  Some ("ENOSPC: no space left on device, open '" +:+ path +:+ "'").

Definition analysis7 : Analysis :=
  mkAnalysis "7" "tejas-uk/AutoCloud" (Some [mkFile "main.tf" "resource {}"]).

End DeployScenarios.

(** ** Concrete runs of azure.ts *)
Module SdkScenarios.
Import Sdk.

Definition tf_files : list Deploy.TfFile :=
  [Deploy.mkFile "main.tf" "resource {}"; Deploy.mkFile "variables.tf" "variable x {}";
   Deploy.mkFile "outputs.tf" "output app {}"].

(** [process.env] with the four Azure variables set except [missing]. *)
Definition vars_but (missing : string) (name : string) : option string :=
  if String.eqb name missing then None else Some "set".

Definition all_vars : string -> option string := vars_but "".

(** terraform answers init, plan and apply, and prints [outputs] for
    [terraform output -json]. *)
Definition sdk_machine (outputs : string) (cwd command : string) : ExecResult :=
  if String.eqb command "terraform init" then ExecOk "Terraform has been successfully initialized!"
  else if String.eqb command "terraform plan -out=tfplan" then
    ExecOk "Plan: 3 to add, 0 to change, 0 to destroy."
  else if String.eqb command "terraform apply -auto-approve" then
    ExecOk "Apply complete! Resources: 3 added, 0 changed, 0 destroyed."
  else ExecOk outputs.

Definition parse_json (s : string) : string + Json :=
  if String.eqb s "{}" then inr (JObj [])
  else inl "Unexpected token g in JSON at position 0".

Definition sdk_env (vars : string -> option string) (token_error : option string)
    (outputs : string) : Env :=
  mkEnv vars None token_error None
    (fun i => if String.eqb i "7"
              then Some (mkStored "https://github.com/tejas-uk/AutoCloud" (Some tf_files))
              else None)
    (inr "/tmp/terraform-X7a2") (fun _ => None) true (sdk_machine outputs) parse_json
    "2023-11-14T22:13:20.000Z".

Definition st0 : St := mkSt ∅ [] [].

End SdkScenarios.

(** ** Proofs about server/azure-deploy.ts *)
Module Routes.
Import Sdk.

(** The JSON bodies the Azure routes of terraform.ts send. *)
Inductive Body :=
| BPlan (r : PlanResult)
| BApply (r : ApplyResult)
| BAuth (r : AuthResult)
| BMessage (message : string)
(** [{ success: false, message, logs }] *)
| BFailure (message : string) (logs : list string)
(** [{ success: false, message, logs, isLoggedIn: false }] *)
| BAuthFailure (message : string) (logs : list string)
(** [{ message, details }] *)
| BDetails (message details : string)
(** [{ message, error }] *)
| BConfigError (message error : string)
(** [{ message, isAuthenticated: true }] *)
| BConfigured (message : string)
(** [{ isConnected }] *)
| BStatus (isConnected : bool)
(** [{ subscription, tenant, environment }] ([None] for [undefined]) *)
| BAccount (subscription tenant environment : option Json).

(** The status code and the body of a response. *)
Definition Response : Type := Z * Body.

(** [!x] is false for a body field that is a string or absent. *)
Definition present (x : option string) : bool :=
  match x with Some v => negb (String.eqb v "") | None => false end.

(** [process.env[name] = v] ([Some v]) or [delete process.env[name]] ([None]). *)
Definition set_env (env : Env) (name : string) (v : option string) : Env :=
  mkEnv (fun n => if String.eqb n name then v else process_env env n)
    (credential_error env) (getToken_error env) (resources_list_error env)
    (getAnalysis env) (tmp_dirSync env) (write_error env) (which_terraform env)
    (execSync env) (json_parse env) (date_iso env).

(** POST /api/azure/authenticate *)
Definition authenticate_route (env : Env) : M Response :=
  catch
    (authResult ← authenticateWithAzure env;
     if au_success authResult then mret (200, BAuth authResult)
     else mret (401, BAuth authResult))
    (fun e => mret (500, BAuthFailure "Failed to authenticate with Azure" [e])).

(** POST /api/azure/terraform-plan, with the body's [analysisId] (a
    string or absent). *)
Definition plan_route (env : Env) (analysisId : option string) : M Response :=
  catch
    (match analysisId with
     | Some id =>
         if String.eqb id "" then mret (400, BMessage "Analysis ID is required")
         else
          (planResult ← runTerraformPlan env id;
           if pr_success planResult then mret (200, BPlan planResult)
           else mret (400, BPlan planResult))
     | None => mret (400, BMessage "Analysis ID is required")
     end)
    (fun e => mret (500, BFailure "Failed to run Terraform plan" [e])).

(** POST /api/azure/terraform-apply, with the body's [analysisId] (a
    string or absent). *)
Definition apply_route (env : Env) (analysisId : option string) : M Response :=
  catch
    (match analysisId with
     | Some id =>
         if String.eqb id "" then mret (400, BMessage "Analysis ID is required")
         else
          (applyResult ← applyTerraformPlan env id;
           if ar_success applyResult then mret (200, BApply applyResult)
           else mret (400, BApply applyResult))
     | None => mret (400, BMessage "Analysis ID is required")
     end)
    (fun e => mret (500, BFailure "Failed to apply Terraform plan" [e])).

(** POST /api/azure/configure, with the body's four fields (strings or
    absent); the result carries [process.env] after the request. *)
Definition configure_route (env : Env)
    (tenantId clientId clientSecret subscriptionId : option string) : M (Env * Response) :=
  if negb (present tenantId && present clientId && present clientSecret
           && present subscriptionId) then
    mret (env, (400, BMessage "Missing required Azure credentials"))
  else
    let env' := set_env (set_env (set_env (set_env env
                  "AZURE_TENANT_ID" tenantId) "AZURE_CLIENT_ID" clientId)
                  "AZURE_CLIENT_SECRET" clientSecret) "AZURE_SUBSCRIPTION_ID" subscriptionId in
    catch
      (authResult ← authenticateWithAzure env';
       if negb (au_success authResult) then
         mret (env', (401, BDetails "Invalid Azure credentials" (au_message authResult)))
       else mret (env', (200, BConfigured "Azure credentials configured successfully")))
      (fun e => mret (env', (500, BConfigError "Failed to configure Azure credentials" e))).

(** GET /api/azure/status *)
Definition status_route (env : Env) : Response :=
  (200, BStatus (env_set env "AZURE_ACCESS_TOKEN" && env_set env "AZURE_SUBSCRIPTION_ID")).

(** GET /api/azure/account-info: a [JSON.parse] failure and a property
    read on [null] are caught (500). *)
Definition account_info_route (env : Env) : Response :=
  if negb (env_set env "AZURE_ACCOUNT_INFO") then (404, BMessage "No Azure account connected")
  else
    match json_parse env (env_str env "AZURE_ACCOUNT_INFO") with
    | inl _ => (500, BMessage "Failed to fetch Azure account info")
    | inr JNull => (500, BMessage "Failed to fetch Azure account info")
    | inr (JObj kvs) =>
        (200, BAccount (obj_get kvs "subscriptionName") (obj_get kvs "tenantName")
                (obj_get kvs "environment"))
    | inr _ => (200, BAccount None None None)
    end.

(** POST /api/azure/disconnect; the result carries [process.env] after
    the request. *)
Definition disconnect_route (env : Env) : Env * Response :=
  (set_env (set_env (set_env (set_env env "AZURE_ACCESS_TOKEN" None)
     "AZURE_REFRESH_TOKEN" None) "AZURE_SUBSCRIPTION_ID" None) "AZURE_ACCOUNT_INFO" None,
   (200, BMessage "Successfully disconnected from Azure")).

End Routes.

(** ** [path.join] on names made of plain segments *)
Module PathProofs.

Lemma str_app_assoc (a b c : string) : a +:+ (b +:+ c) = (a +:+ b) +:+ c.
Proof. induction a as [|x a IH]; [reflexivity|]. exact (f_equal (String x) IH). Qed.

Lemma str_app_nil_r (a : string) : a +:+ "" = a.
Proof. induction a as [|x a IH]; [reflexivity|]. exact (f_equal (String x) IH). Qed.

Lemma length_app (a b : string) : String.length (a +:+ b) = (String.length a + String.length b)%nat.
Proof. induction a as [|c a IH]; simpl; [reflexivity|]. rewrite IH. reflexivity. Qed.

Lemma string_app_inv_l (a b c : string) : a +:+ b = a +:+ c -> b = c.
Proof. induction a as [|x a IH]; intros H; [exact H|]. injection H as H. exact (IH H). Qed.

Lemma str_app_eq_empty (a b : string) : a +:+ b = "" -> b = "".
Proof. destruct a; [trivial|discriminate]. Qed.

(** A segment [normalize] keeps as it is: not empty, not "." or "..". *)
Definition plain_segment (s : string) : Prop := s <> "" /\ s <> "." /\ s <> "..".

Lemma split_slash_nonempty s : split_slash s <> [].
Proof.
  destruct s as [|c s]; simpl; [discriminate|].
  destruct (Ascii.eqb c "/"); [discriminate|]. destruct (split_slash s); discriminate.
Qed.

Lemma split_slash_app_slash a b :
  split_slash (a +:+ "/" +:+ b) = split_slash a ++ split_slash b.
Proof.
  induction a as [|c a IH]; [reflexivity|].
  change (String c a +:+ "/" +:+ b) with (String c (a +:+ "/" +:+ b)).
  simpl. rewrite IH. destruct (Ascii.eqb c "/"); [reflexivity|].
  pose proof (split_slash_nonempty a) as Hne.
  destruct (split_slash a) as [|p ps]; [congruence|]. reflexivity.
Qed.

Lemma join_cons_ne (x : string) xs : xs <> [] -> join "/" (x :: xs) = x +:+ "/" +:+ join "/" xs.
Proof. destruct xs; [congruence|reflexivity]. Qed.

Lemma join_split s : join "/" (split_slash s) = s.
Proof.
  induction s as [|c s IH]; [reflexivity|]. simpl.
  pose proof (split_slash_nonempty s) as Hne.
  destruct (Ascii.eqb c "/") eqn:E.
  - apply Ascii.eqb_eq in E. subst c. rewrite join_cons_ne by exact Hne. rewrite IH. reflexivity.
  - destruct (split_slash s) as [|p ps]; [congruence|].
    destruct ps as [|q qs]; simpl in *; rewrite <- IH; reflexivity.
Qed.

Lemma join_app l1 l2 :
  l1 <> [] -> l2 <> [] -> join "/" (l1 ++ l2) = join "/" l1 +:+ "/" +:+ join "/" l2.
Proof.
  intros H1 H2. induction l1 as [|x l1 IH]; [congruence|].
  destruct l1 as [|y l1].
  - simpl. destruct l2; [congruence|reflexivity].
  - change ((x :: y :: l1) ++ l2) with (x :: ((y :: l1) ++ l2)).
    rewrite join_cons_ne by discriminate. rewrite IH by discriminate.
    rewrite (join_cons_ne x (y :: l1)) by discriminate.
    rewrite <- !str_app_assoc. reflexivity.
Qed.

Lemma normalize_segs_app b acc l1 l2 :
  normalize_segs b acc (l1 ++ l2) = normalize_segs b (normalize_segs b acc l1) l2.
Proof.
  revert acc. induction l1 as [|s l1 IH]; intros acc; [reflexivity|]. simpl.
  destruct (String.eqb s "" || String.eqb s "."); [apply IH|].
  destruct (String.eqb s ".."); [|apply IH].
  destruct acc as [|t acc']; [apply IH|]. destruct (String.eqb t ".."); apply IH.
Qed.

Lemma normalize_segs_plain b acc segs :
  Forall plain_segment segs -> normalize_segs b acc segs = rev segs ++ acc.
Proof.
  intros Hp. revert acc. induction Hp as [|s segs (H1 & H2 & H3) _ IH]; intros acc; [reflexivity|].
  simpl. apply String.eqb_neq in H1, H2, H3. rewrite H1, H2, H3. simpl.
  rewrite IH, <- app_assoc. reflexivity.
Qed.

Lemma ends_with_slash_inv s : ends_with_slash s = true -> exists s', s = s' +:+ "/".
Proof.
  induction s as [|c s IH]; [discriminate|]. intros H.
  destruct s as [|c' s'].
  - simpl in H. apply Ascii.eqb_eq in H. subst c. exists "". reflexivity.
  - destruct (IH H) as [s1 E]. exists (String c s1). rewrite E. reflexivity.
Qed.

Lemma ends_with_slash_last s : ends_with_slash s = true -> last (split_slash s) = Some "".
Proof.
  intros H. destruct (ends_with_slash_inv s H) as [s' ->].
  replace (s' +:+ "/") with (s' +:+ "/" +:+ "") by (rewrite str_app_nil_r; reflexivity).
  rewrite split_slash_app_slash. simpl. apply last_snoc.
Qed.

Lemma starts_with_slash_head s : starts_with_slash s = true -> head (split_slash s) = Some "".
Proof.
  destruct s as [|c s]; [discriminate|]. simpl. intros H. rewrite H. reflexivity.
Qed.

Lemma ends_with_slash_app a b : b <> "" -> ends_with_slash (a +:+ b) = ends_with_slash b.
Proof.
  intros Hb. induction a as [|c a IH]; [reflexivity|].
  change (String c a +:+ b) with (String c (a +:+ b)). simpl.
  destruct (a +:+ b) eqn:E; [apply str_app_eq_empty in E; congruence|]. exact IH.
Qed.

Lemma plain_split_nonempty s : Forall plain_segment (split_slash s) -> s <> "".
Proof. intros H ->. inversion H as [|? ? (Hn & _) _]. congruence. Qed.

Lemma plain_no_trailing s : Forall plain_segment (split_slash s) -> ends_with_slash s = false.
Proof.
  intros H. destruct (ends_with_slash s) eqn:E; [|reflexivity].
  apply ends_with_slash_last in E. apply last_Some_elem_of in E.
  rewrite Forall_forall in H. destruct (H _ E) as [Hn _]. congruence.
Qed.

Lemma plain_no_leading s : Forall plain_segment (split_slash s) -> starts_with_slash s = false.
Proof.
  intros H. destruct (starts_with_slash s) eqn:E; [|reflexivity].
  apply starts_with_slash_head in E.
  destruct (split_slash s) as [|x xs]; [discriminate|]. injection E as ->.
  inversion H as [|? ? (Hn & _) _]. congruence.
Qed.

(** What [path.join(d, x)] puts before a name [x] of plain segments: the
    normalised [d] followed by "/", or nothing when [d] normalises away. *)
Definition path_prefix (d : string) : string :=
  if String.eqb d "" then "" else
  (if starts_with_slash d then "/" else "")
  +:+ match rev (normalize_segs (negb (starts_with_slash d)) [] (split_slash d)) with
      | [] => ""
      | l => join "/" l +:+ "/"
      end.

Lemma path_join_plain d x :
  Forall plain_segment (split_slash x) -> path_join d x = path_prefix d +:+ x.
Proof.
  intros Hx.
  pose proof (plain_split_nonempty x Hx) as Hne.
  pose proof (plain_no_trailing x Hx) as Ht.
  pose proof (plain_no_leading x Hx) as Hl.
  assert (Hne' : String.eqb x "" = false) by (apply String.eqb_neq; exact Hne).
  unfold path_join, path_prefix. rewrite Hne'.
  destruct (String.eqb d "") eqn:Ed.
  - unfold path_normalize. rewrite Hne', Hl, Ht. simpl.
    rewrite normalize_segs_plain by exact Hx. rewrite app_nil_r, rev_involutive, join_split, Hne'.
    reflexivity.
  - apply String.eqb_neq in Ed. unfold path_normalize.
    assert (E1 : String.eqb (d +:+ "/" +:+ x) "" = false)
      by (apply String.eqb_neq; intros E; destruct d; [congruence|discriminate]).
    assert (E2 : starts_with_slash (d +:+ "/" +:+ x) = starts_with_slash d)
      by (destruct d; [congruence|reflexivity]).
    assert (E3 : ends_with_slash (d +:+ "/" +:+ x) = false)
      by (rewrite str_app_assoc, ends_with_slash_app by exact Hne; exact Ht).
    rewrite E1, E2, E3.
    rewrite split_slash_app_slash, normalize_segs_app, (normalize_segs_plain _ _ (split_slash x)) by exact Hx.
    rewrite rev_app_distr, rev_involutive.
    set (A := rev (normalize_segs (negb (starts_with_slash d)) [] (split_slash d))).
    assert (Hsx : split_slash x <> []) by apply split_slash_nonempty.
    assert (Hres : join "/" (A ++ split_slash x)
                   = match A with [] => "" | l => join "/" l +:+ "/" end +:+ x).
    { destruct A as [|y ys]; [simpl; apply join_split|].
      rewrite join_app by (discriminate || exact Hsx). rewrite join_split, <- str_app_assoc.
      reflexivity. }
    rewrite Hres.
    assert (Hr : String.eqb (match A with [] => "" | l => join "/" l +:+ "/" end +:+ x) "" = false).
    { apply String.eqb_neq. intros E. apply str_app_eq_empty in E. congruence. }
    rewrite Hr. clearbody A. destruct (starts_with_slash d); [rewrite <- str_app_assoc|]; destruct A; reflexivity.
Qed.

Lemma path_join_plain_inj d x y :
  Forall plain_segment (split_slash x) -> Forall plain_segment (split_slash y) ->
  path_join d x = path_join d y -> x = y.
Proof.
  intros Hx Hy. rewrite (path_join_plain d x Hx), (path_join_plain d y Hy).
  apply string_app_inv_l.
Qed.

(** [map_last f l] applies [f] to the last element of [l]. *)
Fixpoint map_last (f : string -> string) (l : list string) : list string :=
  match l with
  | [] => []
  | [x] => [f x]
  | x :: rest => x :: map_last f rest
  end.

Lemma split_slash_app_noslash s t :
  split_slash t = [t] -> split_slash (s +:+ t) = map_last (fun p => p +:+ t) (split_slash s).
Proof.
  intros Ht. induction s as [|c s IH]; [exact Ht|].
  change (String c s +:+ t) with (String c (s +:+ t)). simpl. rewrite IH.
  pose proof (split_slash_nonempty s) as Hne.
  destruct (split_slash s) as [|y [|z r]]; [congruence| |];
    destruct (Ascii.eqb c "/"); reflexivity.
Qed.

Lemma Forall_map_last (P : string -> Prop) f l :
  Forall P l -> (forall p, P p -> P (f p)) -> Forall P (map_last f l).
Proof.
  intros Hl Hf. induction Hl as [|x l Hx Hl IH]; [constructor|].
  destruct l as [|y l]; simpl; [constructor; [apply Hf, Hx|constructor]|].
  constructor; [exact Hx|exact IH].
Qed.

(** [deployDir] for a name whose segments (after the first "/" became
    "_") are plain: [path.join] only drops the "./". *)
Lemma deployDir_plain repoName :
  Forall plain_segment (split_slash (replace_first "/" "_" repoName)) ->
  Deploy.deployDir repoName = "tmp/" +:+ replace_first "/" "_" repoName +:+ "_terraform_deploy".
Proof.
  intros H. unfold Deploy.deployDir.
  rewrite path_join_plain; [reflexivity|].
  rewrite split_slash_app_noslash by reflexivity.
  apply Forall_map_last; [exact H|].
  intros p _. split; [|split]; intros E; apply (f_equal String.length) in E;
    rewrite length_app in E; simpl in E; lia.
Qed.

End PathProofs.

Module DeployProofs.
Import Deploy PathProofs.

(** The record invariant: an [initializing] update comes first and
    [status] is the status of the last update. *)
Definition job_ok (d : DeploymentStatus) : Prop :=
  (exists u rest, updates d = u :: rest /\ u_status u = Initializing) /\
  option_map u_status (last (updates d)) = Some (status d).

Definition ok_at (j : string) (reg : gmap string DeploymentStatus) : Prop :=
  exists d, reg !! j = Some d /\ job_ok d.

Lemma add_update_other ts i j st m det reg :
  i <> j -> addDeploymentUpdate_at ts i st m det reg !! j = reg !! j.
Proof.
  intros Hne. unfold addDeploymentUpdate_at.
  destruct (reg !! i); [|reflexivity].
  rewrite lookup_insert_ne; auto.
Qed.

Lemma add_update_same ts i st m det reg d :
  reg !! i = Some d ->
  exists d', addDeploymentUpdate_at ts i st m det reg !! i = Some d' /\
    updates d' = updates d ++ [mkUpdate st m det ts] /\ status d' = st.
Proof.
  intros Hd. unfold addDeploymentUpdate_at. rewrite Hd.
  eexists; split; [apply lookup_insert_eq|]. split; reflexivity.
Qed.

Lemma add_update_ok ts i j st m det reg :
  ok_at j reg -> ok_at j (addDeploymentUpdate_at ts i st m det reg).
Proof.
  intros (d & Hd & (u & rest & Hu & Hinit) & Hlast).
  destruct (decide (i = j)) as [->|Hne].
  - destruct (add_update_same ts j st m det reg d Hd) as (d' & Hd' & Hup & Hst).
    exists d'. split; [exact Hd'|]. split.
    + exists u, (rest ++ [mkUpdate st m det ts]). rewrite Hup, Hu. split; auto.
    + rewrite Hup, last_snoc. simpl. rewrite Hst. reflexivity.
  - exists d. rewrite add_update_other by auto. split; [exact Hd|].
    split; [exists u, rest; auto | exact Hlast].
Qed.

Lemma register_then_init_ok a now start ts reg i reg' :
  register_job a now start reg = Some (i, reg') ->
  ok_at i (initial_update ts i a reg').
Proof.
  unfold register_job. destruct (terraformCode a) as [[|f fs]|]; try discriminate.
  intros H. injection H as <- <-.
  unfold initial_update, addDeploymentUpdate_at. rewrite lookup_insert_eq.
  eexists. split; [apply lookup_insert_eq|]. split.
  - eexists _, []. split; reflexivity.
  - reflexivity.
Qed.

Lemma register_then_init_other a now start ts reg i reg' j :
  register_job a now start reg = Some (i, reg') -> i <> j ->
  initial_update ts i a reg' !! j = reg !! j.
Proof.
  unfold register_job. destruct (terraformCode a) as [[|f fs]|]; try discriminate.
  intros H Hne. injection H as <- <-.
  unfold initial_update. rewrite add_update_other by auto.
  rewrite lookup_insert_ne; auto.
Qed.

Lemma reg_step_ok op j reg : ok_at j reg -> ok_at j (reg_step op reg).
Proof.
  intros Hok. destruct op as [ts i st m det | now lag1 lag2 a]; simpl.
  - apply add_update_ok; exact Hok.
  - destruct (register_job a now (now + lag1) reg) as [[i reg']|] eqn:Hreg; [|exact Hok].
    destruct (decide (i = j)) as [->|Hne].
    + eapply register_then_init_ok; eauto.
    + destruct Hok as (d & Hd & Hd_ok). exists d. split; [|exact Hd_ok].
      erewrite register_then_init_other; eauto.
Qed.

Lemma run_ops_ok ops j reg : ok_at j reg -> ok_at j (run_ops ops reg).
Proof.
  revert reg. induction ops as [|op ops IH]; intros reg Hok; simpl; [exact Hok|].
  apply IH, reg_step_ok, Hok.
Qed.

Lemma deployToAzure_ok lag1 lag2 a w w' i :
  deployToAzure lag1 lag2 a w = (w', inr i) -> ok_at i (activeDeployments w').
Proof.
  unfold deployToAzure, startDeployment, mbind, M_bind, mret, M_ret,
    addDeploymentUpdate, advance.
  destruct (register_job a (clock w) (clock w + lag1) (activeDeployments w))
    as [[j reg']|] eqn:Hreg; [|discriminate].
  simpl. intros H. injection H as <- <-. simpl.
  exact (register_then_init_ok a _ _ _ _ j reg' Hreg).
Qed.

(** The three clock reads of [deployToAzure]: [Date.now()] for the id,
    [new Date()] for [startTime] [lag1] ms later, and the one of the first
    update another [lag2] ms later. *)
Lemma deployToAzure_effect lag1 lag2 a w f fs :
  terraformCode a = Some (f :: fs) ->
  let i := newDeploymentId a (clock w) in
  let ts := toISOString (clock w + lag1 + lag2) in
  let message := "Initializing deployment for " +:+ a_repoName a in
  deployToAzure lag1 lag2 a w =
    (mkWorld (<[i := mkStatus (a_id a) (a_repoName a) Initializing
                      (toISOString (clock w + lag1)) None
                      [mkUpdate Initializing message None ts]
                      (nl +:+ "[" +:+ ts +:+ "] initializing: " +:+ message)]>
                (activeDeployments w)) (clock w + lag1 + lag2) (pendingCloses w), inr i).
Proof.
  intros Hc. unfold deployToAzure, startDeployment, mbind, M_bind, mret, M_ret,
    addDeploymentUpdate, advance, register_job. rewrite Hc. simpl.
  unfold addDeploymentUpdate_at. rewrite lookup_insert_eq. simpl.
  rewrite insert_insert_eq. reflexivity.
Qed.

Lemma deployToAzure_code lag1 lag2 a w w' i :
  deployToAzure lag1 lag2 a w = (w', inr i) -> exists f fs, terraformCode a = Some (f :: fs).
Proof.
  unfold deployToAzure, startDeployment, mbind, M_bind, register_job.
  destruct (terraformCode a) as [[|f fs]|]; [discriminate| |discriminate].
  intros _. eauto.
Qed.

(** C1: for every job created by [deployToAzure] and after any sequence of
    [addDeploymentUpdate] calls (and further [deployToAzure] calls) on the
    registry, the job's [status] equals the status of the last element of
    its [updates]. *)
Theorem status_is_last_update (lag1 lag2 : N) (a : Analysis) (w : World)
    (ops : list RegOp) :
  match deployToAzure lag1 lag2 a w with
  | (w', inr i) =>
      exists d, run_ops ops (activeDeployments w') !! i = Some d /\
                option_map u_status (last (updates d)) = Some (status d)
  | (_, inl _) => True
  end.
Proof.
  destruct (deployToAzure lag1 lag2 a w) as [w' [e|i]] eqn:H; [exact I|].
  destruct (run_ops_ok ops i _ (deployToAzure_ok lag1 lag2 a w w' i H)) as (d & Hd & _ & Hlast).
  exists d. auto.
Qed.

(** C2: from the moment [deployToAzure] returns the id of a job, and after
    any later sequence of updates, the job is in the registry and its
    [updates] is non-empty with an [initializing] first element. *)
Theorem first_update_initializing (lag1 lag2 : N) (a : Analysis) (w : World)
    (ops : list RegOp) :
  match deployToAzure lag1 lag2 a w with
  | (w', inr i) =>
      exists d u rest, run_ops ops (activeDeployments w') !! i = Some d /\
                       updates d = u :: rest /\ u_status u = Initializing
  | (_, inl _) => True
  end.
Proof.
  destruct (deployToAzure lag1 lag2 a w) as [w' [e|i]] eqn:H; [exact I|].
  destruct (run_ops_ok ops i _ (deployToAzure_ok lag1 lag2 a w w' i H))
    as (d & Hd & (u & rest & Hu & Hinit) & _).
  exists d, u, rest. auto.
Qed.

(** C10: [addDeploymentUpdate] with an id absent from [activeDeployments]
    leaves the whole state (the map and every record in it) unchanged. *)
Theorem add_update_unknown_id_noop (deploymentId : string) (st : DStatus)
    (message : string) (details : option string) (w : World) :
  activeDeployments w !! deploymentId = None ->
  addDeploymentUpdate deploymentId st message details w = (w, inr tt).
Proof.
  intros Hnone. destruct w as [reg c pc]. simpl in Hnone.
  unfold addDeploymentUpdate, addDeploymentUpdate_at. simpl.
  rewrite Hnone. reflexivity.
Qed.

Lemma add_update_unknown_id_noop_witness :
  let d := mkStatus "7" "tejas-uk/AutoCloud" Initializing "2023-11-14T22:13:20.000Z" None
             [mkUpdate Initializing "Initializing deployment for tejas-uk/AutoCloud" None
                "2023-11-14T22:13:20.000Z"]
             (nl +:+ "[2023-11-14T22:13:20.000Z] initializing: Initializing deployment for tejas-uk/AutoCloud") in
  let w := mkWorld {[ "deploy-7-1700000000000" := d ]} 1700000000500%N [] in
  activeDeployments w !! "deploy-8-1700000000500" = None /\
  addDeploymentUpdate "deploy-8-1700000000500" Failed "Deployment failed: x" None w
  = (w, inr tt).
Proof.
  intros d w. split; [reflexivity|].
  apply (add_update_unknown_id_noop "deploy-8-1700000000500" Failed "Deployment failed: x" None w).
  reflexivity.
Defined.

(** *** Reasoning about one background job *)

(** [m] keeps [P] along every run (thrown or not). *)
Definition preserves {A} (P : World -> Prop) (m : M A) : Prop :=
  forall w, P w -> P (m w).1.

(** [m] never resolves: every run ends in a rejection. *)
Definition never_ok {A} (m : M A) : Prop :=
  forall w w' x, m w <> (w', inr x).

(** [m] resolves to [x] from every state. *)
Definition resolves_to {A} (m : M A) (x : A) : Prop :=
  forall w, exists w', m w = (w', inr x).

Lemma preserves_ret {A} P (x : A) : preserves P (mret x).
Proof. intros w Hw. exact Hw. Qed.

Lemma preserves_throw {A} P e : preserves P (throw (A:=A) e).
Proof. intros w Hw. exact Hw. Qed.

Lemma preserves_bind {A B} P (m : M A) (k : A -> M B) :
  preserves P m -> (forall x, preserves P (k x)) -> preserves P (m ≫= k).
Proof.
  intros Hm Hk w Hw. unfold mbind, M_bind.
  specialize (Hm w Hw). destruct (m w) as [w' [e|x]]; simpl in *; auto.
  apply Hk, Hm.
Qed.

Lemma preserves_bind_never {A B} P (m : M A) (k : A -> M B) :
  preserves P m -> never_ok m -> preserves P (m ≫= k).
Proof.
  intros Hm Hn w Hw. unfold mbind, M_bind.
  specialize (Hm w Hw). destruct (m w) as [w' [e|x]] eqn:E; simpl in *; auto.
  exfalso. exact (Hn w w' x E).
Qed.

Lemma preserves_catch {A} P (m : M A) (h : string -> M A) :
  preserves P m -> (forall e, preserves P (h e)) -> preserves P (catch m h).
Proof.
  intros Hm Hh w Hw. unfold catch.
  specialize (Hm w Hw). destruct (m w) as [w' [e|x]]; simpl in *; auto.
  apply Hh, Hm.
Qed.

Lemma never_ok_throw {A} e : never_ok (throw (A:=A) e).
Proof. intros w w' x H. discriminate. Qed.

Lemma never_ok_bind_l {A B} (m : M A) (k : A -> M B) :
  never_ok m -> never_ok (m ≫= k).
Proof.
  intros Hn w w' y. unfold mbind, M_bind.
  destruct (m w) as [w1 [e|x]] eqn:E; [discriminate|].
  exfalso. exact (Hn w w1 x E).
Qed.

Lemma never_ok_bind_r {A B} (m : M A) (k : A -> M B) :
  (forall x, never_ok (k x)) -> never_ok (m ≫= k).
Proof.
  intros Hk w w' y. unfold mbind, M_bind.
  destruct (m w) as [w1 [e|x]]; [discriminate|]. apply Hk.
Qed.

Lemma never_ok_bind_at {A B} (m : M A) (k : A -> M B) x :
  resolves_to m x -> never_ok (k x) -> never_ok (m ≫= k).
Proof.
  intros Hm Hk w w' y. unfold mbind, M_bind.
  destruct (Hm w) as [w1 ->]. apply Hk.
Qed.

Lemma never_ok_catch {A} (m : M A) (h : string -> M A) :
  never_ok m -> (forall e, never_ok (h e)) -> never_ok (catch m h).
Proof.
  intros Hm Hh w w' y. unfold catch.
  destruct (m w) as [w1 [e|x]] eqn:E; [apply Hh|].
  exfalso. exact (Hm w w1 x E).
Qed.

(** The job [i] is in the map and all its updates have a status in [S]. *)
Definition job_updates_in (i : string) (S : DStatus -> Prop) (w : World) : Prop :=
  exists d, activeDeployments w !! i = Some d /\ Forall (fun u => S (u_status u)) (updates d).

Lemma never_ok_writeFiles env dir files f :
  In f files -> write_error env (path_join dir (file_name f)) (file_content f) <> None ->
  never_ok (writeFiles env dir files).
Proof.
  intros Hin Herr. induction files as [|g gs IH]; [destruct Hin|]. simpl.
  destruct (write_error env (path_join dir (file_name g)) (file_content g)) eqn:E;
    [apply never_ok_throw|].
  destruct Hin as [->|Hin]; [congruence|]. apply IH, Hin.
Qed.

(** [m] rejects with message [e] from every state. *)
Definition rejects_with {A} (m : M A) (e : string) : Prop :=
  forall w, exists w', m w = (w', inl e).

Lemma rejects_never_ok {A} (m : M A) e : rejects_with m e -> never_ok m.
Proof. intros H w w' x E. destruct (H w) as [w1 E1]. congruence. Qed.

Lemma rejects_bind_at {A B} (m : M A) (k : A -> M B) x e :
  resolves_to m x -> rejects_with (k x) e -> rejects_with (m ≫= k) e.
Proof.
  intros Hm Hk w. unfold mbind, M_bind. destruct (Hm w) as [w1 ->]. apply Hk.
Qed.

Lemma preserves_bind_at {A B} P (m : M A) (k : A -> M B) x :
  resolves_to m x -> preserves P m -> preserves P (k x) -> preserves P (m ≫= k).
Proof.
  intros Hm Pm Pk w Hw. unfold mbind, M_bind.
  specialize (Pm w Hw). destruct (Hm w) as [w1 E]. rewrite E in *. simpl in *.
  apply Pk, Pm.
Qed.

(** The text a process writes, as [executeCommand] accumulates it. *)
Definition proc_output (p : Proc) : string :=
  fold_left (fun o c => o +:+ c) (chunks p) "".

Lemma on_data_none cs out w :
  on_data None cs out w = (w, inr (fold_left (fun o c => o +:+ c) cs out)).
Proof.
  revert out w. induction cs as [|c cs IH]; intros out w; simpl; [reflexivity|].
  unfold mbind, M_bind, mret, M_ret. simpl. apply IH.
Qed.

(** The updates the pending ['close'] events append to job [i] when they
    fire at the instant [ts]. *)
Definition late_updates (ts i : string) (cs : list (string * string * string))
    : list DeploymentUpdate :=
  map (fun c => mkUpdate Failed c.1.2 (Some c.2) ts) (List.filter (fun c => String.eqb c.1.1 i) cs).

Lemma late_closes_lookup ts i cs reg d :
  reg !! i = Some d ->
  exists d', fold_left (late_close_at ts) cs reg !! i = Some d' /\
    updates d' = updates d ++ late_updates ts i cs /\
    (late_updates ts i cs = [] -> d' = d) /\
    (late_updates ts i cs <> [] ->
       status d' = Failed /\ endTime d' = Some ts /\
       option_map u_timestamp (last (updates d')) = Some ts).
Proof.
  revert reg d. induction cs as [|c cs IH]; intros reg d Hd.
  - exists d. simpl. rewrite app_nil_r. split; [exact Hd|]. split; [reflexivity|].
    split; [reflexivity|]. intros H; exfalso; apply H; reflexivity.
  - assert (Hl : late_updates ts i (c :: cs) =
                 if String.eqb c.1.1 i then mkUpdate Failed c.1.2 (Some c.2) ts :: late_updates ts i cs
                 else late_updates ts i cs)
      by (destruct c as [[j m] o]; unfold late_updates; simpl; destruct (String.eqb j i);
          reflexivity).
    rewrite Hl. simpl.
    destruct (String.eqb_spec c.1.1 i) as [Ei|Ni].
    + assert (E1 : late_close_at ts reg c =
                   addDeploymentUpdate_at ts i Failed c.1.2 (Some c.2) reg)
        by (unfold late_close_at; rewrite Ei; reflexivity).
      rewrite E1.
      destruct (add_update_same ts i Failed c.1.2 (Some c.2) reg d Hd) as (d1 & Hd1 & Hu1 & Hs1).
      assert (He1 : endTime d1 = Some ts).
      { unfold addDeploymentUpdate_at in Hd1. rewrite Hd, lookup_insert_eq in Hd1.
        injection Hd1 as <-. reflexivity. }
      destruct (IH _ d1 Hd1) as (d' & Hd' & Hu' & Heq & Hne).
      exists d'. split; [exact Hd'|]. split.
      { rewrite Hu', Hu1, <- app_assoc. reflexivity. }
      split; [discriminate|]. intros _.
      destruct (decide (late_updates ts i cs = [])) as [E|E].
      * rewrite (Heq E). split; [exact Hs1|]. split; [exact He1|].
        rewrite Hu1, last_snoc. reflexivity.
      * exact (Hne E).
    + assert (E1 : late_close_at ts reg c !! i = Some d)
        by (unfold late_close_at; rewrite add_update_other by exact Ni; exact Hd).
      exact (IH _ d E1).
Qed.

Lemma exec_no_handler env command args cwd i w :
  let p := spawn_result env command args cwd in
  let w0 := match ending p with SpawnError _ => w | Close _ => (run_pending_closes w).1 end in
  let w1 := mkWorld (activeDeployments w0) (clock w + duration p)%N (pendingCloses w0) in
  executeCommand env command args cwd i None w =
  match ending p with
  | Close (Some 0) => (w1, inr (0, proc_output p))
  | Close code =>
      (mkWorld (addDeploymentUpdate_at (toISOString (clock w1)) i Failed
                  ("Command failed: " +:+ command +:+ " " +:+ join " " args)
                  (Some (proc_output p)) (activeDeployments w0)) (clock w1) (pendingCloses w0),
       inl ("Command failed with exit code " +:+ code_str code +:+ ": " +:+ proc_output p))
  | SpawnError msg =>
      (mkWorld (addDeploymentUpdate_at (toISOString (clock w1)) i Failed
                  ("Command error: " +:+ msg) (Some (proc_output p)) (activeDeployments w))
               (clock w1)
               (pendingCloses w ++
                  [(i, "Command failed: " +:+ command +:+ " " +:+ join " " args, proc_output p)]),
       inl msg)
  end.
Proof.
  unfold executeCommand. cbv zeta.
  destruct (ending (spawn_result env command args cwd)) as [[[|c|c]|]|m];
    unfold mbind, M_bind, mret, M_ret, run_pending_closes, advance, addDeploymentUpdate,
      defer_close, throw; cbv beta iota; rewrite on_data_none; reflexivity.
Qed.

(** A probe whose binary cannot be spawned answers [false]; the
    ['close'] of that process is then pending. *)
Lemma probe_spawn_error_state env command args i (k : Z * string -> M bool) m w :
  ending (spawn_result env command args ".") = SpawnError m ->
  exists w', catch (executeCommand env command args "." i None ≫= k) (fun _ => mret false) w
             = (w', inr false) /\
    pendingCloses w' = pendingCloses w ++
      [(i, "Command failed: " +:+ command +:+ " " +:+ join " " args,
        proc_output (spawn_result env command args "."))].
Proof.
  intros He. unfold catch, mbind at 1, M_bind at 1. rewrite exec_no_handler. cbv zeta.
  rewrite He. eexists. split; reflexivity.
Qed.

Lemma probe_spawn_error env command args i (k : Z * string -> M bool) m :
  ending (spawn_result env command args ".") = SpawnError m ->
  resolves_to (catch (executeCommand env command args "." i None ≫= k)
                     (fun _ => mret false)) false.
Proof.
  intros He w. destruct (probe_spawn_error_state env command args i k m w He) as (w' & E & _).
  exists w'. exact E.
Qed.

(** The [az --version] probe answers [true] when [az] exits 0 and prints
    "azure-cli". *)
Lemma az_probe_ok env i :
  ending (spawn_result env "az" ["--version"] ".") = Close (Some 0%Z) ->
  includes (proc_output (spawn_result env "az" ["--version"] ".")) "azure-cli" = true ->
  resolves_to (checkAzCliInstalled env i) true.
Proof.
  intros He Hi w. unfold checkAzCliInstalled, catch, mbind at 1, M_bind at 1.
  rewrite exec_no_handler. cbv zeta. rewrite He.
  unfold mret, M_ret. simpl. rewrite Hi. eexists. reflexivity.
Qed.

(** The last pending ['close'] event belongs to job [j] and records
    [m]. *)
Definition closes_last (j m : string) (w : World) : Prop :=
  exists P o, pendingCloses w = P ++ [(j, m, o)].

(** [m] rejects with [e] from every state and leaves, as its last pending
    ['close'], one of job [j] recording [msg]. *)
Definition rejects_closing {A} (m : M A) (e j msg : string) : Prop :=
  forall w, exists w', m w = (w', inl e) /\ closes_last j msg w'.

Lemma rejects_closing_bind_state {A B} (m : M A) (k : A -> M B) x e j msg :
  (forall w, exists w', m w = (w', inr x) /\ closes_last j msg w') ->
  (forall w, closes_last j msg w -> exists w', k x w = (w', inl e) /\ closes_last j msg w') ->
  rejects_closing (m ≫= k) e j msg.
Proof.
  intros Hm Hk w. unfold mbind, M_bind. destruct (Hm w) as (w1 & -> & Hc). apply Hk, Hc.
Qed.

Lemma rejects_closing_bind_at {A B} (m : M A) (k : A -> M B) x e j msg :
  resolves_to m x -> rejects_closing (k x) e j msg -> rejects_closing (m ≫= k) e j msg.
Proof.
  intros Hm Hk w. unfold mbind, M_bind. destruct (Hm w) as [w1 ->]. apply Hk.
Qed.

Lemma rejects_closing_never_ok {A} (m : M A) e j msg :
  rejects_closing m e j msg -> never_ok m.
Proof. intros H w w' x E. destruct (H w) as (w1 & E1 & _). congruence. Qed.

Lemma late_updates_snoc ts i P m o :
  late_updates ts i (P ++ [(i, m, o)]) = late_updates ts i P ++ [mkUpdate Failed m (Some o) ts].
Proof.
  unfold late_updates. induction P as [|c P IH]; simpl.
  - rewrite String.eqb_refl. reflexivity.
  - destruct (String.eqb c.1.1 i); simpl; rewrite IH; reflexivity.
Qed.

Section OneJob.
Variable env : Env.
Variable i : string.
Variable S : DStatus -> Prop.
Hypothesis S_failed : S Failed.

Lemma preserves_add st m det : S st -> preserves (job_updates_in i S) (addDeploymentUpdate i st m det).
Proof.
  intros Hst w (d & Hd & Hall). unfold addDeploymentUpdate. simpl.
  destruct (add_update_same (toISOString (clock w)) i st m det _ d Hd) as (d' & Hd' & Hup & _).
  exists d'. split; [exact Hd'|]. rewrite Hup. apply Forall_app. split; [exact Hall|].
  constructor; [exact Hst | constructor].
Qed.

Lemma preserves_advance dt : preserves (job_updates_in i S) (advance dt).
Proof. intros w Hw. exact Hw. Qed.

Lemma preserves_on_data onOutput cs out :
  (forall f, onOutput = Some f -> forall c, preserves (job_updates_in i S) (f c)) ->
  preserves (job_updates_in i S) (on_data onOutput cs out).
Proof.
  intros Hf. revert out. induction cs as [|c cs IH]; intros out; simpl.
  - apply preserves_ret.
  - apply preserves_bind; [|intros; apply IH].
    destruct onOutput as [f|]; [apply (Hf f eq_refl) | apply preserves_ret].
Qed.

Lemma late_updates_failed ts cs :
  Forall (fun u => S (u_status u)) (late_updates ts i cs).
Proof.
  unfold late_updates. apply Forall_forall. intros u Hu.
  apply list_elem_of_In, in_map_iff in Hu. destruct Hu as (c & <- & _). exact S_failed.
Qed.

Lemma preserves_pending : preserves (job_updates_in i S) run_pending_closes.
Proof.
  intros w (d & Hd & Hall). unfold run_pending_closes. simpl.
  destruct (late_closes_lookup (toISOString (clock w)) i (pendingCloses w) _ d Hd)
    as (d' & Hd' & Hu & _).
  exists d'. split; [exact Hd'|]. rewrite Hu. apply Forall_app.
  split; [exact Hall | apply late_updates_failed].
Qed.

Lemma preserves_defer j m o : preserves (job_updates_in i S) (defer_close j m o).
Proof. intros w Hw. exact Hw. Qed.

Lemma preserves_exec command args cwd onOutput :
  (forall f, onOutput = Some f -> forall c, preserves (job_updates_in i S) (f c)) ->
  preserves (job_updates_in i S) (executeCommand env command args cwd i onOutput).
Proof.
  intros Hf. unfold executeCommand. cbv zeta.
  apply preserves_bind;
    [destruct (ending _); [apply preserves_pending|apply preserves_ret]|intros _].
  apply preserves_bind; [apply preserves_on_data, Hf|intros out].
  apply preserves_bind; [apply preserves_advance|intros _].
  destruct (ending _) as [[[|p|p]|]|msg];
    repeat first [ apply preserves_ret | apply preserves_throw
                 | apply preserves_bind; [apply preserves_add, S_failed|intros _]
                 | apply preserves_bind; [apply preserves_defer|intros _] ].
Qed.

Lemma preserves_probe (k : Z * string -> M bool) command args :
  (forall r, preserves (job_updates_in i S) (k r)) ->
  preserves (job_updates_in i S)
    (catch (executeCommand env command args "." i None ≫= k) (fun _ => mret false)).
Proof.
  intros Hk. apply preserves_catch; [|intros; apply preserves_ret].
  apply preserves_bind; [apply preserves_exec; discriminate | exact Hk].
Qed.

Lemma preserves_checks :
  preserves (job_updates_in i S) (checkAzCliInstalled env i) /\
  preserves (job_updates_in i S) (checkTerraformInstalled env i) /\
  preserves (job_updates_in i S) (checkAzureAuthentication env i).
Proof.
  split; [|split]; apply preserves_probe; intros r;
    try apply preserves_ret.
  destruct (json_parse env r.2) as [e|[| | | | |kvs]];
    first [apply preserves_throw | apply preserves_ret].
Qed.

Lemma preserves_login :
  S Authenticating -> preserves (job_updates_in i S) (loginToAzure env i).
Proof.
  intros Sa. unfold loginToAzure.
  apply preserves_bind; [apply preserves_checks|intros b].
  destruct b; [apply preserves_add, Sa|].
  apply preserves_bind; [apply preserves_add, Sa|intros _].
  apply preserves_bind; [|intros _; apply preserves_add, Sa].
  apply preserves_exec. intros f [= <-] c. apply preserves_add, Sa.
Qed.

Lemma preserves_ensureDir dir : preserves (job_updates_in i S) (ensureDir env dir).
Proof.
  unfold ensureDir. destruct (existsSync env dir); [apply preserves_ret|].
  destruct (mkdir_error env dir); [apply preserves_throw|apply preserves_ret].
Qed.

Lemma preserves_writeFiles dir files : preserves (job_updates_in i S) (writeFiles env dir files).
Proof.
  induction files as [|f fs IH]; simpl; [apply preserves_ret|].
  destruct (write_error env _ _); [apply preserves_throw|exact IH].
Qed.

(** Up to and including the staging loop, [deployTerraform_rest] only
    appends [authenticating], [preparing] and [failed] updates. *)
Lemma preserves_rest_if_staging_fails a f :
  S Authenticating -> S Preparing ->
  In f (code_files a) ->
  write_error env (path_join (deployDir (a_repoName a)) (file_name f)) (file_content f) <> None ->
  preserves (job_updates_in i S) (deployTerraform_rest env i a) /\
  never_ok (deployTerraform_rest env i a).
Proof.
  intros Sa Sp Hin Herr.
  pose proof preserves_checks as (Paz & Ptf & _).
  pose proof (never_ok_writeFiles env _ _ f Hin Herr) as Nw.
  unfold deployTerraform_rest. split.
  - apply preserves_bind; [exact Paz|intros [|]; simpl; [|apply preserves_throw]].
    apply preserves_bind; [exact Ptf|intros [|]; simpl; [|apply preserves_throw]].
    apply preserves_bind; [apply preserves_login, Sa|intros _].
    apply preserves_bind; [apply preserves_add, Sp|intros _].
    apply preserves_bind; [apply preserves_ensureDir|intros _].
    apply preserves_bind_never; [apply preserves_writeFiles|exact Nw].
  - apply never_ok_bind_r; intros [|]; simpl; [|apply never_ok_throw].
    apply never_ok_bind_r; intros [|]; simpl; [|apply never_ok_throw].
    apply never_ok_bind_r; intros _.
    apply never_ok_bind_r; intros _.
    apply never_ok_bind_r; intros _.
    apply never_ok_bind_l, Nw.
Qed.

(** [deployTerraform] around a body that never resolves. *)
Lemma deployTerraform_wraps a :
  S Initializing ->
  preserves (job_updates_in i S) (deployTerraform_rest env i a) ->
  never_ok (deployTerraform_rest env i a) ->
  preserves (job_updates_in i S) (deployTerraform env i a) /\
  never_ok (deployTerraform env i a).
Proof.
  intros Si Pr Nr. unfold deployTerraform. split.
  - apply preserves_catch.
    + apply preserves_bind; [apply preserves_add, Si|intros _; exact Pr].
    + intros e. apply preserves_bind; [apply preserves_add, S_failed|intros _].
      apply preserves_throw.
  - apply never_ok_catch.
    + apply never_ok_bind_r. intros _. exact Nr.
    + intros e. apply never_ok_bind_r. intros _. apply never_ok_throw.
Qed.

(** When a tool probe fails, [deployTerraform] appends its
    [initializing] update and [failed] updates only, and rejects with
    ["<tool> is not installed"]. *)
Lemma deployTerraform_tool_missing a (tool : string) :
  S Initializing ->
  rejects_with (deployTerraform_rest env i a) (tool +:+ " is not installed") ->
  preserves (job_updates_in i S) (deployTerraform_rest env i a) ->
  rejects_with (deployTerraform env i a) (tool +:+ " is not installed") /\
  preserves (job_updates_in i S) (deployTerraform env i a).
Proof.
  intros Si Rr Pr. split.
  - intros w. unfold deployTerraform, catch.
    unfold mbind at 1, M_bind at 1. unfold addDeploymentUpdate at 1.
    destruct (Rr (mkWorld (addDeploymentUpdate_at (toISOString (clock w)) i Initializing
                 ("Initializing deployment for " +:+ a_repoName a) None
                 (activeDeployments w)) (clock w) (pendingCloses w))) as [w1 E].
    rewrite E. unfold mbind, M_bind, throw, addDeploymentUpdate. eexists. reflexivity.
  - unfold deployTerraform. apply preserves_catch.
    + apply preserves_bind; [apply preserves_add, Si|intros _; exact Pr].
    + intros e. apply preserves_bind; [apply preserves_add, S_failed|intros _].
      apply preserves_throw.
Qed.

Lemma rest_az_missing a m :
  ending (spawn_result env "az" ["--version"] ".") = SpawnError m ->
  rejects_with (deployTerraform_rest env i a) ("Azure CLI" +:+ " is not installed") /\
  preserves (job_updates_in i S) (deployTerraform_rest env i a).
Proof.
  intros He.
  assert (Hr : resolves_to (checkAzCliInstalled env i) false)
    by (unfold checkAzCliInstalled; eapply probe_spawn_error; exact He).
  pose proof preserves_checks as (Paz & _ & _).
  unfold deployTerraform_rest. split.
  - eapply rejects_bind_at; [exact Hr|]. intros w. simpl. eexists. reflexivity.
  - eapply preserves_bind_at; [exact Hr|exact Paz|]. apply preserves_throw.
Qed.

Lemma rest_terraform_missing a m :
  ending (spawn_result env "az" ["--version"] ".") = Close (Some 0%Z) ->
  includes (proc_output (spawn_result env "az" ["--version"] ".")) "azure-cli" = true ->
  ending (spawn_result env "terraform" ["--version"] ".") = SpawnError m ->
  rejects_with (deployTerraform_rest env i a) ("Terraform" +:+ " is not installed") /\
  preserves (job_updates_in i S) (deployTerraform_rest env i a).
Proof.
  intros Ha Hi He. pose proof (az_probe_ok env i Ha Hi) as Haz.
  assert (Htf : resolves_to (checkTerraformInstalled env i) false)
    by (unfold checkTerraformInstalled; eapply probe_spawn_error; exact He).
  pose proof preserves_checks as (Paz & Ptf & _).
  unfold deployTerraform_rest. split.
  - eapply rejects_bind_at; [exact Haz|]. simpl.
    eapply rejects_bind_at; [exact Htf|]. intros w. simpl. eexists. reflexivity.
  - eapply preserves_bind_at; [exact Haz|exact Paz|]. simpl.
    eapply preserves_bind_at; [exact Htf|exact Ptf|]. apply preserves_throw.
Qed.

Lemma probe_closing (k : Z * string -> M bool) command args m :
  ending (spawn_result env command args ".") = SpawnError m ->
  forall w, exists w',
    catch (executeCommand env command args "." i None ≫= k) (fun _ => mret false) w
      = (w', inr false) /\
    closes_last i ("Command failed: " +:+ command +:+ " " +:+ join " " args) w'.
Proof.
  intros He w. destruct (probe_spawn_error_state env command args i k m w He) as (w' & E & Hp).
  exists w'. split; [exact E|]. do 2 eexists. exact Hp.
Qed.

Lemma rest_az_missing_closes a m :
  ending (spawn_result env "az" ["--version"] ".") = SpawnError m ->
  rejects_closing (deployTerraform_rest env i a) ("Azure CLI" +:+ " is not installed")
    i ("Command failed: " +:+ "az" +:+ " " +:+ join " " ["--version"]).
Proof.
  intros He. unfold deployTerraform_rest.
  apply (rejects_closing_bind_state _ _ false).
  - unfold checkAzCliInstalled. eapply probe_closing. exact He.
  - intros w Hc. exists w. split; [reflexivity|exact Hc].
Qed.

Lemma rest_terraform_missing_closes a m :
  ending (spawn_result env "az" ["--version"] ".") = Close (Some 0%Z) ->
  includes (proc_output (spawn_result env "az" ["--version"] ".")) "azure-cli" = true ->
  ending (spawn_result env "terraform" ["--version"] ".") = SpawnError m ->
  rejects_closing (deployTerraform_rest env i a) ("Terraform" +:+ " is not installed")
    i ("Command failed: " +:+ "terraform" +:+ " " +:+ join " " ["--version"]).
Proof.
  intros Ha Hi He. unfold deployTerraform_rest.
  eapply rejects_closing_bind_at; [exact (az_probe_ok env i Ha Hi)|]. simpl.
  apply (rejects_closing_bind_state _ _ false).
  - unfold checkTerraformInstalled. eapply probe_closing. exact He.
  - intros w Hc. exists w. split; [reflexivity|exact Hc].
Qed.

Lemma deployTerraform_closing a e msg :
  rejects_closing (deployTerraform_rest env i a) e i msg ->
  rejects_closing (deployTerraform env i a) e i msg.
Proof.
  intros Rr w. unfold deployTerraform, catch.
  unfold mbind at 1, M_bind at 1. unfold addDeploymentUpdate at 1.
  destruct (Rr (mkWorld (addDeploymentUpdate_at (toISOString (clock w)) i Initializing
               ("Initializing deployment for " +:+ a_repoName a) None
               (activeDeployments w)) (clock w) (pendingCloses w))) as (w1 & E & Hc).
  rewrite E. unfold mbind, M_bind, throw, addDeploymentUpdate.
  eexists. split; [reflexivity|exact Hc].
Qed.

End OneJob.


(** A job whose background task never resolves ends [failed]: the
    [.catch] of [deployToAzure] appends ["Deployment failed: "] followed by
    the rejection message, and the pending ['close'] events append theirs
    after it. *)
Lemma failing_job_outcome env lag1 lag2 a w (S : DStatus -> Prop) :
  S Failed ->
  (forall i, preserves (job_updates_in i S) (deployTerraform env i a)) ->
  (forall i, never_ok (deployTerraform env i a)) ->
  match deployment_job env lag1 lag2 a w with
  | (w', inr i) =>
      exists d w1 w2 e pre,
        activeDeployments w' !! i = Some d /\ status d = Failed /\
        Forall (fun u => S (u_status u)) (updates d) /\
        startDeployment lag1 a w = (w1, inr i) /\
        deployTerraform env i a
          (mkWorld (activeDeployments w1) (clock w1 + lag2) (pendingCloses w1)) = (w2, inl e) /\
        updates d = pre ++ mkUpdate Failed ("Deployment failed: " +:+ e) None (toISOString (clock w2))
                           :: late_updates (toISOString (clock w2)) i (pendingCloses w2)
  | (_, inl _) => True
  end.
Proof.
  intros SF Pd Nd. unfold deployment_job.
  unfold mbind at 1, M_bind at 1.
  destruct (startDeployment lag1 a w) as [w1 [e0|j]] eqn:Hs; [exact I|].
  unfold mbind, M_bind, catch, mret, M_ret, advance. cbv beta iota.
  set (w1' := mkWorld (activeDeployments w1) (clock w1 + lag2) (pendingCloses w1)).
  destruct (deployTerraform env j a w1') as [w2 [e|x]] eqn:Hd;
    [|exfalso; exact (Nd j w1' w2 x Hd)].
  assert (H1 : job_updates_in j S w1').
  { unfold startDeployment in Hs.
    destruct (register_job a (clock w) (clock w + lag1) (activeDeployments w))
      as [[j' reg']|] eqn:Hreg; [|discriminate].
    injection Hs as <- <-. unfold register_job in Hreg.
    destruct (terraformCode a) as [[|f fs]|]; try discriminate.
    injection Hreg as <- <-. eexists. simpl. split; [apply lookup_insert_eq|constructor]. }
  pose proof (Pd j w1' H1) as H2. rewrite Hd in H2. simpl in H2.
  destruct H2 as (d & Hd2 & Hall).
  unfold addDeploymentUpdate, run_pending_closes. simpl.
  destruct (add_update_same (toISOString (clock w2)) j Failed ("Deployment failed: " +:+ e)
              None _ d Hd2) as (d1 & Hd1 & Hu1 & Hs1).
  destruct (late_closes_lookup (toISOString (clock w2)) j (pendingCloses w2) _ d1 Hd1)
    as (d' & Hd' & Hu' & Heq & Hne).
  exists d', w1, w2, e, (updates d). split; [exact Hd'|]. split.
  { destruct (decide (late_updates (toISOString (clock w2)) j (pendingCloses w2) = [])) as [E|E].
    - rewrite (Heq E). exact Hs1.
    - exact (proj1 (Hne E)). }
  assert (Hup : updates d' = updates d ++
                  mkUpdate Failed ("Deployment failed: " +:+ e) None (toISOString (clock w2))
                  :: late_updates (toISOString (clock w2)) j (pendingCloses w2))
    by (rewrite Hu', Hu1, <- app_assoc; reflexivity).
  split; [|split; [reflexivity|split; [exact Hd|exact Hup]]].
  rewrite Hup. apply Forall_app. split; [exact Hall|].
  constructor; [exact SF|apply late_updates_failed, SF].
Qed.

(** C5: if a write of one of the job's files fails during staging, the
    job ends [failed] and no [planning] or [applying] update is ever
    appended to it. *)
Theorem staging_failure_never_plans (env : Env) (lag1 lag2 : N) (a : Analysis) (w : World)
    (f : TfFile) :
  In f (code_files a) ->
  write_error env (path_join (deployDir (a_repoName a)) (file_name f)) (file_content f) <> None ->
  match deployment_job env lag1 lag2 a w with
  | (w', inr i) =>
      exists d, activeDeployments w' !! i = Some d /\ status d = Failed /\
        Forall (fun u => u_status u <> Planning /\ u_status u <> Applying) (updates d)
  | (_, inl _) => True
  end.
Proof.
  intros Hin Herr.
  set (S := fun st => st <> Planning /\ st <> Applying).
  assert (SF : S Failed) by (split; discriminate).
  assert (Hjob : forall i, preserves (job_updates_in i S) (deployTerraform env i a) /\
                           never_ok (deployTerraform env i a)).
  { intros i.
    destruct (preserves_rest_if_staging_fails env i S SF a f) as [Pr Nr];
      try (split; discriminate); auto.
    apply deployTerraform_wraps; auto. split; discriminate. }
  pose proof (failing_job_outcome env lag1 lag2 a w S SF (fun i => proj1 (Hjob i))
                (fun i => proj2 (Hjob i))) as H.
  destruct (deployment_job env lag1 lag2 a w) as [w' [e|i]]; [exact I|].
  destruct H as (d & _ & _ & _ & _ & Hd & Hst & Hall & _).
  exists d. auto.
Qed.

Lemma staging_failure_never_plans_witness :
  let env := DeployScenarios.env_with true true true DeployScenarios.disk_full in
  let a := DeployScenarios.analysis7 in
  let f := mkFile "main.tf" "resource {}" in
  (In f (code_files a) /\
   write_error env (path_join (deployDir (a_repoName a)) (file_name f)) (file_content f) <> None) /\
  match deployment_job env 0 0 a (mkWorld ∅ DeployScenarios.t0 []) with
  | (w', inr i) =>
      exists d, activeDeployments w' !! i = Some d /\ status d = Failed /\
        Forall (fun u => u_status u <> Planning /\ u_status u <> Applying) (updates d)
  | (_, inl _) => True
  end.
Proof.
  intros env a f.
  assert (Hin : In f (code_files a)) by (simpl; left; reflexivity).
  assert (Herr : write_error env (path_join (deployDir (a_repoName a)) (file_name f))
                   (file_content f) <> None) by (vm_compute; discriminate).
  split; [split; assumption|].
  exact (staging_failure_never_plans env 0 0 a (mkWorld ∅ DeployScenarios.t0 []) f Hin Herr).
Defined.

(** C7 (counterexample): with [az] not installed, the job never reaches
    [preparing]: it fails right after its [initializing] update, and the
    last of its updates is the one the late ['close'] event of the failed
    [az --version] spawn records, not "Deployment failed: ...". *)
Lemma missing_az_fails_at_initializing :
  match deployment_job (DeployScenarios.env_with false true true (fun _ _ => None)) 0 0
          DeployScenarios.analysis7 (mkWorld ∅ DeployScenarios.t0 []) with
  | (w', inr i) =>
      exists d, activeDeployments w' !! i = Some d /\
        map u_status (updates d) = [Initializing; Failed; Failed; Failed; Failed] /\
        map u_message (updates d) =
          ["Initializing deployment for tejas-uk/AutoCloud";
           "Command error: spawn az ENOENT";
           "Deployment failed: Azure CLI is not installed";
           "Deployment failed: Azure CLI is not installed";
           "Command failed: az --version"]
  | (_, inl _) => False
  end.
Proof. vm_compute. eexists. split; [reflexivity|]. split; reflexivity. Qed.

(** C7 (amended): when [az] cannot be spawned, or [az] answers its
    version probe and [terraform] cannot be spawned, the job ends [failed]
    with only [initializing] and [failed] updates (no [authenticating],
    [preparing], [planning] or [applying] update: nothing after the probes
    runs); its updates include "Deployment failed: <tool> is not
    installed" (tool "Azure CLI" or "Terraform"), and its last update is
    "Command failed: <cmd> --version" (cmd [az] or [terraform]), which the
    late ['close'] event of the failed spawn records. *)
Theorem missing_tool_fails_before_auth (env : Env) (lag1 lag2 : N) (a : Analysis) (w : World)
    (tool cmd : string) :
  ((exists m, ending (spawn_result env "az" ["--version"] ".") = SpawnError m) /\
   tool = "Azure CLI" /\ cmd = "az") \/
  (ending (spawn_result env "az" ["--version"] ".") = Close (Some 0%Z) /\
   includes (proc_output (spawn_result env "az" ["--version"] ".")) "azure-cli" = true /\
   (exists m, ending (spawn_result env "terraform" ["--version"] ".") = SpawnError m) /\
   tool = "Terraform" /\ cmd = "terraform") ->
  match deployment_job env lag1 lag2 a w with
  | (w', inr i) =>
      exists d, activeDeployments w' !! i = Some d /\ status d = Failed /\
        Forall (fun u => u_status u = Initializing \/ u_status u = Failed) (updates d) /\
        In ("Deployment failed: " +:+ tool +:+ " is not installed") (map u_message (updates d)) /\
        option_map u_message (last (updates d)) =
          Some ("Command failed: " +:+ cmd +:+ " --version")
  | (_, inl _) => True
  end.
Proof.
  intros Hcase.
  set (S := fun st => st = Initializing \/ st = Failed).
  assert (SF : S Failed) by (right; reflexivity).
  assert (SI : S Initializing) by (left; reflexivity).
  assert (Hjob : forall i,
            rejects_closing (deployTerraform env i a) (tool +:+ " is not installed") i
              ("Command failed: " +:+ cmd +:+ " " +:+ join " " ["--version"]) /\
            preserves (job_updates_in i S) (deployTerraform env i a)).
  { intros i.
    destruct Hcase as [[[m Hm] [-> ->]] | (Ha & Hi & [m Hm] & -> & ->)]; split.
    - apply deployTerraform_closing, (rest_az_missing_closes env i a m Hm).
    - apply (deployTerraform_tool_missing env i S SF a "Azure CLI" SI);
        apply (rest_az_missing env i S SF a m Hm).
    - apply deployTerraform_closing, (rest_terraform_missing_closes env i a m Ha Hi Hm).
    - apply (deployTerraform_tool_missing env i S SF a "Terraform" SI);
        apply (rest_terraform_missing env i S SF a m Ha Hi Hm). }
  assert (Hrej : forall i w0 w3 e, deployTerraform env i a w0 = (w3, inl e) ->
            e = tool +:+ " is not installed" /\
            closes_last i ("Command failed: " +:+ cmd +:+ " " +:+ join " " ["--version"]) w3).
  { intros i w0 w3 e E. destruct (proj1 (Hjob i) w0) as (w4 & E4 & Hc).
    rewrite E in E4. injection E4 as -> ->. split; [reflexivity|exact Hc]. }
  pose proof (failing_job_outcome env lag1 lag2 a w S SF (fun i => proj2 (Hjob i))
                (fun i => rejects_closing_never_ok _ _ _ _ (proj1 (Hjob i)))) as H.
  destruct (deployment_job env lag1 lag2 a w) as [w' [e|i]]; [exact I|].
  destruct H as (d & w1 & w2 & e & pre & Hd & Hst & Hall & _ & Hrun & Hup).
  destruct (Hrej i _ _ _ Hrun) as [-> (P & o & Hp)].
  exists d. split; [exact Hd|]. split; [exact Hst|]. split; [exact Hall|].
  rewrite Hup, Hp, late_updates_snoc. split.
  - apply in_map_iff. eexists. split; [|apply in_or_app; right; left; reflexivity].
    reflexivity.
  - rewrite app_comm_cons, app_assoc, last_snoc. reflexivity.
Qed.

Lemma missing_tool_fails_before_auth_witness :
  let env := DeployScenarios.env_with false true true (fun _ _ => None) in
  (((exists m, ending (spawn_result env "az" ["--version"] ".") = SpawnError m) /\
    "Azure CLI" = "Azure CLI" /\ "az" = "az") \/
   (ending (spawn_result env "az" ["--version"] ".") = Close (Some 0%Z) /\
    includes (proc_output (spawn_result env "az" ["--version"] ".")) "azure-cli" = true /\
    (exists m, ending (spawn_result env "terraform" ["--version"] ".") = SpawnError m) /\
    "Azure CLI" = "Terraform" /\ "az" = "terraform")) /\
  match deployment_job env 0 0 DeployScenarios.analysis7 (mkWorld ∅ DeployScenarios.t0 []) with
  | (w', inr i) =>
      exists d, activeDeployments w' !! i = Some d /\ status d = Failed /\
        Forall (fun u => u_status u = Initializing \/ u_status u = Failed) (updates d) /\
        In ("Deployment failed: " +:+ "Azure CLI" +:+ " is not installed")
          (map u_message (updates d)) /\
        option_map u_message (last (updates d)) =
          Some ("Command failed: " +:+ "az" +:+ " --version")
  | (_, inl _) => True
  end.
Proof.
  intros env.
  assert (H : ((exists m, ending (spawn_result env "az" ["--version"] ".") = SpawnError m) /\
    "Azure CLI" = "Azure CLI" /\ "az" = "az") \/
   (ending (spawn_result env "az" ["--version"] ".") = Close (Some 0%Z) /\
    includes (proc_output (spawn_result env "az" ["--version"] ".")) "azure-cli" = true /\
    (exists m, ending (spawn_result env "terraform" ["--version"] ".") = SpawnError m) /\
    "Azure CLI" = "Terraform" /\ "az" = "terraform")).
  { left. split; [eexists; reflexivity|split; reflexivity]. }
  split; [exact H|].
  exact (missing_tool_fails_before_auth env 0 0 DeployScenarios.analysis7
           (mkWorld ∅ DeployScenarios.t0 []) "Azure CLI" "az" H).
Defined.

(** *** Job ids and working directories *)

Lemma list_ascii_of_string_app (s t : string) :
  list_ascii_of_string (s +:+ t) = list_ascii_of_string s ++ list_ascii_of_string t.
Proof. induction s as [|c s IH]; simpl; [reflexivity|]. rewrite IH. reflexivity. Qed.

Lemma string_app_inv_r (s1 s2 t : string) : s1 +:+ t = s2 +:+ t -> s1 = s2.
Proof.
  intros H. apply (f_equal list_ascii_of_string) in H.
  rewrite !list_ascii_of_string_app in H. apply app_inv_tail in H.
  rewrite <- (string_of_list_ascii_of_string s1), <- (string_of_list_ascii_of_string s2), H.
  reflexivity.
Qed.

(** C3 (counterexample): two [deployToAzure] calls for the same analysis in
    the same millisecond get the same job id, so the second record replaces
    the first and a failure of the second job shows in the first job's
    updates; both jobs also use the one working directory of their
    [repoName]. *)
Lemma same_millisecond_jobs_share_record :
  let a := DeployScenarios.analysis7 in
  match deployToAzure 0 0 a (mkWorld ∅ DeployScenarios.t0 []) with
  | (w1, inr i1) =>
      match deployToAzure 0 0 a w1 with
      | (w2, inr i2) =>
          i1 = i2 /\
          deployDir (a_repoName a) = "tmp/tejas-uk_AutoCloud_terraform_deploy" /\
          exists d, activeDeployments
                      (addDeploymentUpdate i2 Failed "Deployment failed: x" None w2).1 !! i1
                    = Some d /\
                    map u_status (updates d) = [Initializing; Failed]
      | (_, inl _) => False
      end
  | (_, inl _) => False
  end.
Proof.
  vm_compute. split; [reflexivity|]. split; [reflexivity|].
  eexists. split; [reflexivity|reflexivity].
Qed.

(** C3 (amended): the working directory of a job is
    [tmp/<repoName with its first '/' replaced by '_'>_terraform_deploy]
    when the segments of that name are plain (no empty, [.] or [..]
    segment; [path.join] normalises the others), so it depends on
    [repoName] only; the job id [deploy-<analysis id>-<Date.now()>] of the
    same analysis is the same exactly when [Date.now()] is, and differs
    for different analysis ids in the same millisecond; after two
    [deployToAzure] calls for one analysis, the second id equals the first
    exactly when the second call reads the same [Date.now()], and it then
    holds the fresh record of the second call (the first record is
    replaced); an update appended to one job id leaves the record of every
    other job id unchanged. *)
Theorem job_isolation_by_id :
  (forall repoName : string,
     Forall plain_segment (split_slash (replace_first "/" "_" repoName)) ->
     deployDir repoName = "tmp/" +:+ replace_first "/" "_" repoName +:+ "_terraform_deploy") /\
  (forall (a : Analysis) (n1 n2 : N),
     newDeploymentId a n1 = newDeploymentId a n2 <-> n1 = n2) /\
  (forall (a1 a2 : Analysis) (n : N), a_id a1 <> a_id a2 ->
     newDeploymentId a1 n <> newDeploymentId a2 n) /\
  (forall (lag1 lag2 lag1' lag2' : N) (a : Analysis) (w w' w1 w2 : World) (i1 i2 : string),
     deployToAzure lag1 lag2 a w = (w', inr i1) ->
     deployToAzure lag1' lag2' a w1 = (w2, inr i2) ->
     (i1 = i2 <-> clock w1 = clock w) /\
     let ts := toISOString (clock w1 + lag1' + lag2') in
     let message := "Initializing deployment for " +:+ a_repoName a in
     activeDeployments w2 !! i2 =
       Some (mkStatus (a_id a) (a_repoName a) Initializing (toISOString (clock w1 + lag1'))
               None [mkUpdate Initializing message None ts]
               (nl +:+ "[" +:+ ts +:+ "] initializing: " +:+ message))) /\
  (forall ts i j st m det (reg : gmap string DeploymentStatus), i <> j ->
     addDeploymentUpdate_at ts i st m det reg !! j = reg !! j).
Proof.
  assert (Hinj : forall (a : Analysis) (n1 n2 : N),
             newDeploymentId a n1 = newDeploymentId a n2 <-> n1 = n2).
  { intros a n1 n2. split; [|intros ->; reflexivity].
    intros H. unfold newDeploymentId in H.
    apply (inj (String.append "deploy-")) in H.
    apply (inj (String.append (a_id a))) in H.
    apply (inj (String.append "-")) in H.
    apply (inj pretty) in H. exact H. }
  split; [exact deployDir_plain|]. split; [exact Hinj|]. split; [|split].
  - intros a1 a2 n Hne H. apply Hne. unfold newDeploymentId in H.
    apply (inj (String.append "deploy-")) in H.
    apply (string_app_inv_r (a_id a1) (a_id a2) ("-" +:+ pretty n)), H.
  - intros lag1 lag2 lag1' lag2' a w w' w1 w2 i1 i2 H1 H2.
    destruct (deployToAzure_code _ _ _ _ _ _ H1) as (f & fs & Hc).
    rewrite (deployToAzure_effect lag1 lag2 a w f fs Hc) in H1.
    rewrite (deployToAzure_effect lag1' lag2' a w1 f fs Hc) in H2.
    injection H1 as _ <-. injection H2 as <- <-. split.
    + rewrite Hinj. split; intros; symmetry; assumption.
    + cbv zeta. simpl. apply lookup_insert_eq.
  - intros. apply add_update_other. assumption.
Qed.

(** C9: with a valid CLI that is not logged in yet, the failing
    [az account show] probe records a [failed] update (setting [endTime]);
    the job then logs in, deploys, and [completed] overwrites [endTime]
    with a later instant. *)
Theorem endTime_rewritten_after_probe_failure :
  match deployment_job (DeployScenarios.env_with true true false (fun _ _ => None)) 0 0
          DeployScenarios.analysis7 (mkWorld ∅ DeployScenarios.t0 []) with
  | (w', inr i) =>
      exists d, activeDeployments w' !! i = Some d /\
        map u_status (updates d) =
          [Initializing; Failed; Authenticating; Authenticating; Authenticating;
           Preparing; Preparing; Preparing; Planning; Planning; Applying; Applying;
           Completed] /\
        map u_timestamp (updates d) !! 1%nat = Some "2023-11-14T22:13:23.500Z" /\
        status d = Completed /\
        endTime d = Some "2023-11-14T22:13:27.500Z"
  | (_, inl _) => False
  end.
Proof.
  vm_compute. eexists. split; [reflexivity|].
  split; [reflexivity|]. split; [reflexivity|]. split; reflexivity.
Qed.

End DeployProofs.

(** ** Proofs about server/azure.ts *)
Module SdkProofs.
Import Sdk.

(** *** The terraform commands a computation runs

    [adds_only P m]: whatever the state, [m] only appends to [trace]
    calls satisfying [P]. *)
Definition adds_only {A} (P : ExecCall -> Prop) (m : M A) : Prop :=
  forall st, exists new, trace (fst (m st)) = trace st ++ new /\ Forall P new.

Create HintDb adds.

Lemma adds_ret {A} P (a : A) : adds_only P (mret a).
Proof. intros st. exists []. rewrite app_nil_r. auto. Qed.

Lemma adds_throw {A} P e : adds_only P (throw (A:=A) e).
Proof. intros st. exists []. rewrite app_nil_r. auto. Qed.

Lemma adds_bind {A B} P (m : M A) (k : A -> M B) :
  adds_only P m -> (forall a, adds_only P (k a)) -> adds_only P (m ≫= k).
Proof.
  intros Hm Hk st. destruct (Hm st) as [n1 [E1 F1]].
  unfold mbind, M_bind. destruct (m st) as [st1 [e|a]]; simpl in *.
  - exists n1. auto.
  - destruct (Hk a st1) as [n2 [E2 F2]]. exists (n1 ++ n2).
    rewrite E2, E1, app_assoc. split; [reflexivity|]. apply Forall_app. auto.
Qed.

Lemma adds_catch {A} P (m : M A) (h : string -> M A) :
  adds_only P m -> (forall e, adds_only P (h e)) -> adds_only P (catch m h).
Proof.
  intros Hm Hh st. destruct (Hm st) as [n1 [E1 F1]].
  unfold catch. destruct (m st) as [st1 [e|a]]; simpl in *.
  - destruct (Hh e st1) as [n2 [E2 F2]]. exists (n1 ++ n2).
    rewrite E2, E1, app_assoc. split; [reflexivity|]. apply Forall_app. auto.
  - exists n1. auto.
Qed.

Lemma adds_with_local_logs {A} P (m : M A) : adds_only P m -> adds_only P (with_local_logs m).
Proof.
  intros Hm st. destruct (Hm (mkSt (fs st) (trace st) [])) as [n [E F]].
  unfold with_local_logs. destruct (m _) as [st1 r]. simpl in *. eauto.
Qed.

Lemma adds_state {A} P (m : M A) :
  (forall st, trace (fst (m st)) = trace st) -> adds_only P m.
Proof. intros H st. exists []. rewrite app_nil_r. auto. Qed.

Lemma adds_log P s : adds_only P (log s).
Proof. apply adds_state. reflexivity. Qed.
Lemma adds_log_all P ss : adds_only P (log_all ss).
Proof. apply adds_state. reflexivity. Qed.
Lemma adds_get_logs P : adds_only P get_logs.
Proof. apply adds_state. reflexivity. Qed.
Lemma adds_writeFile P env p c : adds_only P (writeFile env p c).
Proof. apply adds_state. intros st. unfold writeFile. destruct (write_error env p); reflexivity. Qed.
Lemma adds_readFile P p : adds_only P (readFile p).
Proof. apply adds_state. intros st. unfold readFile. destruct (fs st !! p); reflexivity. Qed.
Lemma adds_existsSync P p : adds_only P (existsSync p).
Proof. apply adds_state. reflexivity. Qed.
Lemma adds_exec (P : ExecCall -> Prop) env cwd cmd :
  (forall ok, P (mkCall cwd cmd ok)) -> adds_only P (exec env cwd cmd).
Proof. intros HP st. exists [mkCall cwd cmd (match execSync env cwd cmd with ExecOk _ => true | _ => false end)]. auto. Qed.

#[local] Hint Resolve adds_ret adds_throw adds_log adds_log_all adds_get_logs adds_writeFile
  adds_readFile adds_existsSync : adds.

Ltac adds_step :=
  match goal with
  | |- adds_only _ (mbind _ _) => apply adds_bind; [|intros ?]
  | |- adds_only _ (catch _ _) => apply adds_catch; [|intros ?]
  | |- adds_only _ (with_local_logs _) => apply adds_with_local_logs
  | |- adds_only _ (match ?x with _ => _ end) => destruct x
  | |- adds_only _ (if ?b then _ else _) => destruct b
  | |- adds_only _ (let '(_, _) := ?x in _) => destruct x
  | |- _ => solve [eauto with adds]
  end.

Lemma adds_start_writes P env d files : adds_only P (start_writes env d files).
Proof.
  induction files as [|file rest IH]; simpl; [auto with adds|].
  repeat adds_step.
  apply adds_state. intros st. unfold writeFile. destruct (write_error env _); reflexivity.
Qed.

Lemma adds_promise_all P rs : adds_only P (promise_all rs).
Proof. induction rs as [|[e|] rs IH]; simpl; auto with adds. Qed.

#[local] Hint Resolve adds_start_writes adds_promise_all : adds.

Lemma adds_write_configuration P env d files owner repo :
  adds_only P (write_configuration env d files owner repo).
Proof. unfold write_configuration. repeat adds_step. Qed.

Lemma adds_tf_run (P : ExecCall -> Prop) env ep op pre cwd cmd fin :
  adds_only P pre -> (forall ok, P (mkCall cwd cmd ok)) ->
  adds_only P (tf_run env ep op pre cwd cmd fin).
Proof.
  intros Hpre HP. unfold tf_run. repeat adds_step; auto. apply adds_exec; auto.
Qed.

Lemma tf_run_spec env ep op pre cwd cmd fin st :
  adds_only (fun _ => False) pre ->
  let '(st', r) := tf_run env ep op pre cwd cmd fin st in
  (exists e, r = inl e /\ (trace st' = trace st \/ trace st' = trace st ++ [mkCall cwd cmd false]))
  \/ (exists o, r = inr o /\ which_terraform env = true /\ trace st' = trace st ++ [mkCall cwd cmd true]).
Proof.
  intros Hpre. unfold tf_run, catch.
  destruct (which_terraform env) eqn:Hw; simpl; [|left; eauto].
  unfold mbind, M_bind. destruct (Hpre st) as [[|x n] [En Fn]]; [|inversion Fn; contradiction].
  rewrite app_nil_r in En.
  destruct (pre st) as [st1 [e|[]]]; simpl in *; [left; eauto|].
  unfold exec. destruct (execSync env cwd cmd); simpl.
  - right. eexists; split; [reflexivity|]. split; [first [exact Hw|reflexivity]|]. congruence.
  - left. eexists; split; [reflexivity|]. right. congruence.
Qed.

Definition plan_stage_call (c : ExecCall) : Prop :=
  call_command c = "terraform init" \/ call_command c = "terraform plan -out=tfplan".

Lemma adds_runTerraformPlan env id : adds_only plan_stage_call (runTerraformPlan env id).
Proof.
  unfold runTerraformPlan. repeat adds_step.
  - apply adds_write_configuration.
  - unfold tf_init. apply adds_tf_run; [|intros; left; reflexivity].
    unfold init_provider. repeat adds_step.
  - unfold tf_plan. apply adds_tf_run; [auto with adds|intros; right; reflexivity].
Qed.

Lemma tf_init_spec env cwd st :
  let '(st', r) := tf_init env cwd st in
  (exists e, r = inl e /\ (trace st' = trace st \/ trace st' = trace st ++ [mkCall cwd "terraform init" false]))
  \/ (exists o, r = inr o /\ which_terraform env = true /\ trace st' = trace st ++ [mkCall cwd "terraform init" true]).
Proof.
  apply tf_run_spec. unfold init_provider. repeat adds_step.
Qed.

Lemma tf_plan_spec env cwd st :
  let '(st', r) := tf_plan env cwd st in
  (exists e, r = inl e /\ (trace st' = trace st \/ trace st' = trace st ++ [mkCall cwd "terraform plan -out=tfplan" false]))
  \/ (exists o, r = inr o /\ which_terraform env = true /\ trace st' = trace st ++ [mkCall cwd "terraform plan -out=tfplan" true]).
Proof. apply tf_run_spec. auto with adds. Qed.

Lemma new_calls (l x n : list ExecCall) : l ++ x = l ++ n -> n = x.
Proof. intros H. symmetry. exact (app_inv_head _ _ _ H). Qed.

Lemma no_new_calls (l n : list ExecCall) : l = l ++ n -> n = [].
Proof. intros H. apply (new_calls l [] n). rewrite app_nil_r. exact H. Qed.

Ltac plan_fail Enew tac :=
  let En := fresh in
  pose proof Enew as En; tac En; rewrite <- ?app_assoc in En; simpl in En;
  first [apply new_calls in En | apply no_new_calls in En];
  eexists _, _; split; [reflexivity|]; split; [exact Enew|]; split; [assumption|];
  left; split; [reflexivity|]; split; [reflexivity|];
  let HIn := fresh in intros ? HIn; rewrite En in HIn; simpl in HIn; intuition discriminate.

Lemma plan_stage env id st :
  let '(st', r) := runTerraformPlan env id st in
  exists pr new, r = inr pr /\ trace st' = trace st ++ new /\ Forall plan_stage_call new /\
   (pr_success pr = false /\ pr_terraformDir pr = None /\
       (forall d, ~ In (mkCall d "terraform plan -out=tfplan" true) new)
    \/ pr_success pr = true /\ which_terraform env = true /\
       exists d, tmp_dirSync env = inr d /\ pr_terraformDir pr = Some d /\
         new = [mkCall d "terraform init" true; mkCall d "terraform plan -out=tfplan" true]).
Proof.
  destruct (adds_runTerraformPlan env id st) as [new [Enew Fnew]].
  destruct (runTerraformPlan env id st) as [st' r] eqn:E. simpl in Enew.
  unfold runTerraformPlan, with_local_logs, catch in E.
  unfold mbind, M_bind in E.
  destruct (getAnalysis env id) as [a|]; simpl in E;
    [|injection E as <- <-; simpl in Enew; plan_fail Enew ltac:(fun _ => idtac)].
  destruct (terraformCode a) as [files|]; simpl in E;
    [|injection E as <- <-; simpl in Enew; plan_fail Enew ltac:(fun _ => idtac)].
  destruct (tmp_dirSync env) as [e|d] eqn:Ed; simpl in E;
    [injection E as <- <-; simpl in Enew; plan_fail Enew ltac:(fun _ => idtac)|].
  match type of E with context [write_configuration ?e1 ?e2 ?e3 ?e4 ?e5 ?s] =>
    destruct (adds_write_configuration (fun _ => False) e1 e2 e3 e4 e5 s) as [[|x nw] [Ew Fw]];
      [|inversion Fw; contradiction];
    destruct (write_configuration e1 e2 e3 e4 e5 s) as [st2 [e|[]]] end;
    simpl in E, Ew;
    [injection E as <- <-; simpl in Enew; plan_fail Enew ltac:(fun H => rewrite Ew in H)|].
  match type of E with context [tf_init ?e1 ?e2 ?s] =>
    pose proof (tf_init_spec e1 e2 s) as Hi; destruct (tf_init e1 e2 s) as [st3 [e|o]] end;
    simpl in E.
  { injection E as <- <-; simpl in Enew.
    destruct Hi as [[e' [_ [Ti|Ti]]]|[? [? _]]]; [| |discriminate];
    simpl in Ti; plan_fail Enew ltac:(fun H => rewrite Ti, Ew in H). }
  destruct Hi as [[e [? _]]|[o1 [Ho1 [_ Ti]]]]; [discriminate|]. simpl in Ti.
  match type of E with context [tf_plan ?e1 ?e2 ?s] =>
    pose proof (tf_plan_spec e1 e2 s) as Hp; destruct (tf_plan e1 e2 s) as [st4 [e|o']] end;
    simpl in E.
  { injection E as <- <-; simpl in Enew.
    destruct Hp as [[e' [_ [Tp|Tp]]]|[? [? _]]]; [| |discriminate];
    simpl in Tp; plan_fail Enew ltac:(fun H => rewrite Tp, Ti, Ew in H). }
  destruct Hp as [[e [? _]]|[o2 [Ho2 [Hw Tp]]]]; [discriminate|].
  simpl in Tp.
  destruct (search plan_regex o') as [[|? [|? [|? [|]]]]|]; simpl in E;
  injection E as <- <-; simpl in Enew;
  (eexists _, _; split; [reflexivity|]; split; [exact Enew|]; split; [exact Fnew|]);
  right; (split; [reflexivity|]); (split; [exact Hw|]); exists d; (split; [first [exact Ed|reflexivity]|]); (split; [reflexivity|]);
  rewrite Tp, Ti, Ew, app_nil_r, <- app_assoc in Enew; simpl in Enew;
  symmetry; exact (app_inv_head _ _ _ Enew).
Qed.

Lemma adds_format_outputs P acc entries : adds_only P (format_outputs acc entries).
Proof.
  revert acc. induction entries as [|[key value] rest IH]; intros acc; simpl; [auto with adds|].
  apply adds_bind; [|intros v; apply adds_bind; auto with adds].
  unfold value_of. repeat adds_step.
Qed.

Lemma adds_parse_outputs P env o : adds_only P (parse_outputs env o).
Proof.
  unfold parse_outputs. repeat adds_step.
  - unfold object_entries. repeat adds_step.
  - apply adds_format_outputs.
Qed.

Lemma trace_bind_prefix {A B} (m : M A) (k : A -> M B) st :
  (forall a, adds_only (fun _ => True) (k a)) ->
  exists n, trace (fst ((m ≫= k) st)) = trace (fst (m st)) ++ n.
Proof.
  intros Hk. unfold mbind, M_bind. destruct (m st) as [st1 [e|a]]; simpl.
  - exists []. rewrite app_nil_r. reflexivity.
  - destruct (Hk a st1) as [n [E _]]. eauto.
Qed.

Lemma trace_catch_prefix {A} (m : M A) h st :
  (forall e, adds_only (fun _ => True) (h e)) ->
  exists n, trace (fst (catch m h st)) = trace (fst (m st)) ++ n.
Proof.
  intros Hh. unfold catch. destruct (m st) as [st1 [e|a]]; simpl.
  - destruct (Hh e st1) as [n [E _]]. eauto.
  - exists []. rewrite app_nil_r. reflexivity.
Qed.

Lemma apply_stage env id st :
  let '(st', r) := applyTerraformPlan env id st in
  exists new, trace st' = trace st ++ new /\
   (Forall plan_stage_call new /\ (forall d, ~ In (mkCall d "terraform plan -out=tfplan" true) new)
    \/ exists d rest, tmp_dirSync env = inr d /\
         new = [mkCall d "terraform init" true; mkCall d "terraform plan -out=tfplan" true] ++ rest /\
         Forall (fun c => call_cwd c = d) rest /\
         (d <> "" -> exists ok rest', rest = mkCall d "terraform apply -auto-approve" ok :: rest')).
Proof.
  destruct st as [f t l].
  unfold applyTerraformPlan, with_local_logs.
  match goal with |- context [catch (mbind ?K _) ?h] => set (Kont := K); set (Hand := h) end.
  unfold catch.
  match goal with |- context [mbind Kont (runTerraformPlan ?e ?i) ?s] =>
    change (mbind Kont (runTerraformPlan e i) s) with
      (match runTerraformPlan e i s with (st1, inl e) => (st1, inl e) | (st1, inr a) => Kont a st1 end);
    pose proof (plan_stage e i s) as Hp; destruct (runTerraformPlan e i s) as [st1 r1] end.
  assert (HH : forall e, adds_only (fun _ => False) (Hand e)) by (intros e; unfold Hand; repeat adds_step).
  destruct Hp as (pr & n1 & -> & T1 & F1 & [(Hs & Hd & Hno)|[Hs [Hw (d & Ed & Hd & ->)]]]); simpl in T1.
  - simpl. unfold Kont at 1. rewrite Hs. simpl. exists n1. auto.
  - assert (HK : adds_only (fun c => call_cwd c = d) (Kont pr)).
    { unfold Kont. rewrite Hs, Hd. simpl. repeat adds_step.
      - unfold tf_apply. apply adds_tf_run; auto with adds.
      - unfold tf_output. apply adds_tf_run; auto with adds.
      - apply adds_parse_outputs. }
    assert (HA : d <> "" -> exists ok n2',
               trace (fst (Kont pr st1)) = trace st1 ++ mkCall d "terraform apply -auto-approve" ok :: n2').
    { intros Hne. unfold Kont. rewrite Hs, Hd. simpl.
      unfold mbind at 1, M_bind at 1, log_all at 1. simpl.
      destruct (String.eqb_spec d "") as [|_]; [congruence|].
      unfold mbind at 1, M_bind at 1, log at 1. simpl.
      unfold mbind at 1, M_bind at 1, log at 1. simpl.
      match goal with |- context [catch ?m ?h ?s] =>
        destruct (trace_catch_prefix m h s) as [n3 T3]; [intros; simpl; repeat adds_step|rewrite T3] end.
      match goal with |- context [mbind ?k (tf_apply ?e ?d) ?s] =>
        destruct (trace_bind_prefix (tf_apply e d) k s) as [n4 T4]; [|rewrite T4] end.
      { intros. repeat adds_step; [unfold tf_output; apply adds_tf_run; auto with adds|apply adds_parse_outputs]. }
      unfold tf_apply, tf_run, catch, mbind, M_bind, exec. rewrite Hw. simpl.
      destruct (execSync env d _); simpl; (eexists _, (n4 ++ n3); rewrite <- !app_assoc; reflexivity). }
    simpl. destruct (HK st1) as [n2 [T2 F2]].
    assert (HA2 : d <> "" -> exists ok n2', n2 = mkCall d "terraform apply -auto-approve" ok :: n2').
    { intros Hne. destruct (HA Hne) as (ok & n2' & E2). exists ok, n2'.
      rewrite T2 in E2. exact (app_inv_head _ _ _ E2). }
    destruct (Kont pr st1) as [st2 [e|a]]; simpl in T2 |- *.
    + destruct (HH e st2) as [[|x n3] [T3 F3]]; [|inversion F3; contradiction].
      destruct (Hand e st2) as [st3 r3]. simpl in T3 |- *.
      exists ([mkCall d "terraform init" true; mkCall d "terraform plan -out=tfplan" true] ++ n2).
      rewrite ?T3, ?app_nil_r, T2, T1, <- app_assoc. split; [reflexivity|]. right. eauto 6.
    + exists ([mkCall d "terraform init" true; mkCall d "terraform plan -out=tfplan" true] ++ n2).
      rewrite T2, T1, <- app_assoc. split; [reflexivity|]. right. eauto 6.
Qed.


(** C4: [applyTerraformPlan] always runs the planning stage of
    [runTerraformPlan] first, in a fresh temporary directory. Among the
    terraform commands one call executes, every [terraform apply
    -auto-approve] runs in the directory [tmp.dirSync] gave, and the
    call's first two commands are a successful [terraform init] and a
    successful [terraform plan -out=tfplan] there. Conversely, once that
    plan succeeded in a (non-empty) directory, apply is run in it. *)
Theorem apply_replans_first (env : Env) (analysisId : string) (st : St) :
  let '(st', _) := applyTerraformPlan env analysisId st in
  exists new, trace st' = trace st ++ new /\
    (forall pre d ok post,
       new = pre ++ mkCall d "terraform apply -auto-approve" ok :: post ->
       tmp_dirSync env = inr d /\
       exists mid, pre = [mkCall d "terraform init" true; mkCall d "terraform plan -out=tfplan" true] ++ mid) /\
    (forall d, In (mkCall d "terraform plan -out=tfplan" true) new -> d <> "" ->
       exists ok, In (mkCall d "terraform apply -auto-approve" ok) new).
Proof.
  pose proof (apply_stage env analysisId st) as H.
  destruct (applyTerraformPlan env analysisId st) as [st' r].
  destruct H as (new & Tn & Hc). exists new. split; [exact Tn|].
  destruct Hc as [[Fp Hno] | (d & rest & Ed & -> & Fr & Ha)].
  - split.
    + intros pre d ok post ->. rewrite Forall_app in Fp. destruct Fp as [_ Fp].
      inversion Fp as [|? ? [Hc|Hc] _]; discriminate.
    + intros d Hin. exfalso. exact (Hno d Hin).
  - split.
    + intros pre d' ok post Hn.
      destruct pre as [|a [|b pre']]; simpl in Hn; injection Hn; intros; subst; try discriminate.
      assert (Hd : d' = d).
      { rewrite List.Forall_forall in Fr. apply (Fr (mkCall d' "terraform apply -auto-approve" ok)).
        apply in_or_app. right. left. reflexivity. }
      subst d'. split; [exact Ed|]. exists pre'. reflexivity.
    + intros d' Hin Hne.
      assert (Hd : d' = d).
      { simpl in Hin. destruct Hin as [Hin|[Hin|Hin]]; try (injection Hin; intros; subst; reflexivity).
        rewrite List.Forall_forall in Fr. exact (Fr _ Hin). }
      subst d'. destruct (Ha Hne) as (ok & rest' & ->). exists ok. simpl. auto.
Qed.

(** *** Outputs that cannot be parsed *)

Lemma with_local_logs_any {A} (body : M A) f t l :
  with_local_logs body (mkSt f t l) =
  let '(st', r) := with_local_logs body (mkSt f t []) in (mkSt (fs st') (trace st') l, r).
Proof. unfold with_local_logs. simpl. destruct (body _). reflexivity. Qed.

Lemma runTerraformPlan_logs env analysisId f t l :
  runTerraformPlan env analysisId (mkSt f t l) =
  let '(st', r) := runTerraformPlan env analysisId (mkSt f t []) in (mkSt (fs st') (trace st') l, r).
Proof. unfold runTerraformPlan. apply with_local_logs_any. Qed.

(** C6 (amended): when the plan stage succeeds and [terraform apply] and
    [terraform output -json] succeed but [JSON.parse] rejects the output,
    [applyTerraformPlan] still resolves with [success = true], but its
    [outputs] field is absent (not an empty map), its message says the
    outputs could not be parsed, and its last log line is the warning. *)
Theorem unparsable_outputs_still_succeed (env : Env) (analysisId : string) (st : St)
  (pr : PlanResult) (dir applyOut outputsOut err : string)
  (Hplan : snd (runTerraformPlan env analysisId st) = inr pr)
  (Hsucc : pr_success pr = true)
  (Hdir : pr_terraformDir pr = Some dir) (Hne : dir <> "")
  (Hwhich : which_terraform env = true)
  (Happly : execSync env dir "terraform apply -auto-approve" = ExecOk applyOut)
  (Hout : execSync env dir "terraform output -json" = ExecOk outputsOut)
  (Hparse : json_parse env (js_or outputsOut "{}") = inl err) :
  exists res, snd (applyTerraformPlan env analysisId st) = inr res /\
    ar_success res = true /\ ar_outputs res = None /\
    ar_message res = "Terraform apply completed successfully, but outputs could not be parsed" /\
    last (ar_logs res) = Some ("Warning: Unable to parse Terraform outputs: " +:+ err).
Proof.
  destruct st as [f t l].
  unfold applyTerraformPlan. rewrite with_local_logs_any.
  unfold with_local_logs at 1. simpl.
  rewrite runTerraformPlan_logs in Hplan.
  destruct (runTerraformPlan env analysisId (mkSt f t [])) as [st1 r1] eqn:E1.
  simpl in Hplan. subst r1.
  unfold catch at 1, mbind at 1, M_bind at 1. simpl. rewrite E1.
  rewrite Hsucc. simpl.
  unfold log_all, log, mbind, M_bind. simpl. rewrite Hdir.
  destruct (String.eqb_spec dir "") as [|_]; [congruence|].

  unfold catch. simpl.
  unfold tf_apply, tf_run, catch, exec. rewrite Hwhich. simpl.
  change ("terraform apply" +:+ " -auto-approve") with "terraform apply -auto-approve". rewrite Happly. simpl.

  match goal with |- context [search ?r ?x] => destruct (search r x) as [[|a [|b [|c [|]]]]|] end; simpl;
  unfold tf_output, tf_run, catch, exec; rewrite Hwhich; simpl; change ("terraform output" +:+ " -json") with "terraform output -json"; rewrite Hout; simpl;
  unfold parse_outputs, catch; simpl; rewrite Hparse; simpl;
  (eexists; split; [reflexivity|]); simpl; (split; [reflexivity|]); (split; [reflexivity|]); (split; [reflexivity|]);
  rewrite ?app_assoc; apply last_snoc.
Qed.

(** C6 witness: the plan of analysis 7 succeeds and [terraform output]
    prints text that is not JSON. *)
Lemma unparsable_outputs_still_succeed_witness :
  exists res, snd (applyTerraformPlan (SdkScenarios.sdk_env SdkScenarios.all_vars None "garbage")
                     "7" SdkScenarios.st0) = inr res /\
    ar_success res = true /\ ar_outputs res = None /\
    ar_message res = "Terraform apply completed successfully, but outputs could not be parsed" /\
    last (ar_logs res) = Some ("Warning: Unable to parse Terraform outputs: "
                               +:+ "Unexpected token g in JSON at position 0").
Proof.
  apply (unparsable_outputs_still_succeed
           (SdkScenarios.sdk_env SdkScenarios.all_vars None "garbage") "7" SdkScenarios.st0
           (match snd (runTerraformPlan (SdkScenarios.sdk_env SdkScenarios.all_vars None "garbage")
                         "7" SdkScenarios.st0) with
            | inr pr => pr
            | inl _ => mkPlan false "" [] None None
            end)
           "/tmp/terraform-X7a2" "Apply complete! Resources: 3 added, 0 changed, 0 destroyed."
           "garbage").
  - vm_compute. reflexivity.
  - vm_compute. reflexivity.
  - vm_compute. reflexivity.
  - discriminate.
  - reflexivity.
  - vm_compute. reflexivity.
  - vm_compute. reflexivity.
  - vm_compute. reflexivity.
Defined.

(** C6 (counterexample): apply succeeds, [terraform output -json] prints
    text that is not JSON, and the result has [success = true] with no
    [outputs] field at all. *)
Lemma unparsable_outputs_leave_outputs_absent :
  match snd (applyTerraformPlan (SdkScenarios.sdk_env SdkScenarios.all_vars None "garbage")
               "7" SdkScenarios.st0) with
  | inr res => ar_success res = true /\ ar_outputs res = None
  | inl _ => False
  end.
Proof. vm_compute. split; reflexivity. Qed.

(** *** The credential gate *)

Definition auth_start : list string :=
  ["Starting Azure authentication process..."; "Initializing Azure SDK authentication..."].

End SdkProofs.

(** ** Further properties of the orchestrator, the SDK path and the routes *)

Module DeployExtras.
Import Deploy PathProofs DeployProofs.

(** The text [addDeploymentUpdate] appends to [logs] for one update. *)
Definition render_update (u : DeploymentUpdate) : string :=
  nl +:+ "[" +:+ u_timestamp u +:+ "] " +:+ status_str (u_status u) +:+ ": " +:+ u_message u
  +:+ match u_details u with
      | Some s => if String.eqb s "" then "" else nl +:+ s
      | None => ""
      end.

Fixpoint render_all (us : list DeploymentUpdate) : string :=
  match us with
  | [] => ""
  | u :: rest => render_update u +:+ render_all rest
  end.

(** The timestamp of the last [completed] or [failed] update. *)
Definition last_terminal (us : list DeploymentUpdate) : option string :=
  fold_left (fun acc u => match u_status u with
                          | Completed | Failed => Some (u_timestamp u)
                          | _ => acc
                          end) us None.

Definition consistent (d : DeploymentStatus) : Prop :=
  logs d = render_all (updates d) /\ endTime d = last_terminal (updates d).

Definition consistent_at (j : string) (reg : gmap string DeploymentStatus) : Prop :=
  forall d, reg !! j = Some d -> consistent d.

Lemma render_all_app us u : render_all (us ++ [u]) = render_all us +:+ render_update u.
Proof.
  induction us as [|v us IH]; simpl; [apply str_app_nil_r|].
  rewrite IH. apply str_app_assoc.
Qed.

Lemma add_update_consistent ts i j st m det reg :
  consistent_at j reg -> consistent_at j (addDeploymentUpdate_at ts i st m det reg).
Proof.
  intros Hc d' Hd'. destruct (decide (i = j)) as [<-|Hne].
  - unfold addDeploymentUpdate_at in Hd'. destruct (reg !! i) as [d|] eqn:Hd; [|exact (Hc d' Hd')].
    rewrite lookup_insert_eq in Hd'. injection Hd' as <-.
    destruct (Hc d Hd) as [Hl He]. split; simpl.
    + rewrite render_all_app, <- Hl. unfold render_update; simpl.
      rewrite ?str_app_assoc.
      destruct det as [s|]; [destruct (String.eqb s "")|]; rewrite ?str_app_nil_r, ?str_app_assoc;
        reflexivity.
    + unfold last_terminal. rewrite fold_left_app. simpl. fold (last_terminal (updates d)).
      destruct st; simpl; congruence.
  - rewrite add_update_other in Hd' by exact Hne. exact (Hc d' Hd').
Qed.

Lemma reg_step_consistent op j reg : consistent_at j reg -> consistent_at j (reg_step op reg).
Proof.
  intros Hc. destruct op as [ts i st m det | now lag1 lag2 a]; simpl;
    [apply add_update_consistent, Hc|].
  unfold register_job. destruct (terraformCode a) as [[|f fs]|]; [exact Hc| |exact Hc].
  unfold initial_update. apply add_update_consistent.
  intros d Hd. destruct (decide (newDeploymentId a now = j)) as [<-|Hne].
  - rewrite lookup_insert_eq in Hd. injection Hd as <-. split; reflexivity.
  - rewrite lookup_insert_ne in Hd by exact Hne. exact (Hc d Hd).
Qed.

Lemma run_ops_consistent ops j reg : consistent_at j reg -> consistent_at j (run_ops ops reg).
Proof.
  revert reg. induction ops as [|op ops IH]; intros reg Hc; simpl; [exact Hc|].
  apply IH, reg_step_consistent, Hc.
Qed.

Lemma deployToAzure_consistent lag1 lag2 a w :
  match deployToAzure lag1 lag2 a w with
  | (w', inr i) => consistent_at i (activeDeployments w')
  | (_, inl _) => True
  end.
Proof.
  unfold deployToAzure, startDeployment, mbind, M_bind, mret, M_ret, addDeploymentUpdate, advance.
  destruct (register_job a (clock w) (clock w + lag1) (activeDeployments w))
    as [[i reg']|] eqn:Hr; simpl; [|exact I].
  apply add_update_consistent. unfold register_job in Hr.
  destruct (terraformCode a) as [[|f fs]|]; try discriminate.
  injection Hr as <- <-. intros d Hd. rewrite lookup_insert_eq in Hd. injection Hd as <-.
  split; reflexivity.
Qed.

(** X1: the [logs] text of a job registered by [deployToAzure] is, at
    every later point, the rendering of its [updates]: one line
    "[timestamp] status: message" per update, each followed by its
    details when they are non-empty. *)
Theorem logs_are_rendered_updates (lag1 lag2 : N) (a : Analysis) (w : World)
    (ops : list RegOp) :
  match deployToAzure lag1 lag2 a w with
  | (w', inr i) =>
      forall d, run_ops ops (activeDeployments w') !! i = Some d ->
        logs d = render_all (updates d)
  | (_, inl _) => True
  end.
Proof.
  pose proof (deployToAzure_consistent lag1 lag2 a w) as H.
  destruct (deployToAzure lag1 lag2 a w) as [w' [e|i]]; [exact I|].
  intros d Hd. exact (proj1 (run_ops_consistent ops i _ H d Hd)).
Qed.

(** X2: the [endTime] of a job registered by [deployToAzure] is, at
    every later point, the timestamp of its last [completed] or
    [failed] update, and absent while there is none. *)
Theorem endTime_is_last_terminal_update (lag1 lag2 : N) (a : Analysis) (w : World)
    (ops : list RegOp) :
  match deployToAzure lag1 lag2 a w with
  | (w', inr i) =>
      forall d, run_ops ops (activeDeployments w') !! i = Some d ->
        endTime d = last_terminal (updates d)
  | (_, inl _) => True
  end.
Proof.
  pose proof (deployToAzure_consistent lag1 lag2 a w) as H.
  destruct (deployToAzure lag1 lag2 a w) as [w' [e|i]]; [exact I|].
  intros d Hd. exact (proj2 (run_ops_consistent ops i _ H d Hd)).
Qed.


(** The job [i] exists in the map. *)
Definition has_job (i : string) (w : World) : Prop := is_Some (activeDeployments w !! i).

Lemma has_job_updates_in i w : has_job i w <-> job_updates_in i (fun _ => True) w.
Proof.
  split.
  - intros [d Hd]. exists d. split; [exact Hd|]. apply Forall_forall. intros; exact I.
  - intros (d & Hd & _). exists d. exact Hd.
Qed.

Lemma preserves_has_job {A} i (m : M A) :
  preserves (job_updates_in i (fun _ => True)) m -> preserves (has_job i) m.
Proof. intros H w Hw. apply has_job_updates_in, H, has_job_updates_in, Hw. Qed.

Lemma preserves_rest_has_job env i a : preserves (has_job i) (deployTerraform_rest env i a).
Proof.
  apply preserves_has_job.
  destruct (preserves_checks env i (fun _ => True) I) as (Pa & Pt & _).
  unfold deployTerraform_rest.
  apply preserves_bind; [exact Pa|intros b1]. destruct b1; simpl; [|apply preserves_throw].
  apply preserves_bind; [exact Pt|intros b2]. destruct b2; simpl; [|apply preserves_throw].
  repeat (apply preserves_bind; [first [apply preserves_login | apply preserves_add
    | apply preserves_ensureDir | apply preserves_writeFiles
    | apply preserves_exec; [|intros f Hf c; injection Hf as <-; apply preserves_add]]; exact I
    |intros _]).
  apply preserves_add; exact I.
Qed.

(** [m], run from a state where the job exists, can only resolve in a
    state satisfying [P]. *)
Definition ends_in {A} (i : string) (P : World -> Prop) (m : M A) : Prop :=
  forall w w' x, has_job i w -> m w = (w', inr x) -> P w'.

Lemma ends_in_bind {A B} i P (m : M A) (k : A -> M B) :
  preserves (has_job i) m -> (forall x, ends_in i P (k x)) -> ends_in i P (m ≫= k).
Proof.
  intros Pm Hk w w' y Hw E. unfold mbind, M_bind in E.
  specialize (Pm w Hw). destruct (m w) as [w1 [e|x]]; [discriminate|].
  exact (Hk x w1 w' y Pm E).
Qed.

Lemma ends_in_throw {A} i P e : ends_in i P (throw (A:=A) e).
Proof. intros w w' x _ E. discriminate. Qed.

(** The job's record is in a final status set by its last update. *)
Definition settled (i : string) (S : DStatus) (w : World) : Prop :=
  exists d, activeDeployments w !! i = Some d /\ status d = S /\
    endTime d = option_map u_timestamp (last (updates d)) /\ endTime d <> None.

Lemma add_terminal_settled i st m w :
  (st = Completed \/ st = Failed) -> has_job i w ->
  settled i st (addDeploymentUpdate i st m None w).1.
Proof.
  intros Hst [d Hd]. unfold addDeploymentUpdate, addDeploymentUpdate_at; simpl. rewrite Hd.
  cbv zeta. unfold settled; simpl. eexists. rewrite lookup_insert_eq. split; [reflexivity|]. simpl. split; [reflexivity|].
  rewrite last_app. simpl.
  destruct Hst as [->| ->]; simpl; split; [reflexivity|discriminate|reflexivity|discriminate].
Qed.

Lemma rest_ends_completed env i a :
  ends_in i (settled i Completed) (deployTerraform_rest env i a).
Proof.
  destruct (preserves_checks env i (fun _ => True) I) as (Pa & Pt & _).
  unfold deployTerraform_rest.
  apply ends_in_bind; [apply preserves_has_job, Pa|intros b1].
  destruct b1; simpl; [|apply ends_in_throw].
  apply ends_in_bind; [apply preserves_has_job, Pt|intros b2].
  destruct b2; simpl; [|apply ends_in_throw].
  repeat (apply ends_in_bind; [apply preserves_has_job; first [apply preserves_login | apply preserves_add
    | apply preserves_ensureDir | apply preserves_writeFiles
    | apply preserves_exec; [|intros f Hf c; injection Hf as <-; apply preserves_add]]; exact I
    |intros _]).
  intros w w' x Hw E. injection E as <- _. apply add_terminal_settled; [left; reflexivity|exact Hw].
Qed.

Lemma deployTerraform_settles env i a w :
  has_job i w ->
  match deployTerraform env i a w with
  | (w', inr _) => settled i Completed w'
  | (w', inl e) => has_job i w'
  end.
Proof.
  intros Hw. unfold deployTerraform, catch.
  assert (H1 : has_job i (addDeploymentUpdate i Initializing
                ("Initializing deployment for " +:+ a_repoName a) None w).1).
  { apply preserves_has_job; [apply preserves_add; exact I|exact Hw]. }
  unfold mbind at 1, M_bind at 1.
  destruct (addDeploymentUpdate i Initializing _ None w) as [w1 [e|[]]] eqn:E1; [discriminate|].
  simpl in H1.
  pose proof (preserves_rest_has_job env i a w1 H1) as H2.
  pose proof (rest_ends_completed env i a w1) as H3.
  destruct (deployTerraform_rest env i a w1) as [w2 [e|[]]] eqn:E2; simpl in H2.
  - pose proof (preserves_has_job i _
      (preserves_add i (fun _ => True) Failed ("Deployment failed: " +:+ e) None I) w2 H2) as H4.
    unfold mbind, M_bind, throw.
    destruct (addDeploymentUpdate i Failed _ None w2) as [w3 [? | []]]; exact H4.
  - exact (H3 w2 tt H1 eq_refl).
Qed.

(** The job's record is [completed] or [failed], with [endTime] the
    timestamp of its last update. *)
Definition terminal_at (i : string) (w : World) : Prop :=
  exists d, activeDeployments w !! i = Some d /\
    (status d = Completed \/ status d = Failed) /\
    endTime d = option_map u_timestamp (last (updates d)) /\ endTime d <> None.

Lemma settled_terminal i st w :
  (st = Completed \/ st = Failed) -> settled i st w -> terminal_at i w.
Proof. intros Hst (d & Hd & Hs & He & Hn). exists d. rewrite Hs. auto. Qed.

Lemma pending_keeps_terminal i w : terminal_at i w -> terminal_at i (run_pending_closes w).1.
Proof.
  intros (d & Hd & Hs & He & Hn). unfold run_pending_closes; simpl.
  destruct (late_closes_lookup (toISOString (clock w)) i (pendingCloses w) _ d Hd)
    as (d' & Hd' & _ & Heq & Hne).
  exists d'. split; [exact Hd'|].
  destruct (decide (late_updates (toISOString (clock w)) i (pendingCloses w) = [])) as [E|E].
  - rewrite (Heq E). auto.
  - destruct (Hne E) as (Hs' & He' & Hl'). rewrite Hs', He', Hl'.
    split; [right; reflexivity|]. split; [reflexivity|discriminate].
Qed.

(** X3: after a whole job has run, its record is [completed] or [failed]
    and [endTime] is the timestamp of its last update. *)
Theorem job_ends_in_terminal_status (env : Env) (lag1 lag2 : N) (a : Analysis) (w : World) :
  match deployment_job env lag1 lag2 a w with
  | (w', inr i) =>
      exists d, activeDeployments w' !! i = Some d /\
        (status d = Completed \/ status d = Failed) /\
        endTime d = option_map u_timestamp (last (updates d)) /\ endTime d <> None
  | (w', inl e) => e = "No Terraform code available for deployment" /\ w' = w
  end.
Proof.
  unfold deployment_job, startDeployment, mbind at 1, M_bind at 1.
  destruct (register_job a (clock w) (clock w + lag1) (activeDeployments w))
    as [[i reg']|] eqn:Hr; [|split; reflexivity].
  assert (Hj : has_job i (mkWorld reg' (clock w + lag1 + lag2) (pendingCloses w))).
  { unfold register_job in Hr. destruct (terraformCode a) as [[|f fs]|]; try discriminate.
    injection Hr as <- <-. unfold has_job; simpl. rewrite lookup_insert_eq. eexists; reflexivity. }
  unfold mbind, M_bind, catch, mret, M_ret, advance. cbn [activeDeployments clock pendingCloses].
  pose proof (deployTerraform_settles env i a _ Hj) as Hs.
  destruct (deployTerraform env i a (mkWorld reg' (clock w + lag1 + lag2) (pendingCloses w)))
    as [w2 [e|[]]].
  - pose proof (settled_terminal i Failed _ (or_intror eq_refl)
      (add_terminal_settled i Failed ("Deployment failed: " +:+ e) w2 (or_intror eq_refl) Hs))
      as T.
    pose proof (pending_keeps_terminal i _ T) as T'.
    unfold addDeploymentUpdate, run_pending_closes in *. simpl in *. exact T'.
  - pose proof (pending_keeps_terminal i _ (settled_terminal i Completed _ (or_introl eq_refl) Hs))
      as T'.
    unfold run_pending_closes in *. simpl in *. exact T'.
Qed.


(** X4: without Terraform files the call throws before anything is
    registered. *)
Theorem deployToAzure_without_code (lag1 lag2 : N) (a : Analysis) (w : World) :
  terraformCode a = None \/ terraformCode a = Some [] ->
  deployToAzure lag1 lag2 a w = (w, inl "No Terraform code available for deployment").
Proof.
  intros Hc. unfold deployToAzure, startDeployment, mbind, M_bind, register_job.
  destruct Hc as [-> | ->]; reflexivity.
Qed.

Lemma deployToAzure_without_code_witness :
  let a := mkAnalysis "7" "tejas-uk/AutoCloud" (Some []) in
  (terraformCode a = None \/ terraformCode a = Some []) /\
  deployToAzure 0 0 a (mkWorld ∅ DeployScenarios.t0 [])
  = (mkWorld ∅ DeployScenarios.t0 [], inl "No Terraform code available for deployment").
Proof.
  simpl. split; [right; reflexivity|].
  apply (deployToAzure_without_code 0 0 (mkAnalysis "7" "tejas-uk/AutoCloud" (Some []))).
  right; reflexivity.
Defined.

(** X5: what [getDeploymentStatus] returns right after [deployToAzure]:
    the id is built from [Date.now()], [startTime] is the [new Date()]
    read [lag1] ms later, and the first update carries the instant of the
    read another [lag2] ms later. *)
Theorem deployToAzure_registers_job (lag1 lag2 : N) (a : Analysis) (w : World) (f : TfFile)
    (fs : list TfFile) :
  terraformCode a = Some (f :: fs) ->
  let i := newDeploymentId a (clock w) in
  let ts := toISOString (clock w + lag1 + lag2) in
  let message := "Initializing deployment for " +:+ a_repoName a in
  deployToAzure lag1 lag2 a w =
    (mkWorld (<[i := mkStatus (a_id a) (a_repoName a) Initializing
                      (toISOString (clock w + lag1)) None
                      [mkUpdate Initializing message None ts]
                      (nl +:+ "[" +:+ ts +:+ "] initializing: " +:+ message)]>
                (activeDeployments w)) (clock w + lag1 + lag2) (pendingCloses w), inr i).
Proof.
  intros Hc. unfold deployToAzure, startDeployment, mbind, M_bind, mret, M_ret,
    addDeploymentUpdate, advance, register_job. rewrite Hc. simpl.
  unfold addDeploymentUpdate_at. rewrite lookup_insert_eq. simpl.
  rewrite insert_insert_eq. reflexivity.
Qed.


Lemma deployToAzure_registers_job_witness :
  let a := DeployScenarios.analysis7 in
  let w := mkWorld ∅ DeployScenarios.t0 [] in
  let i := newDeploymentId a (clock w) in
  let ts := toISOString (clock w + 500 + 20) in
  let message := "Initializing deployment for " +:+ a_repoName a in
  terraformCode a = Some [mkFile "main.tf" "resource {}"] /\
  deployToAzure 500 20 a w =
    (mkWorld (<[i := mkStatus (a_id a) (a_repoName a) Initializing
                      (toISOString (clock w + 500)) None
                      [mkUpdate Initializing message None ts]
                      (nl +:+ "[" +:+ ts +:+ "] initializing: " +:+ message)]>
                (activeDeployments w)) (clock w + 500 + 20) (pendingCloses w), inr i).
Proof.
  split; [reflexivity|].
  exact (deployToAzure_registers_job 500 20 DeployScenarios.analysis7
           (mkWorld ∅ DeployScenarios.t0 []) (mkFile "main.tf" "resource {}") [] eq_refl).
Defined.

(** *** [deployDir] *)

Lemma prefix_slash c (s : string) :
  String.prefix "/" (String c s) = if ascii_dec "/" c then true else false.
Proof. destruct s; simpl; destruct (ascii_dec "/" c); reflexivity. Qed.

Lemma index0_cons p c (s : string) :
  String.index 0 p (String c s) =
  if String.prefix p (String c s) then Some 0%nat
  else match String.index 0 p s with Some n => Some (S n) | None => None end.
Proof. reflexivity. Qed.

Lemma index_slash_app (owner rest : string) :
  String.index 0 "/" owner = None ->
  String.index 0 "/" (owner +:+ "/" +:+ rest) = Some (String.length owner).
Proof.
  induction owner as [|c o IH]; intros H.
  { change (String.index 0 "/" (String "/" rest) = Some 0%nat). cbn.
    destruct (ascii_dec "/" "/") as [_|C]; [destruct rest; reflexivity|congruence]. }
  change (String.index 0 "/" (String c (o +:+ "/" +:+ rest)) = Some (S (String.length o))).
  rewrite index0_cons, prefix_slash in H |- *.
  destruct (ascii_dec "/" c) as [_|Hne]; [discriminate|].
  destruct (String.index 0 "/" o); [discriminate|]. rewrite IH by reflexivity. reflexivity.
Qed.

Lemma substring_prefix (a b : string) : String.substring 0 (String.length a) (a +:+ b) = a.
Proof. induction a as [|c a IH]; [destruct b; reflexivity|]. exact (f_equal (String c) IH). Qed.

Lemma substring_all (s : string) m : (String.length s <= m)%nat -> String.substring 0 m s = s.
Proof.
  revert m. induction s as [|c s IH]; intros m Hm; [destruct m; reflexivity|].
  destruct m as [|m]; simpl in Hm; [lia|]. simpl. f_equal. apply IH. lia.
Qed.

Lemma substring_skip (a b : string) k m :
  String.substring (String.length a + k) m (a +:+ b) = String.substring k m b.
Proof. induction a as [|c a IH]; [reflexivity|]. exact IH. Qed.



Lemma replace_first_slash (owner rest : string) :
  String.index 0 "/" owner = None ->
  replace_first "/" "_" (owner +:+ "/" +:+ rest) = owner +:+ "_" +:+ rest.
Proof.
  intros H. unfold replace_first. rewrite index_slash_app by exact H.
  rewrite substring_prefix.
  replace (String.length owner + String.length "/")%nat with (String.length owner + 1)%nat
    by reflexivity.
  rewrite substring_skip. simpl. rewrite substring_all; [reflexivity|].
  pose proof (length_app owner ("/" +:+ rest)) as L. simpl in L. lia.
Qed.

(** X6: only the first "/" of the repository name is replaced; when the
    segments of the result are plain, [path.join] leaves it as it is
    under [tmp/]. *)
Theorem deployDir_replaces_first_slash (owner rest : string) :
  String.index 0 "/" owner = None ->
  Forall plain_segment (split_slash (owner +:+ "_" +:+ rest)) ->
  deployDir (owner +:+ "/" +:+ rest) = "tmp/" +:+ owner +:+ "_" +:+ rest +:+ "_terraform_deploy".
Proof.
  intros H Hp. rewrite deployDir_plain; rewrite (replace_first_slash owner rest H);
    [|exact Hp].
  rewrite <- !str_app_assoc. reflexivity.
Qed.

Lemma deployDir_replaces_first_slash_witness :
  String.index 0 "/" "tejas-uk" = None /\
  Forall plain_segment (split_slash ("tejas-uk" +:+ "_" +:+ "AutoCloud/infra")) /\
  deployDir ("tejas-uk" +:+ "/" +:+ "AutoCloud/infra")
  = "tmp/" +:+ "tejas-uk" +:+ "_" +:+ "AutoCloud/infra" +:+ "_terraform_deploy".
Proof.
  assert (E : split_slash ("tejas-uk" +:+ "_" +:+ "AutoCloud/infra")
              = ["tejas-uk_AutoCloud"; "infra"]) by reflexivity.
  assert (Hp : Forall plain_segment (split_slash ("tejas-uk" +:+ "_" +:+ "AutoCloud/infra"))).
  { rewrite E. constructor; [split; [discriminate|split; discriminate]|].
    constructor; [split; [discriminate|split; discriminate]|constructor]. }
  split; [reflexivity|]. split; [exact Hp|].
  apply deployDir_replaces_first_slash; [reflexivity|exact Hp].
Defined.


(** *** [executeCommand] and the probes *)



(** X7: the version probes never reject; they answer whether the command
    exited with 0 and its output names the tool. *)
Theorem version_probes_never_reject (env : Env) (i : string) (w : World) :
  (exists w', checkAzCliInstalled env i w =
     (w', inr (match ending (spawn_result env "az" ["--version"] ".") with
               | Close (Some 0) =>
                   includes (proc_output (spawn_result env "az" ["--version"] ".")) "azure-cli"
               | _ => false
               end))) /\
  (exists w', checkTerraformInstalled env i w =
     (w', inr (match ending (spawn_result env "terraform" ["--version"] ".") with
               | Close (Some 0) =>
                   includes (proc_output (spawn_result env "terraform" ["--version"] "."))
                     "Terraform"
               | _ => false
               end))).
Proof.
  unfold checkAzCliInstalled, checkTerraformInstalled, catch, mbind, M_bind.
  rewrite !exec_no_handler.
  split; [destruct (ending (spawn_result env "az" ["--version"] "."))
         |destruct (ending (spawn_result env "terraform" ["--version"] "."))];
  (destruct code as [[|c|c]|] || idtac); eexists; reflexivity.
Qed.

(** X8: the login probe never rejects; it answers true exactly when
    [az account show] exits with 0 and prints an object whose [id] is
    truthy. *)
Theorem auth_probe_never_rejects (env : Env) (i : string) (w : World) :
  exists w', checkAzureAuthentication env i w =
    (w', inr (match ending (spawn_result env "az" ["account"; "show"] ".") with
              | Close (Some 0) =>
                  match json_parse env (proc_output (spawn_result env "az" ["account"; "show"] ".")) with
                  | inr (JObj kvs) => truthy_opt (obj_get kvs "id")
                  | _ => false
                  end
              | _ => false
              end)).
Proof.
  unfold checkAzureAuthentication, catch, mbind, M_bind. rewrite exec_no_handler.
  destruct (ending (spawn_result env "az" ["account"; "show"] ".")) as [[[|c|c]|]|m];
    try (eexists; reflexivity).
  simpl. destruct (json_parse env _) as [e|[| | | | |kvs]]; eexists; reflexivity.
Qed.

(** X9: a failing [az account show] makes the probe answer false, but it
    also records a [failed] update on the job (setting [endTime]), after
    the updates of the ['close'] events still pending when the command
    started, if it could be spawned. *)
Theorem failed_auth_probe_marks_job_failed (env : Env) (i : string) (w : World)
    (d : DeploymentStatus) :
  activeDeployments w !! i = Some d ->
  ending (spawn_result env "az" ["account"; "show"] ".") <> Close (Some 0) ->
  exists w' d', checkAzureAuthentication env i w = (w', inr false) /\
    activeDeployments w' !! i = Some d' /\ status d' = Failed /\ endTime d' <> None /\
    updates d' = updates d ++
      (match ending (spawn_result env "az" ["account"; "show"] ".") with
       | SpawnError _ => []
       | Close _ => late_updates (toISOString (clock w)) i (pendingCloses w)
       end) ++
      [mkUpdate Failed
         (match ending (spawn_result env "az" ["account"; "show"] ".") with
          | SpawnError m => "Command error: " +:+ m
          | Close _ => "Command failed: az account show"
          end)
         (Some (proc_output (spawn_result env "az" ["account"; "show"] ".")))
         (toISOString (clock w'))].
Proof.
  intros Hd Hne. unfold checkAzureAuthentication, catch, mbind, M_bind. rewrite exec_no_handler.
  cbv zeta.
  destruct (late_closes_lookup (toISOString (clock w)) i (pendingCloses w) _ d Hd)
    as (d1 & Hd1 & Hu1 & _).
  destruct (ending (spawn_result env "az" ["account"; "show"] ".")) as [[[|c|c]|]|m];
    [congruence| | | |];
  (eexists _, _; split; [reflexivity|]); simpl; unfold addDeploymentUpdate_at;
  first [rewrite Hd1 | rewrite Hd]; cbv zeta; rewrite lookup_insert_eq;
  (split; [reflexivity|]); simpl; (split; [reflexivity|]); (split; [discriminate|]);
  first [rewrite Hu1, <- app_assoc; reflexivity | reflexivity].
Qed.

Lemma failed_auth_probe_marks_job_failed_witness :
  let env := DeployScenarios.env_with true true false (fun _ _ => None) in
  let d := mkStatus "7" "tejas-uk/AutoCloud" Initializing "2023-11-14T22:13:20.000Z" None [] "" in
  let w := mkWorld {[ "deploy-7-1" := d ]} DeployScenarios.t0 [] in
  (activeDeployments w !! "deploy-7-1" = Some d /\
   ending (spawn_result env "az" ["account"; "show"] ".") <> Close (Some 0)) /\
  exists w' d', checkAzureAuthentication env "deploy-7-1" w = (w', inr false) /\
    activeDeployments w' !! "deploy-7-1" = Some d' /\ status d' = Failed /\ endTime d' <> None /\
    updates d' = updates d ++
      (match ending (spawn_result env "az" ["account"; "show"] ".") with
       | SpawnError _ => []
       | Close _ => late_updates (toISOString (clock w)) "deploy-7-1" (pendingCloses w)
       end) ++
      [mkUpdate Failed
         (match ending (spawn_result env "az" ["account"; "show"] ".") with
          | SpawnError m => "Command error: " +:+ m
          | Close _ => "Command failed: az account show"
          end)
         (Some (proc_output (spawn_result env "az" ["account"; "show"] ".")))
         (toISOString (clock w'))].
Proof.
  split; [split; [reflexivity|discriminate]|].
  apply failed_auth_probe_marks_job_failed; [reflexivity|discriminate].
Defined.


Definition update_view (u : DeploymentUpdate) : DStatus * string * option string :=
  (u_status u, u_message u, u_details u).

Lemma on_data_updates i st message cs out w d :
  activeDeployments w !! i = Some d ->
  match on_data (Some (fun data => addDeploymentUpdate i st message (Some data))) cs out w with
  | (w', inr o) =>
      o = fold_left (fun o c => o +:+ c) cs out /\ clock w' = clock w /\
      exists d', activeDeployments w' !! i = Some d' /\
        map update_view (updates d') =
        map update_view (updates d) ++ map (fun c => (st, message, Some c)) cs
  | (_, inl _) => False
  end.
Proof.
  revert out w d. induction cs as [|c cs IH]; intros out w d Hd.
  - simpl. split; [reflexivity|]. split; [reflexivity|]. exists d. rewrite app_nil_r. auto.
  - simpl. unfold mbind at 1, M_bind at 1.
    destruct (add_update_same (toISOString (clock w)) i st message (Some c) _ d Hd)
      as (d1 & Hd1 & Hu1 & _).
    specialize (IH (out +:+ c) (mkWorld (addDeploymentUpdate_at (toISOString (clock w)) i st
                                   message (Some c) (activeDeployments w)) (clock w)
                                   (pendingCloses w)) d1 Hd1).
    unfold addDeploymentUpdate. simpl.
    destruct (on_data _ cs (out +:+ c) _) as [w' [e|o]]; [exact IH|].
    destruct IH as (Ho & Hc & d' & Hd' & Hv). split; [exact Ho|]. split; [exact Hc|].
    exists d'. split; [exact Hd'|]. rewrite Hv, Hu1, map_app, <- app_assoc. reflexivity.
Qed.

(** X10: with a progress handler, each chunk of output becomes one update
    whose [details] is the chunk, in arrival order (after the updates of
    the ['close'] events pending when the command started), and the
    command resolves with all the chunks joined. *)
Theorem streamed_output_becomes_updates (env : Env) (command : string) (args : list string)
    (cwd i : string) (st : DStatus) (message : string) (w : World) (d : DeploymentStatus) :
  activeDeployments w !! i = Some d ->
  ending (spawn_result env command args cwd) = Close (Some 0) ->
  match executeCommand env command args cwd i
          (Some (fun data => addDeploymentUpdate i st message (Some data))) w with
  | (w', inr r) =>
      r = (0, proc_output (spawn_result env command args cwd)) /\
      exists d', activeDeployments w' !! i = Some d' /\
        map update_view (updates d') =
        map update_view (updates d) ++
        map update_view (late_updates (toISOString (clock w)) i (pendingCloses w)) ++
        map (fun c => (st, message, Some c)) (chunks (spawn_result env command args cwd))
  | (_, inl _) => False
  end.
Proof.
  intros Hd He. unfold executeCommand. cbv zeta. rewrite He.
  unfold mbind, M_bind, run_pending_closes. cbv beta iota.
  destruct (late_closes_lookup (toISOString (clock w)) i (pendingCloses w) _ d Hd)
    as (d1 & Hd1 & Hu1 & _).
  pose proof (on_data_updates i st message (chunks (spawn_result env command args cwd)) ""
                (mkWorld (fold_left (late_close_at (toISOString (clock w))) (pendingCloses w)
                            (activeDeployments w)) (clock w) []) d1 Hd1) as H.
  destruct (on_data _ _ "" _) as [w1 [e|o]]; [contradiction|].
  destruct H as (Ho & _ & d' & Hd' & Hv).
  unfold advance, mret, M_ret. simpl.
  split; [rewrite Ho; reflexivity|]. exists d'. split; [exact Hd'|].
  rewrite Hv, Hu1, map_app, <- app_assoc. reflexivity.
Qed.

Lemma streamed_output_becomes_updates_witness :
  let env := mkEnv (fun _ _ _ => mkProc ["To sign in, use a web browser"; " and enter the code"]
                                        (Close (Some 0)) 2000)
                   DeployScenarios.account_json (fun _ => false) (fun _ => None) (fun _ _ => None) in
  let d := mkStatus "7" "tejas-uk/AutoCloud" Authenticating "2023-11-14T22:13:20.000Z" None [] "" in
  let w := mkWorld {[ "deploy-7-1" := d ]} DeployScenarios.t0 [] in
  (activeDeployments w !! "deploy-7-1" = Some d /\
   ending (spawn_result env "az" ["login"; "--use-device-code"] ".") = Close (Some 0)) /\
  match executeCommand env "az" ["login"; "--use-device-code"] "." "deploy-7-1"
          (Some (fun data => addDeploymentUpdate "deploy-7-1" Authenticating
                               "Azure authentication in progress" (Some data))) w with
  | (w', inr r) =>
      r = (0, proc_output (spawn_result env "az" ["login"; "--use-device-code"] ".")) /\
      exists d', activeDeployments w' !! "deploy-7-1" = Some d' /\
        map update_view (updates d') =
        map update_view (updates d) ++
        map update_view (late_updates (toISOString (clock w)) "deploy-7-1" (pendingCloses w)) ++
        map (fun c => (Authenticating, "Azure authentication in progress", Some c))
          (chunks (spawn_result env "az" ["login"; "--use-device-code"] "."))
  | (_, inl _) => False
  end.
Proof.
  split; [split; reflexivity|].
  apply streamed_output_becomes_updates; reflexivity.
Defined.

End DeployExtras.

Module SdkExtras.
Import Sdk PathProofs SdkProofs.

(** X11: without a terraform binary every wrapper method rejects with its
    prefix and the installation hint, before touching files or running a
    command. *)
Theorem wrapper_requires_terraform (env : Env) (cwd : string) (st : St) :
  which_terraform env = false ->
  tf_init env cwd st = (st, inl ("Terraform init error: " +:+ not_installed)) /\
  tf_plan env cwd st = (st, inl ("Terraform plan error: " +:+ not_installed)) /\
  tf_apply env cwd st = (st, inl ("Terraform apply error: " +:+ not_installed)) /\
  tf_output env cwd st = (st, inl ("Terraform output error: " +:+ not_installed)).
Proof.
  intros Hw. unfold tf_init, tf_plan, tf_apply, tf_output, tf_run, catch. rewrite Hw.
  repeat split.
Qed.

(** X12: a failing [execSync] is reported with both prefixes, the method's
    outer one and its inner "execution error" one, followed by the
    error's message, a newline and its stderr. *)
Theorem wrapper_exec_error_message (env : Env) (cwd message stderr : string) (st : St) :
  which_terraform env = true ->
  (execSync env cwd "terraform plan -out=tfplan" = ExecErr message stderr ->
   tf_plan env cwd st =
     (mkSt (fs st) (trace st ++ [mkCall cwd "terraform plan -out=tfplan" false]) (logs st),
      inl ("Terraform plan error: Terraform plan execution error: " +:+ message +:+ nl +:+ stderr))) /\
  (execSync env cwd "terraform apply -auto-approve" = ExecErr message stderr ->
   tf_apply env cwd st =
     (mkSt (fs st) (trace st ++ [mkCall cwd "terraform apply -auto-approve" false]) (logs st),
      inl ("Terraform apply error: Terraform apply execution error: " +:+ message +:+ nl +:+ stderr))) /\
  (execSync env cwd "terraform output -json" = ExecErr message stderr ->
   tf_output env cwd st =
     (mkSt (fs st) (trace st ++ [mkCall cwd "terraform output -json" false]) (logs st),
      inl ("Terraform output error: Terraform output execution error: " +:+ message +:+ nl +:+ stderr))).
Proof.
  intros Hw. unfold tf_plan, tf_apply, tf_output, tf_run, catch, mbind, M_bind, exec.
  rewrite Hw. change ("terraform plan" +:+ " -out=" +:+ "tfplan") with "terraform plan -out=tfplan".
  change ("terraform apply" +:+ " -auto-approve") with "terraform apply -auto-approve".
  change ("terraform output" +:+ " -json") with "terraform output -json".
  repeat split; intros He; simpl; rewrite He; reflexivity.
Qed.


(** X13: an empty stdout is replaced by a fixed text: the plan and apply
    messages, and "{}" for the outputs. *)
Theorem wrapper_empty_output_defaults (env : Env) (cwd : string) (st : St) :
  which_terraform env = true ->
  (execSync env cwd "terraform plan -out=tfplan" = ExecOk "" ->
   snd (tf_plan env cwd st) = inr "Terraform plan completed successfully") /\
  (execSync env cwd "terraform apply -auto-approve" = ExecOk "" ->
   snd (tf_apply env cwd st) = inr "Terraform apply completed successfully") /\
  (execSync env cwd "terraform output -json" = ExecOk "" ->
   snd (tf_output env cwd st) = inr "{}").
Proof.
  intros Hw. unfold tf_plan, tf_apply, tf_output, tf_run, catch, mbind, M_bind, exec.
  rewrite Hw. change ("terraform plan" +:+ " -out=" +:+ "tfplan") with "terraform plan -out=tfplan".
  change ("terraform apply" +:+ " -auto-approve") with "terraform apply -auto-approve".
  change ("terraform output" +:+ " -json") with "terraform output -json".
  repeat split; intros He; simpl; rewrite He; reflexivity.
Qed.


(** X14: without a stored analysis, or without Terraform code in it, the
    plan resolves with success false and that reason, logs only the
    error, and changes no file and runs no command. *)
Theorem plan_needs_analysis_with_code (env : Env) (analysisId reason : string) (st : St) :
  match getAnalysis env analysisId with
  | None => reason = "Analysis not found"
  | Some a => terraformCode a = None /\ reason = "No Terraform code found for this analysis"
  end ->
  runTerraformPlan env analysisId st =
    (st, inr (mkPlan false ("Failed to run Terraform plan: " +:+ reason) ["Error: " +:+ reason]
                None None)).
Proof.
  intros H. destruct st as [f t l].
  unfold runTerraformPlan, with_local_logs, catch, mbind, M_bind.
  destruct (getAnalysis env analysisId) as [a|]; simpl; [destruct H as [Hc ->]; rewrite Hc|subst reason];
    reflexivity.
Qed.

Lemma plan_needs_analysis_with_code_witness :
  let env := SdkScenarios.sdk_env SdkScenarios.all_vars None "{}" in
  (match getAnalysis env "8" with
   | None => "Analysis not found" = "Analysis not found"
   | Some a => terraformCode a = None /\ "Analysis not found" = "No Terraform code found for this analysis"
   end) /\
  runTerraformPlan env "8" SdkScenarios.st0 =
    (SdkScenarios.st0, inr (mkPlan false ("Failed to run Terraform plan: " +:+ "Analysis not found")
                              ["Error: " +:+ "Analysis not found"] None None)).
Proof.
  split; [reflexivity|].
  apply (plan_needs_analysis_with_code (SdkScenarios.sdk_env SdkScenarios.all_vars None "{}") "8"
           "Analysis not found" SdkScenarios.st0).
  reflexivity.
Defined.

Lemma with_local_logs_logs {A} (m : M A) st : logs (fst (with_local_logs m st)) = logs st.
Proof. unfold with_local_logs. destruct (m _). reflexivity. Qed.

(** X15: when the plan stage fails, apply stops there: it resolves with
    success false, the fixed message and exactly the plan's log lines,
    and runs no command beyond the plan stage's. *)
Theorem apply_stops_when_plan_fails (env : Env) (analysisId : string) (st st1 : St)
    (pr : PlanResult) :
  runTerraformPlan env analysisId st = (st1, inr pr) -> pr_success pr = false ->
  applyTerraformPlan env analysisId st =
    (st1, inr (mkApply false "Failed to create Terraform plan" (pr_logs pr) None)).
Proof.
  intros Hr Hs. destruct st as [f t l].
  rewrite runTerraformPlan_logs in Hr.
  unfold applyTerraformPlan, with_local_logs, catch, mbind at 1, M_bind at 1. simpl.
  assert (HL : logs (fst (runTerraformPlan env analysisId (mkSt f t []))) = []).
  { unfold runTerraformPlan. apply with_local_logs_logs. }
  destruct (runTerraformPlan env analysisId (mkSt f t [])) as [[f2 t2 l2] r2].
  simpl in HL. subst l2. injection Hr as <- ->. rewrite Hs. reflexivity.
Qed.

Lemma apply_stops_when_plan_fails_witness :
  let env := SdkScenarios.sdk_env SdkScenarios.all_vars None "{}" in
  let pr := mkPlan false ("Failed to run Terraform plan: " +:+ "Analysis not found")
              ["Error: " +:+ "Analysis not found"] None None in
  (runTerraformPlan env "8" SdkScenarios.st0 = (SdkScenarios.st0, inr pr) /\ pr_success pr = false) /\
  applyTerraformPlan env "8" SdkScenarios.st0 =
    (SdkScenarios.st0, inr (mkApply false "Failed to create Terraform plan" (pr_logs pr) None)).
Proof.
  split; [split; reflexivity|].
  apply apply_stops_when_plan_fails; reflexivity.
Defined.


(** X16: authentication succeeds exactly when the four variables are set
    and both the credential and the token request succeed, whatever the
    resource listing does; it then reports the subscription id. *)
Theorem authenticate_succeeds_iff (env : Env) (st : St) :
  exists r, authenticateWithAzure env st = (st, inr r) /\
    (au_success r = true <->
       (env_set env "AZURE_TENANT_ID" && env_set env "AZURE_CLIENT_ID"
        && env_set env "AZURE_CLIENT_SECRET" && env_set env "AZURE_SUBSCRIPTION_ID") = true /\
       credential_error env = None /\ getToken_error env = None) /\
    (au_success r = true ->
       au_message r = "Successfully authenticated with Azure" /\
       au_subscriptionId r = Some (env_str env "AZURE_SUBSCRIPTION_ID")).
Proof.
  destruct st as [f t l].
  unfold authenticateWithAzure, with_local_logs, catch, mbind, M_bind, log, log_all, get_logs,
    mret, M_ret, throw.
  destruct (env_set env "AZURE_TENANT_ID" && env_set env "AZURE_CLIENT_ID"
            && env_set env "AZURE_CLIENT_SECRET" && env_set env "AZURE_SUBSCRIPTION_ID") eqn:E;
    simpl;
    [destruct (credential_error env); simpl;
      [|destruct (getToken_error env); simpl; [|destruct (resources_list_error env)]]|];
    (eexists; split; [reflexivity|]); simpl;
    (split; [split; [intros H; discriminate H|intros (H1 & H2 & H3); discriminate]
            |intros H; discriminate H])
    || (split; [split; [intros _; auto|intros _; reflexivity]|intros _; split; reflexivity]).
Qed.


(** [value.value] of a non-null output entry. *)
Definition entry_value (v : Json) : option Json :=
  match v with JObj kvs => obj_get kvs "value" | _ => None end.

Lemma existsb_key_absent (acc : list (string * option Json)) key :
  key ∉ map fst acc -> existsb (fun kv => String.eqb kv.1 key) acc = false.
Proof.
  induction acc as [|[k v] acc IH]; intros Hn; [reflexivity|]. simpl.
  destruct (String.eqb_spec k key) as [->|Hne]; [exfalso; apply Hn; left|].
  simpl. apply IH. intros Hin. apply Hn. right. exact Hin.
Qed.

Lemma format_outputs_distinct acc entries st :
  NoDup (map fst acc ++ map fst entries) -> Forall (fun kv => kv.2 <> JNull) entries ->
  exists st', format_outputs acc entries st =
    (st', inr (acc ++ map (fun kv => (kv.1, entry_value kv.2)) entries)).
Proof.
  revert acc st. induction entries as [|[key value] rest IH]; intros acc st Hnd Hnn.
  - exists st. rewrite app_nil_r. reflexivity.
  - inversion Hnn as [|? ? Hv Hrest]; subst. simpl in Hv.
    assert (Hk : key ∉ map fst acc).
    { intros Hin. apply NoDup_app in Hnd as (_ & Hdis & _).
      apply (Hdis key Hin). left. }
    simpl. unfold mbind at 1, M_bind at 1.
    assert (Ev : value_of value st = (st, inr (entry_value value))).
    { destruct value; [contradiction|reflexivity..]. }
    rewrite Ev. rewrite existsb_key_absent by exact Hk.
    unfold mbind, M_bind, log.
    assert (Hnd' : NoDup (map fst (acc ++ [(key, entry_value value)]) ++ map fst rest)).
    { rewrite map_app, <- app_assoc. exact Hnd. }
    destruct (IH (acc ++ [(key, entry_value value)])
                (mkSt (fs st) (trace st) (logs st ++ ["Output " +:+ key +:+ ": "
                   +:+ js_string_opt (entry_value value)])) Hnd' Hrest) as [st' Hst'].
    exists st'. simpl. rewrite Hst', <- app_assoc. reflexivity.
Qed.

(** X17: when the outputs parse as an object with distinct names and no
    null entry, apply reports success and maps each output name to its
    [value] field, in the order of the object. *)
Theorem outputs_map_names_to_values (env : Env) (outputs : string) (st : St)
    (kvs : list (string * Json)) :
  json_parse env outputs = inr (JObj kvs) -> NoDup (map fst kvs) ->
  Forall (fun kv => kv.2 <> JNull) kvs ->
  exists st' r, parse_outputs env outputs st = (st', inr r) /\ ar_success r = true /\
    ar_message r = "Terraform apply completed successfully" /\
    ar_outputs r = Some (map (fun kv => (kv.1, entry_value kv.2)) kvs).
Proof.
  intros Hp Hnd Hnn. unfold parse_outputs, catch, mbind at 1 2, M_bind at 1 2.
  rewrite Hp. simpl.
  destruct (format_outputs_distinct [] kvs st Hnd Hnn) as [st1 E1].
  unfold mbind at 1, M_bind at 1. rewrite E1. simpl.
  unfold mbind, M_bind, get_logs, mret, M_ret.
  match goal with |- context [if ?b then _ else _] => destruct b end;
    simpl; eexists _, _; (split; [reflexivity|]); auto.
Qed.

(** X18: a single null output entry makes the whole outputs unreadable:
    apply still reports success, with the outputs absent. *)
Theorem null_output_entry_drops_outputs (env : Env) (outputs : string) (st : St)
    (kvs : list (string * Json)) (k : string) :
  json_parse env outputs = inr (JObj kvs) -> In (k, JNull) kvs ->
  exists st' r, parse_outputs env outputs st = (st', inr r) /\ ar_success r = true /\
    ar_message r = "Terraform apply completed successfully, but outputs could not be parsed" /\
    ar_outputs r = None.
Proof.
  intros Hp Hin.
  assert (Hf : forall acc entries s, In (k, JNull) entries ->
            exists s' e, format_outputs acc entries s = (s', inl e)).
  { intros acc entries. revert acc. induction entries as [|[key value] rest IH];
      intros acc s Hi; [destruct Hi|].
    simpl. unfold mbind at 1, M_bind at 1.
    destruct Hi as [Heq|Hi].
    - injection Heq as -> ->. simpl. eauto.
    - destruct value; simpl; unfold mbind, M_bind, log; eauto. }
  unfold parse_outputs, catch, mbind at 1 2, M_bind at 1 2.
  rewrite Hp. simpl.
  destruct (Hf [] kvs st Hin) as (s1 & e & E1).
  unfold mbind at 1, M_bind at 1. rewrite E1. simpl.
  eexists _, _. split; [reflexivity|]. auto.
Qed.




Lemma start_writes_ok env d files st key :
  (forall p, write_error env p = None) ->
  Forall (fun f => path_join d (Deploy.file_name f) <> key) files ->
  exists st' rs, start_writes env d files st = (st', inr rs) /\ Forall (fun r => r = None) rs /\
    fs st' !! key = fs st !! key /\ trace st' = trace st.
Proof.
  intros Hw. revert st. induction files as [|f rest IH]; intros st Hk.
  - exists st, []. auto.
  - inversion Hk as [|? ? Hf Hrest]; subst.
    simpl. unfold mbind at 1 2, M_bind at 1 2, log at 1, writeFile at 1. rewrite Hw. simpl.
    unfold mbind, M_bind.
    match goal with |- context [start_writes env d rest ?s] =>
      destruct (IH s Hrest) as (st' & rs & E & Hrs & Hkey & Ht) end.
    rewrite E. exists st', (None :: rs). split; [reflexivity|].
    split; [constructor; auto|]. rewrite Hkey, Ht. simpl.
    split; [apply lookup_insert_ne; exact Hf|reflexivity].
Qed.

Lemma promise_all_ok rs : Forall (fun r => r = None) rs -> forall st, promise_all rs st = (st, inr tt).
Proof. induction 1 as [|r rs -> _ IH]; intros st; [reflexivity|exact (IH st)]. Qed.

Definition enoent_message (p : string) : string :=
  "ENOENT: no such file or directory, open '" +:+ p +:+ "'".

Lemma write_configuration_needs_variables env d files owner repo st :
  (forall p, write_error env p = None) ->
  Forall (fun f => path_join d (Deploy.file_name f) <> path_join d "variables.tf") files ->
  fs st !! path_join d "variables.tf" = None ->
  exists st', write_configuration env d files owner repo st =
    (st', inl (enoent_message (path_join d "variables.tf"))) /\ trace st' = trace st.
Proof.
  intros Hw Hk Hv.
  destruct (start_writes_ok env d files st _ Hw Hk) as (st1 & rs & E1 & Hrs & Hk1 & Ht1).
  unfold write_configuration, mbind at 1, M_bind at 1. rewrite E1.
  unfold mbind at 1, M_bind at 1. rewrite (promise_all_ok rs Hrs st1).
  unfold mbind, M_bind, log, writeFile, readFile. rewrite Hw. simpl.
  rewrite lookup_insert_ne, Hk1, Hv.
  - eexists. split; [reflexivity|exact Ht1].
  - intros He. apply path_join_plain_inj in He; [discriminate| |].
    + change (Forall plain_segment ["providers.tf"]).
      constructor; [split; [discriminate|split; discriminate]|constructor].
    + change (Forall plain_segment ["variables.tf"]).
      constructor; [split; [discriminate|split; discriminate]|constructor].
Qed.

(** X19: an analysis none of whose Terraform files lands on
    <dir>/variables.tf (once [path.join] has normalised its name) makes
    the plan fail with ENOENT on <dir>/variables.tf (the fresh directory
    has none), before any terraform command runs. *)
Theorem plan_needs_variables_tf (env : Env) (analysisId d : string) (st : St)
    (a : StoredAnalysis) (files : list Deploy.TfFile) :
  getAnalysis env analysisId = Some a -> terraformCode a = Some files ->
  tmp_dirSync env = inr d -> (forall p, write_error env p = None) ->
  Forall (fun f => path_join d (Deploy.file_name f) <> path_join d "variables.tf") files ->
  fs st !! path_join d "variables.tf" = None ->
  exists st' ls, runTerraformPlan env analysisId st =
    (st', inr (mkPlan false ("Failed to run Terraform plan: " +:+ enoent_message (path_join d "variables.tf"))
                 ls None None)) /\
    last ls = Some ("Error: " +:+ enoent_message (path_join d "variables.tf")) /\
    trace st' = trace st.
Proof.
  intros Ha Hc Hd Hw Hn Hv. destruct st as [f t l].
  unfold runTerraformPlan, with_local_logs, catch, mbind at 1 2 3, M_bind at 1 2 3.
  rewrite Ha. simpl. rewrite Hc. simpl. rewrite Hd. simpl.
  unfold mbind at 1 2, M_bind at 1 2, log at 1. simpl.
  match goal with |- context [write_configuration env d files ?o ?r ?s] =>
    destruct (write_configuration_needs_variables env d files o r s Hw Hn Hv) as (st1 & E1 & T1) end.
  unfold mbind at 1, M_bind at 1. rewrite E1. simpl.
  unfold mbind, M_bind, log, get_logs, mret, M_ret, or_unknown. simpl.
  eexists _, _. split; [reflexivity|]. simpl. rewrite last_app. split; [reflexivity|].
  rewrite T1. reflexivity.
Qed.


Lemma plan_needs_variables_tf_witness :
  let a := mkStored "https://github.com/tejas-uk/AutoCloud" (Some [Deploy.mkFile "main.tf" "resource {}"]) in
  let env := mkEnv SdkScenarios.all_vars None None None
               (fun i => if String.eqb i "7" then Some a else None)
               (inr "/tmp/terraform-X7a2") (fun _ => None) true (SdkScenarios.sdk_machine "{}")
               SdkScenarios.parse_json "2023-11-14T22:13:20.000Z" in
  (getAnalysis env "7" = Some a /\ terraformCode a = Some [Deploy.mkFile "main.tf" "resource {}"] /\
   tmp_dirSync env = inr "/tmp/terraform-X7a2" /\ (forall p, write_error env p = None) /\
   Forall (fun f => path_join "/tmp/terraform-X7a2" (Deploy.file_name f)
                    <> path_join "/tmp/terraform-X7a2" "variables.tf")
     [Deploy.mkFile "main.tf" "resource {}"] /\
   fs SdkScenarios.st0 !! path_join "/tmp/terraform-X7a2" "variables.tf" = None) /\
  exists st' ls, runTerraformPlan env "7" SdkScenarios.st0 =
    (st', inr (mkPlan false ("Failed to run Terraform plan: "
                             +:+ enoent_message (path_join "/tmp/terraform-X7a2" "variables.tf"))
                 ls None None)) /\
    last ls = Some ("Error: " +:+ enoent_message (path_join "/tmp/terraform-X7a2" "variables.tf")) /\
    trace st' = trace SdkScenarios.st0.
Proof.
  assert (Hn : Forall (fun f => path_join "/tmp/terraform-X7a2" (Deploy.file_name f)
                                <> path_join "/tmp/terraform-X7a2" "variables.tf")
                 [Deploy.mkFile "main.tf" "resource {}"]).
  { constructor; [intros H; vm_compute in H; discriminate H|constructor]. }
  split; [split; [reflexivity|split; [reflexivity|split; [reflexivity|split;
          [intros; reflexivity|split; [exact Hn|reflexivity]]]]]|].
  eapply plan_needs_variables_tf; [reflexivity|reflexivity|reflexivity|intros; reflexivity|exact Hn
                                  |reflexivity].
Defined.

Definition no_terraform_env : Env :=
  mkEnv SdkScenarios.all_vars None None None (fun _ => None) (inr "/tmp/terraform-X7a2")
    (fun _ => None) false (SdkScenarios.sdk_machine "{}") SdkScenarios.parse_json
    "2023-11-14T22:13:20.000Z".

Lemma wrapper_requires_terraform_witness :
  which_terraform no_terraform_env = false /\
  tf_init no_terraform_env "/tmp/terraform-X7a2" SdkScenarios.st0
    = (SdkScenarios.st0, inl ("Terraform init error: " +:+ not_installed)) /\
  tf_plan no_terraform_env "/tmp/terraform-X7a2" SdkScenarios.st0
    = (SdkScenarios.st0, inl ("Terraform plan error: " +:+ not_installed)) /\
  tf_apply no_terraform_env "/tmp/terraform-X7a2" SdkScenarios.st0
    = (SdkScenarios.st0, inl ("Terraform apply error: " +:+ not_installed)) /\
  tf_output no_terraform_env "/tmp/terraform-X7a2" SdkScenarios.st0
    = (SdkScenarios.st0, inl ("Terraform output error: " +:+ not_installed)).
Proof. split; [reflexivity|]. apply wrapper_requires_terraform. reflexivity. Defined.

(** terraform installed, every command answering [r]; [JSON.parse]
    giving [parsed]. *)
Definition fixed_env (r : ExecResult) (parsed : string + Json) : Env :=
  mkEnv SdkScenarios.all_vars None None None (fun _ => None) (inr "/tmp/terraform-X7a2")
    (fun _ => None) true (fun _ _ => r) (fun _ => parsed) "2023-11-14T22:13:20.000Z".

Lemma wrapper_exec_error_message_witness :
  let env := fixed_env (ExecErr "Command failed: terraform" "Error: No configuration files")
               (inr (JObj [])) in
  let cwd := "/tmp/terraform-X7a2" in
  let st := SdkScenarios.st0 in
  which_terraform env = true /\
  (execSync env cwd "terraform plan -out=tfplan"
   = ExecErr "Command failed: terraform" "Error: No configuration files" ->
   tf_plan env cwd st =
     (mkSt (fs st) (trace st ++ [mkCall cwd "terraform plan -out=tfplan" false]) (logs st),
      inl ("Terraform plan error: Terraform plan execution error: "
           +:+ "Command failed: terraform" +:+ nl +:+ "Error: No configuration files"))) /\
  (execSync env cwd "terraform apply -auto-approve"
   = ExecErr "Command failed: terraform" "Error: No configuration files" ->
   tf_apply env cwd st =
     (mkSt (fs st) (trace st ++ [mkCall cwd "terraform apply -auto-approve" false]) (logs st),
      inl ("Terraform apply error: Terraform apply execution error: "
           +:+ "Command failed: terraform" +:+ nl +:+ "Error: No configuration files"))) /\
  (execSync env cwd "terraform output -json"
   = ExecErr "Command failed: terraform" "Error: No configuration files" ->
   tf_output env cwd st =
     (mkSt (fs st) (trace st ++ [mkCall cwd "terraform output -json" false]) (logs st),
      inl ("Terraform output error: Terraform output execution error: "
           +:+ "Command failed: terraform" +:+ nl +:+ "Error: No configuration files"))).
Proof. split; [reflexivity|]. apply wrapper_exec_error_message. reflexivity. Defined.

Lemma wrapper_empty_output_defaults_witness :
  let env := fixed_env (ExecOk "") (inr (JObj [])) in
  let cwd := "/tmp/terraform-X7a2" in
  which_terraform env = true /\
  (execSync env cwd "terraform plan -out=tfplan" = ExecOk "" ->
   snd (tf_plan env cwd SdkScenarios.st0) = inr "Terraform plan completed successfully") /\
  (execSync env cwd "terraform apply -auto-approve" = ExecOk "" ->
   snd (tf_apply env cwd SdkScenarios.st0) = inr "Terraform apply completed successfully") /\
  (execSync env cwd "terraform output -json" = ExecOk "" ->
   snd (tf_output env cwd SdkScenarios.st0) = inr "{}").
Proof. split; [reflexivity|]. apply wrapper_empty_output_defaults. reflexivity. Defined.

Definition app_outputs : list (string * Json) :=
  [("app_service_url", JObj [("sensitive", JBool false); ("type", JStr "string");
                             ("value", JStr "https://tejas-uk-autocloud.azurewebsites.net")]);
   ("resource_group", JObj [("value", JStr "azure-autocloud-rg")])].

Lemma outputs_map_names_to_values_witness :
  let env := fixed_env (ExecOk "") (inr (JObj app_outputs)) in
  (json_parse env "{...}" = inr (JObj app_outputs) /\ NoDup (map fst app_outputs) /\
   Forall (fun kv => kv.2 <> JNull) app_outputs) /\
  exists st' r, parse_outputs env "{...}" SdkScenarios.st0 = (st', inr r) /\ ar_success r = true /\
    ar_message r = "Terraform apply completed successfully" /\
    ar_outputs r = Some (map (fun kv => (kv.1, entry_value kv.2)) app_outputs).
Proof.
  assert (Hnd : NoDup (map fst app_outputs)).
  { apply (bool_decide_unpack _). vm_compute. exact I. }
  assert (Hnn : Forall (fun kv => kv.2 <> JNull) app_outputs).
  { repeat constructor; discriminate. }
  split; [split; [reflexivity|split; [exact Hnd|exact Hnn]]|].
  apply outputs_map_names_to_values; [reflexivity|exact Hnd|exact Hnn].
Defined.

Lemma null_output_entry_drops_outputs_witness :
  let kvs := [("app_service_url", JNull)] in
  let env := fixed_env (ExecOk "") (inr (JObj kvs)) in
  (json_parse env "{...}" = inr (JObj kvs) /\ In ("app_service_url", JNull) kvs) /\
  exists st' r, parse_outputs env "{...}" SdkScenarios.st0 = (st', inr r) /\ ar_success r = true /\
    ar_message r = "Terraform apply completed successfully, but outputs could not be parsed" /\
    ar_outputs r = None.
Proof.
  split; [split; [reflexivity|left; reflexivity]|].
  apply (null_output_entry_drops_outputs _ _ _ [("app_service_url", JNull)] "app_service_url");
    [reflexivity|left; reflexivity].
Defined.

End SdkExtras.

Module RouteExtras.
Import Sdk SdkProofs Routes.

Lemma with_local_logs_catch_resolves {A} (m : M A) (h : string -> M A) (st : St) :
  (forall e s, exists s' a, h e s = (s', inr a)) ->
  exists st' a, with_local_logs (catch m h) st = (st', inr a).
Proof.
  intros H. unfold with_local_logs, catch.
  destruct (m _) as [s [e|a]].
  - destruct (H e s) as (s' & a & ->). simpl. eauto.
  - simpl. eauto.
Qed.

Lemma runTerraformPlan_resolves (env : Env) (id : string) (st : St) :
  exists st' r, runTerraformPlan env id st = (st', inr r).
Proof.
  apply with_local_logs_catch_resolves. intros e s. eexists _, _. reflexivity.
Qed.

Lemma applyTerraformPlan_resolves (env : Env) (id : string) (st : St) :
  exists st' r, applyTerraformPlan env id st = (st', inr r).
Proof.
  apply with_local_logs_catch_resolves. intros e s. eexists _, _. reflexivity.
Qed.

Lemma authenticate_resolves (env : Env) (st : St) :
  exists r, authenticateWithAzure env st = (st, inr r).
Proof.
  destruct st as [f t l].
  unfold authenticateWithAzure, with_local_logs, catch, log, log_all, get_logs, throw,
    mbind, M_bind, mret, M_ret.
  destruct (negb _); simpl; [eexists; reflexivity|].
  destruct (credential_error env); simpl; [eexists; reflexivity|].
  destruct (getToken_error env); simpl; [eexists; reflexivity|].
  destruct (resources_list_error env); simpl; eexists; reflexivity.
Qed.

Lemma eqb_nonempty (s : string) : s <> "" -> String.eqb s "" = false.
Proof. destruct s; [congruence|reflexivity]. Qed.

(** X20: The terraform-plan route never answers 500: without an analysis id
    (absent or empty) it answers 400 "Analysis ID is required" without
    running anything; otherwise [runTerraformPlan] resolves and the route
    answers its result, with 200 when it succeeded and 400 when not. *)
Theorem plan_route_never_500 (env : Env) (aid : option string) (st : St) :
  (present aid = false ->
     plan_route env aid st = (st, inr (400, BMessage "Analysis ID is required"))) /\
  (forall id, aid = Some id -> id <> "" ->
     exists st' r, runTerraformPlan env id st = (st', inr r) /\
       plan_route env aid st = (st', inr (if pr_success r then 200 else 400, BPlan r))).
Proof.
  split.
  - intros Hp. destruct aid as [id|]; [|reflexivity].
    simpl in Hp. destruct (String.eqb id "") eqn:E; [|discriminate].
    unfold plan_route, catch. rewrite E. reflexivity.
  - intros id -> Hid.
    destruct (runTerraformPlan_resolves env id st) as (st' & r & Hr).
    exists st', r. split; [exact Hr|].
    unfold plan_route, catch. rewrite (eqb_nonempty id Hid).
    unfold mbind, M_bind. rewrite Hr.
    destruct (pr_success r); reflexivity.
Qed.

(** X21: The terraform-apply route never answers 500: without an analysis id
    it answers 400 "Analysis ID is required"; otherwise
    [applyTerraformPlan] resolves and the route answers its result, with
    200 when it succeeded and 400 when not. *)
Theorem apply_route_never_500 (env : Env) (aid : option string) (st : St) :
  (present aid = false ->
     apply_route env aid st = (st, inr (400, BMessage "Analysis ID is required"))) /\
  (forall id, aid = Some id -> id <> "" ->
     exists st' r, applyTerraformPlan env id st = (st', inr r) /\
       apply_route env aid st = (st', inr (if ar_success r then 200 else 400, BApply r))).
Proof.
  split.
  - intros Hp. destruct aid as [id|]; [|reflexivity].
    simpl in Hp. destruct (String.eqb id "") eqn:E; [|discriminate].
    unfold apply_route, catch. rewrite E. reflexivity.
  - intros id -> Hid.
    destruct (applyTerraformPlan_resolves env id st) as (st' & r & Hr).
    exists st', r. split; [exact Hr|].
    unfold apply_route, catch. rewrite (eqb_nonempty id Hid).
    unfold mbind, M_bind. rewrite Hr.
    destruct (ar_success r); reflexivity.
Qed.

(** X22: The authenticate route never answers 500 and leaves the state as it
    was: it answers the [authenticateWithAzure] result, with 200 when it
    succeeded and 401 when not. *)
Theorem authenticate_route_never_500 (env : Env) (st : St) :
  exists r, authenticateWithAzure env st = (st, inr r) /\
    authenticate_route env st = (st, inr (if au_success r then 200 else 401, BAuth r)).
Proof.
  destruct (authenticate_resolves env st) as (r & Hr).
  exists r. split; [exact Hr|].
  unfold authenticate_route, catch, mbind, M_bind. rewrite Hr.
  destruct (au_success r); reflexivity.
Qed.

(** X23: The configure route with four non-empty fields stores them in
    [process.env] and tests them: it answers 200 when the credential
    and the token request succeed, and 401 "Invalid Azure credentials"
    otherwise, with the authentication message as details; it never
    answers 400 or 500 there, and leaves the state as it was. *)
Theorem configure_with_fields (env : Env) (t c s sub : string) (st : St)
    (Ht : t <> "") (Hc : c <> "") (Hs : s <> "") (Hsub : sub <> "") :
  configure_route env (Some t) (Some c) (Some s) (Some sub) st =
  (st, inr (set_env (set_env (set_env (set_env env
              "AZURE_TENANT_ID" (Some t)) "AZURE_CLIENT_ID" (Some c))
              "AZURE_CLIENT_SECRET" (Some s)) "AZURE_SUBSCRIPTION_ID" (Some sub),
            match credential_error env with
            | Some e => (401, BDetails "Invalid Azure credentials"
                                ("Azure authentication failed: " +:+ or_unknown e))
            | None =>
                match getToken_error env with
                | Some _ => (401, BDetails "Invalid Azure credentials"
                                    "Azure authentication failed: Invalid credentials")
                | None => (200, BConfigured "Azure credentials configured successfully")
                end
            end)).
Proof.
  destruct st as [f tr l].
  apply eqb_nonempty in Ht, Hc, Hs, Hsub.
  unfold configure_route, present. rewrite Ht, Hc, Hs, Hsub. simpl.
  unfold catch, authenticateWithAzure, with_local_logs, catch, log, log_all, get_logs, throw,
    mbind, M_bind, mret, M_ret, env_set. simpl.
  rewrite Ht, Hc, Hs, Hsub. simpl.
  destruct (credential_error env); simpl; [reflexivity|].
  destruct (getToken_error env); simpl; [reflexivity|].
  destruct (resources_list_error env); reflexivity.
Qed.

(** X24: After the configure route, [AZURE_ACCESS_TOKEN] is what it was
    before, whatever the answer; so after a 200 the status route reports
    a connection exactly when an access token was already set: the
    route's own success never makes the status connected. *)
Theorem configure_keeps_access_token (env : Env) (t c s sub : option string)
    (st st' : St) (env' : Env) (resp : Response)
    (Hrun : configure_route env t c s sub st = (st', inr (env', resp))) :
  process_env env' "AZURE_ACCESS_TOKEN" = process_env env "AZURE_ACCESS_TOKEN" /\
  (resp.1 = 200 -> status_route env' = (200, BStatus (env_set env "AZURE_ACCESS_TOKEN"))).
Proof.
  unfold configure_route in Hrun.
  destruct (present t && present c && present s && present sub) eqn:Hp; simpl in Hrun.
  - apply andb_prop in Hp as [_ Hsub].
    unfold catch, mbind, M_bind in Hrun.
    match type of Hrun with
    | context [authenticateWithAzure ?e st] =>
        destruct (authenticate_resolves e st) as (r & Hr); rewrite Hr in Hrun
    end.
    destruct (au_success r); simpl in Hrun; injection Hrun as _ <- <-; simpl.
    + split; [reflexivity|]. intros _. unfold status_route, env_set. simpl.
      destruct sub as [v|]; [|discriminate]. simpl in Hsub. rewrite Hsub.
      rewrite andb_true_r; reflexivity.
    + split; [reflexivity|]. discriminate.
  - injection Hrun as _ <- <-. split; [reflexivity|]. discriminate.
Qed.

(** X25: After the disconnect route the status route reports no connection,
    the account-info route answers 404, and the authenticate route
    answers 401 with the missing-credentials result, since
    [AZURE_SUBSCRIPTION_ID] is deleted. *)
Theorem disconnect_clears_connection (env : Env) (st : St) :
  let env' := (disconnect_route env).1 in
  status_route env' = (200, BStatus false) /\
  account_info_route env' = (404, BMessage "No Azure account connected") /\
  authenticate_route env' st =
    (st, inr (401, BAuth (mkAuth false "Azure authentication failed: Missing required credentials"
                            (auth_start ++ missing_credentials_lines) false None))).
Proof.
  destruct st as [f tr l].
  cbv zeta. split; [|split].
  - reflexivity.
  - reflexivity.
  - unfold authenticate_route, authenticateWithAzure, with_local_logs, catch, log, log_all,
      get_logs, mbind, M_bind, mret, M_ret, env_set. simpl.
    rewrite andb_false_r. reflexivity.
Qed.

(** The configure route with four non-empty fields, on a server whose
    SDK accepts the credentials, answers 200. *)
Lemma configure_with_fields_witness :
  configure_route (SdkScenarios.sdk_env (fun _ => None) None "")
    (Some "tenant") (Some "client") (Some "secret") (Some "sub") SdkScenarios.st0 =
  (SdkScenarios.st0,
   inr (set_env (set_env (set_env (set_env (SdkScenarios.sdk_env (fun _ => None) None "")
          "AZURE_TENANT_ID" (Some "tenant")) "AZURE_CLIENT_ID" (Some "client"))
          "AZURE_CLIENT_SECRET" (Some "secret")) "AZURE_SUBSCRIPTION_ID" (Some "sub"),
        (200, BConfigured "Azure credentials configured successfully"))).
Proof.
  apply (configure_with_fields (SdkScenarios.sdk_env (fun _ => None) None "")
           "tenant" "client" "secret" "sub" SdkScenarios.st0); discriminate.
Defined.

Definition configured_env : Env :=
  set_env (set_env (set_env (set_env (SdkScenarios.sdk_env (fun _ => None) None "")
    "AZURE_TENANT_ID" (Some "tenant")) "AZURE_CLIENT_ID" (Some "client"))
    "AZURE_CLIENT_SECRET" (Some "secret")) "AZURE_SUBSCRIPTION_ID" (Some "sub").

(** A 200 from the configure route on a server without an access token
    leaves the status route reporting no connection. *)
Lemma configure_keeps_access_token_witness :
  configure_route (SdkScenarios.sdk_env (fun _ => None) None "")
    (Some "tenant") (Some "client") (Some "secret") (Some "sub") SdkScenarios.st0 =
  (SdkScenarios.st0, inr (configured_env, (200, BConfigured "Azure credentials configured successfully")))
  /\ status_route configured_env = (200, BStatus false).
Proof.
  assert (Hrun : configure_route (SdkScenarios.sdk_env (fun _ => None) None "")
    (Some "tenant") (Some "client") (Some "secret") (Some "sub") SdkScenarios.st0 =
    (SdkScenarios.st0, inr (configured_env, (200, BConfigured "Azure credentials configured successfully"))))
    by reflexivity.
  split; [exact Hrun|].
  destruct (configure_keeps_access_token _ _ _ _ _ _ _ _ _ Hrun) as [_ H].
  exact (H eq_refl).
Defined.

End RouteExtras.
